(** * GoCreate -> monday.com customer sync: a model of [src/index.ts]

    The development embeds [runSync] and the helpers it calls as functions
    over an explicit state: the journal of calls made to the outside world,
    the key-value storage and the local counters of [runSync].  The outside
    world (process environment, secrets, wall clock, the two HTTP APIs) is a
    record of oracles; an oracle sees the journal so far, so every
    deterministic behaviour of the vendors is covered.

    Modelling conventions.
    - A JS string is a [string]: the bytes of its UTF-8 encoding.  Equality,
      concatenation, emptiness and a search for an ASCII pattern are those
      of the bytes.
    - A JS number is a [JSNum], by value: an integer, a finite number that
      is not an integer, NaN or an infinity.  Arithmetic on numbers that
      are not integers is that of IEEE 754 binary64 ([SpecFloat]).
    - [Number], [String] of a number, [String.prototype.trim],
      [String.prototype.toLowerCase], [Date.parse], [Intl.DateTimeFormat]
      and [new URL] belong to the runtime; they are the fields of the class
      [Platform], and [Runtime.node] is a reference instance used in the
      examples (it knows ASCII text and decimal literals).
    - [await] is sequencing: a call and its answer are one step of one run;
      runs do not interleave.
    - The Storage of the apps SDK is a key-value store that keeps what it is
      given; secrets and env vars are read without effect.
    - [JSON.stringify] of the column values is left out: a write carries the
      object itself, as a finite map from column id to value.
    - A POST handler is a function of the one request header it reads; the
      routing and the middleware of Express are left out.  A log entry of
      the journal keeps its message, not its level or its payload. *)

From Stdlib Require Import ZArith String Ascii List Bool Lia SpecFloat.
From stdpp Require Import base option gmap strings list pretty.

Local Open Scope string_scope.
Local Open Scope Z_scope.

(** ** JavaScript strings *)

Module JSString.

(** The lower case of an ASCII letter. *)
Definition lowerChar (c : ascii) : ascii :=
  let n := nat_of_ascii c in
  if ((65 <=? n) && (n <=? 90))%nat then ascii_of_nat (n + 32) else c.

(** The case folding of a regular expression with the flag [i] and an ASCII
    pattern: the ASCII letters are folded, every other byte is kept. *)
Fixpoint asciiLowerCase (s : string) : string :=
  match s with
  | String c s' => String (lowerChar c) (asciiLowerCase s')
  | EmptyString => EmptyString
  end.

(** [String.prototype.includes] *)
Fixpoint includes (hay needle : string) : bool :=
  String.prefix needle hay ||
  match hay with
  | String _ hay' => includes hay' needle
  | EmptyString => false
  end.

(** [Array.prototype.join] on strings *)
Fixpoint join (sep : string) (l : list string) : string :=
  match l with
  | [] => ""
  | [x] => x
  | x :: l' => x ++ sep ++ join sep l'
  end.

Definition isDigit (c : ascii) : bool :=
  let n := nat_of_ascii c in ((48 <=? n) && (n <=? 57))%nat.

(** A string is falsy exactly when it is empty. *)
Definition truthy (s : string) : bool :=
  match s with EmptyString => false | _ => true end.

End JSString.
Export JSString.

(** ** JavaScript numbers *)

(** A Number by its value: [Num z] is the integer z, [Frac m e] is
    m * 2^e when that is not an integer.  The two zeros are one value. *)
Inductive JSNum : Type :=
| Num (z : Z)
| Frac (m e : Z)
| NaN
| Infinity (negative : bool).

(** [a === b] *)
Definition JSNum_eqb (a b : JSNum) : bool :=
  match a, b with
  | Num x, Num y => x =? y
  | Frac m e, Frac m' e' => (m =? m') && (e =? e')
  | Infinity s, Infinity t => Bool.eqb s t
  | _, _ => false
  end.

(** [Number.isFinite] *)
Definition isFinite (n : JSNum) : bool :=
  match n with Num _ | Frac _ _ => true | _ => false end.

(** ** Dates: time values are milliseconds since the epoch *)

Module JSDate.

Definition msPerDay : Z := 86400000.

(** Largest time value of a valid Date. *)
Definition maxTime : Z := 8640000000000000.

(** Days since 1970-01-01 of a proleptic Gregorian date. *)
Definition days_from_civil (y m d : Z) : Z :=
  let y' := if m <=? 2 then y - 1 else y in
  let era := y' / 400 in
  let yoe := y' - era * 400 in
  let mp := if m >? 2 then m - 3 else m + 9 in
  let doy := (153 * mp + 2) / 5 + d - 1 in
  let doe := yoe * 365 + yoe / 4 - yoe / 100 + doy in
  era * 146097 + doe - 719468.

(** Year, month and day of a day number. *)
Definition civil_from_days (z : Z) : Z * Z * Z :=
  let z := z + 719468 in
  let era := z / 146097 in
  let doe := z - era * 146097 in
  let yoe := (doe - doe / 1460 + doe / 36524 - doe / 146096) / 365 in
  let y := yoe + era * 400 in
  let doy := doe - (365 * yoe + yoe / 4 - yoe / 100) in
  let mp := (5 * doy + 2) / 153 in
  let d := doy - (153 * mp + 2) / 5 + 1 in
  let m := if mp <? 10 then mp + 3 else mp - 9 in
  (if m <=? 2 then y + 1 else y, m, d).

(** Day of the week, 0 = Sunday. *)
Definition weekday (days : Z) : Z := (days + 4) mod 7.

Definition digit (n : Z) : string :=
  String (ascii_of_nat (48 + Z.to_nat (n mod 10))) "".

Definition pad2 (n : Z) : string := digit (n / 10) ++ digit n.
Definition pad3 (n : Z) : string := digit (n / 100) ++ pad2 n.
Definition pad4 (n : Z) : string := pad2 (n / 100) ++ pad2 n.
Definition pad6 (n : Z) : string := pad2 (n / 10000) ++ pad4 n.

Definition isoYear (y : Z) : string :=
  if (0 <=? y) && (y <=? 9999) then pad4 y
  else if y <? 0 then "-" ++ pad6 (- y) else "+" ++ pad6 y.

(** [Date.prototype.toISOString]; [None] is the RangeError of an invalid
    Date. *)
Definition toISOString (t : Z) : option string :=
  if (- maxTime <=? t) && (t <=? maxTime) then
    let '(y, m, d) := civil_from_days (t / msPerDay) in
    let ms := t mod msPerDay in
    Some (isoYear y ++ "-" ++ pad2 m ++ "-" ++ pad2 d ++ "T"
          ++ pad2 (ms / 3600000) ++ ":" ++ pad2 (ms / 60000 mod 60) ++ ":"
          ++ pad2 (ms / 1000 mod 60) ++ "." ++ pad3 (ms mod 1000) ++ "Z")
  else None.

(** IEEE 754 binary64, the arithmetic of a Number. *)
Definition double_of (m e : Z) : spec_float := binary_normalize 53 1024 m e false.

Definition toDouble (n : JSNum) : spec_float :=
  match n with
  | Num z => double_of z 0
  | Frac m e => double_of m e
  | NaN => S754_nan
  | Infinity b => S754_infinity b
  end.

Definition times (x : spec_float) (z : Z) : spec_float :=
  SFmul 53 1024 x (double_of z 0).

(** TimeClip: the time value of [new Date(x)], [None] for an invalid Date. *)
Definition timeClip (x : spec_float) : option Z :=
  match x with
  | S754_zero _ => Some 0
  | S754_finite s m e =>
      let a := if 0 <=? e then Z.pos m * 2 ^ e else Z.pos m / 2 ^ (- e) in
      if a <=? maxTime then Some (if s then - a else a) else None
  | S754_nan | S754_infinity _ => None
  end.

(** [new Date(now - days * 24 * 60 * 60 * 1000)] for a reading [now] of the
    clock: its time value, [None] for an invalid Date.  A whole number of
    days is subtracted in the integers: for a reading of the clock, which
    is the time value of a valid Date, binary64 gives that same time value
    when the Date is valid, and an invalid Date when it is not. *)
Definition daysBefore (now : Z) (days : JSNum) : option Z :=
  match days with
  | Num n =>
      let t := now - n * 24 * 60 * 60 * 1000 in
      if (- maxTime <=? t) && (t <=? maxTime) then Some t else None
  | _ =>
      timeClip (SFsub 53 1024 (double_of now 0)
                      (times (times (times (times (toDouble days) 24) 60) 60) 1000))
  end.

(** [new Date(now - days * 24 * 60 * 60 * 1000).toISOString()]; [None] is
    the RangeError. *)
Definition isoDaysAgo (now : Z) (days : JSNum) : option string :=
  match daysBefore now days with
  | Some t => toISOString t
  | None => None
  end.

End JSDate.
Export JSDate.

(** ** The runtime *)

(** What the program takes from the JavaScript runtime without fixing it. *)
Class Platform : Type := {
  (** [Number(s)] *)
  Number_ : string -> JSNum;
  (** [String(n)] for a number written with a fraction or an exponent *)
  Number_toString : JSNum -> string;
  (** [s.trim()] *)
  trim : string -> string;
  (** [s.toLowerCase()] *)
  toLowerCase : string -> string;
  (** [new Date(s).getTime()]; [None] is NaN *)
  Date_parse : string -> option Z;
  (** [new Intl.DateTimeFormat("sv-SE", {timeZone: "Europe/Stockholm", ...})
      .formatToParts(date)], as pairs of type and value *)
  Intl_formatToParts : Z -> list (string * string);
  (** [new URL(path, base).toString()]; [None] is the TypeError *)
  URL_ : string -> string -> option string;
  (** Nothing is left of the empty string, and only of the empty string is
      the lower case empty. *)
  trim_empty : trim "" = "";
  toLowerCase_empty : forall s, toLowerCase s = "" -> s = ""
}.

(** [String(n)]: an integer below 10^21 is written with its digits. *)
Definition String_of_num `{Platform} (n : JSNum) : string :=
  match n with
  | Num z => if Z.abs z <? 10 ^ 21 then pretty z else Number_toString n
  | Frac _ _ => Number_toString n
  | NaN => "NaN"
  | Infinity false => "Infinity"
  | Infinity true => "-Infinity"
  end.

(** ** Data exchanged with the two vendors *)

Record GoCreateCustomerInfo : Type := {
  FirstName : option string;
  LastName : option string;
  MobileNumber : option string;
  Email : option string;
  CompanyName : option string
}.

Record GoCreateByDateRangeResponse : Type := {
  CustomerInfo : option (list GoCreateCustomerInfo);
  IsValidResult : option bool;
  ErrorCode : option string;
  ErrorMessage : option string
}.

(** The JSON body posted to [/Customer/ByDateRange/]. *)
Record GoCreateRequest : Type := {
  req_url : string;
  DateTime : string;
  EndDateTime : string;
  UserName : string;
  Password : string;
  AuthenticationToken : string
}.

Record Item : Type := { id : string; name : string }.

(** The three GraphQL documents of the program with their variables.
    [column_values] of the two mutations is the object that the source
    passes through [JSON.stringify]. *)
Inductive MondayQuery : Type :=
| items_page_by_column_values
    (board_id column_id : string) (column_values : list string) (limit : Z)
| create_item
    (board_id group_id item_name : string) (column_values : gmap string string)
| change_multiple_column_values
    (board_id item_id : string) (column_values : gmap string string).

(** The [data] member of a GraphQL answer, as far as the program reads it:
    the items of [items_page_by_column_values], if the member is there, and
    of [create_item], if the member is there, its [id], if it has one. *)
Record MondayData : Type := {
  items_page_items : option (list Item);
  create_item_id : option (option string)
}.

Record MondayJson : Type := {
  json_errors : list string;
  json_data : option MondayData
}.

(** An HTTP response; [json = None] when the body does not parse. *)
Record HttpResponse (J : Type) : Type := {
  status : Z;
  text : string;
  json : option J
}.
Arguments status {J} _.
Arguments text {J} _.
Arguments json {J} _.

Definition ok {J} (res : HttpResponse J) : bool :=
  (200 <=? status res) && (status res <=? 299).

(** ** Exceptions *)

Record Exn : Type := { exn_name : string; exn_message : string }.

Definition Error (msg : string) : Exn := {| exn_name := "Error"; exn_message := msg |}.
Definition TypeError (msg : string) : Exn := {| exn_name := "TypeError"; exn_message := msg |}.
Definition RangeError (msg : string) : Exn := {| exn_name := "RangeError"; exn_message := msg |}.
Definition SyntaxError (msg : string) : Exn := {| exn_name := "SyntaxError"; exn_message := msg |}.
Definition MondayAuthError (msg : string) : Exn :=
  {| exn_name := "MondayAuthError"; exn_message := msg |}.

(** ** The journal, the world and the state *)

Inductive Event : Type :=
| EvNow (t : Z)                               (* new Date(), Date.now() *)
| EvStorageGet (key : string)
| EvStorageSet (key value : string)
| EvGoCreate (req : GoCreateRequest)
| EvMonday (token : string) (q : MondayQuery)
| EvSleep (ms : Z)
| EvLog (msg : string).

(** The outside world.  A fetch answers [None] when it rejects. *)
Record World : Type := {
  process_env : gmap string string;
  secret_store : gmap string string;
  wall_clock : list Event -> Z;
  gocreate_api : list Event -> GoCreateRequest ->
                 option (HttpResponse GoCreateByDateRangeResponse);
  monday_api : list Event -> string -> MondayQuery ->
               option (HttpResponse MondayJson)
}.

Record ErrorEntry : Type := { err_email : option string; err_error : string }.

(** The mutable locals of [runSync]. *)
Record Counters : Type := {
  created : nat;
  updated : nat;
  skippedExisting : nat;
  skippedNoEmail : nat;
  errors : list ErrorEntry
}.

Definition zero : Counters :=
  {| created := 0; updated := 0; skippedExisting := 0; skippedNoEmail := 0;
     errors := [] |}.

Record State : Type := {
  journal : list Event;
  storage : gmap string string;
  vars : Counters
}.

Definition log_event (ev : Event) (s : State) : State :=
  {| journal := journal s ++ [ev]; storage := storage s; vars := vars s |}.

Definition set_storage (k v : string) (s : State) : State :=
  {| journal := journal s; storage := <[k := v]> (storage s); vars := vars s |}.

Definition set_vars (c : Counters) (s : State) : State :=
  {| journal := journal s; storage := storage s; vars := c |}.

(** ** The monad of the program: state and exceptions *)

Inductive Res (A : Type) : Type :=
| Ok (a : A)
| Throw (e : Exn).
Arguments Ok {A} a.
Arguments Throw {A} e.

Definition M (A : Type) : Type := State -> Res A * State.

#[global] Instance M_ret : MRet M := fun A a s => (Ok a, s).

#[global] Instance M_bind : MBind M := fun A B f m s =>
  match m s with
  | (Ok a, s') => f a s'
  | (Throw e, s') => (Throw e, s')
  end.

Definition throw {A} (e : Exn) : M A := fun s => (Throw e, s).

(** [try { m } catch (e) { h e }] *)
Definition try_catch {A} (m : M A) (h : Exn -> M A) : M A := fun s =>
  match m s with
  | (Ok a, s') => (Ok a, s')
  | (Throw e, s') => h e s'
  end.

Definition emit (ev : Event) : M unit := fun s => (Ok tt, log_event ev s).

Definition update_vars (f : Counters -> Counters) : M unit :=
  fun s => (Ok tt, set_vars (f (vars s)) s).

Definition read_vars : M Counters := fun s => (Ok (vars s), s).

(** ** The program *)

Definition MONDAY_API_URL : string := "https://api.monday.com/v2".
Definition TZ : string := "Europe/Stockholm".

Record StorageResult : Type := { success : bool; value : option string }.

Record StockholmParts : Type := { yyyyMMdd : string; hour : JSNum; minute : JSNum }.

Record RuntimeSecrets : Type := {
  mondayAccessToken : string;
  gocreateBaseUrl : string;
  gocreateUsername : string;
  gocreatePassword : string;
  gocreateAuthToken : string
}.

(** The constants that the loop of [runSync] closes over. *)
Record Settings : Type := {
  dryRun : bool;
  updateExisting : bool;
  mondayToken : string;
  boardId : JSNum;
  groupId : string;
  colEmail : string;
  colTelefon : string;
  colForetag : string
}.

Record SyncResult : Type := {
  tz : string;
  stockholmDate : string;
  forced : bool;
  window : string * string;            (* startISO, endISO *)
  fetched : nat;
  counts : Counters;                   (* created ... errors *)
  finishedUtc : string
}.

(** What [runSync] resolves to. *)
Inductive Outcome : Type :=
| Skipped                              (* { skipped: true } *)
| AlreadyRan (date : string)           (* { skipped: true, alreadyRan: true, date } *)
| Finished (result : SyncResult).

(** [/^\d{4}-\d{2}-\d{2}T/.test(s)] *)
Definition isoDatePrefix (s : string) : bool :=
  match s with
  | String y1 (String y2 (String y3 (String y4 (String h1 (String m1
      (String m2 (String h2 (String d1 (String d2 (String t _)))))))))) =>
      isDigit y1 && isDigit y2 && isDigit y3 && isDigit y4 && Ascii.eqb h1 "-"
      && isDigit m1 && isDigit m2 && Ascii.eqb h2 "-"
      && isDigit d1 && isDigit d2 && Ascii.eqb t "T"
  | _ => false
  end.

(** [/unauthorized|authentication|not authorized|invalid token/i.test(msg)] *)
Definition authLike (msg : string) : bool :=
  let m := asciiLowerCase msg in
  includes m "unauthorized" || includes m "authentication"
  || includes m "not authorized" || includes m "invalid token".

(** A value interpolated in a template literal. *)
Definition interpolate (o : option string) : string := default "undefined" o.

Definition ranKey : string := "sync:lastRunDateStockholm".
Definition lastRunKey : string := "sync:lastRunISO".

Section Sync.

Context `{Platform} (W : World).

(** [mustGetEnv], index.ts 29-33 *)
Definition mustGetEnv (name : string) : M string :=
  match process_env W !! name with
  | Some v => if truthy v then mret v else throw (Error ("Missing env var: " ++ name))
  | None => throw (Error ("Missing env var: " ++ name))
  end.

(** [getEnv], index.ts 34-37 *)
Definition getEnv (name : string) : option string :=
  match process_env W !! name with
  | Some v => if truthy v && truthy (trim v) then Some (trim v) else None
  | None => None
  end.

(** [getEnvBool], index.ts 38-42 *)
Definition getEnvBool (name : string) (fallback : bool) : bool :=
  match process_env W !! name with
  | Some v =>
      if truthy v
      then existsb (String.eqb (toLowerCase v)) ["1"; "true"; "yes"; "y"; "on"]
      else fallback
  | None => fallback
  end.

(** [getEnvInt], index.ts 43-48 *)
Definition getEnvInt (name : string) (fallback : JSNum) : JSNum :=
  match process_env W !! name with
  | Some v =>
      if truthy v
      then let n := Number_ v in if isFinite n then n else fallback
      else fallback
  | None => fallback
  end.

(** [sleep], index.ts 49-51 *)
Definition sleep (ms : Z) : M unit := emit (EvSleep ms).

(** [new Date()] and [Date.now()]: one reading of the clock. *)
Definition newDate : M Z := fun s =>
  let t := wall_clock W (journal s) in (Ok t, log_event (EvNow t) s).

(** [date.toISOString()], throwing on an invalid Date *)
Definition dateToISOString (t : Z) : M string :=
  match toISOString t with
  | Some iso => mret iso
  | None => throw (RangeError "Invalid time value")
  end.

(** [isoNowUtc], index.ts 52-54 *)
Definition isoNowUtc : M string :=
  t ← newDate; dateToISOString t.

(** [isoDaysAgoUtc], index.ts 55-57 *)
Definition isoDaysAgoUtc (days : JSNum) : M string :=
  t ← newDate;
  match isoDaysAgo t days with
  | Some iso => mret iso
  | None => throw (RangeError "Invalid time value")
  end.

(** [isValidIsoDate], index.ts 58-61 *)
Definition isValidIsoDate (s : string) : bool :=
  bool_decide (is_Some (Date_parse s)) && isoDatePrefix s.

(** [stockholmParts], index.ts 66-89 *)
Definition stockholmParts (date : Z) : StockholmParts :=
  let parts : gmap string string :=
    fold_left (fun acc p =>
                 if String.eqb (fst p) "literal" then acc
                 else <[fst p := snd p]> acc)
              (Intl_formatToParts date) ∅ in
  let yyyy := parts !! "year" in
  let mm := parts !! "month" in
  let dd := parts !! "day" in
  let hour := from_option Number_ NaN (parts !! "hour") in
  let minute := from_option Number_ NaN (parts !! "minute") in
  {| yyyyMMdd := interpolate yyyy ++ "-" ++ interpolate mm ++ "-" ++ interpolate dd;
     hour := hour; minute := minute |}.

(** [fetch(MONDAY_API_URL, ...)] *)
Definition fetchMonday (token : string) (q : MondayQuery)
  : M (HttpResponse MondayJson) := fun s =>
  match monday_api W (journal s) token q with
  | Some res => (Ok res, log_event (EvMonday token q) s)
  | None => (Throw (TypeError "fetch failed"), log_event (EvMonday token q) s)
  end.

(** [mondayGraphql], index.ts 98-124 *)
Definition mondayGraphql (token : string) (q : MondayQuery) : M MondayData :=
  res ← fetchMonday token q;
  if (status res =? 401) || (status res =? 403) then
    throw (MondayAuthError
             ("monday auth failed HTTP " ++ pretty (status res) ++ ": " ++ text res))
  else if negb (ok res) then
    throw (Error ("monday HTTP " ++ pretty (status res) ++ ": " ++ text res))
  else
    match json res with
    | None => throw (SyntaxError "Unexpected token")
    | Some j =>
        if negb (Nat.eqb (length (json_errors j)) 0) then
          let msg := join " | " (json_errors j) in
          if authLike msg
          then throw (MondayAuthError ("monday auth failed (GraphQL): " ++ msg))
          else throw (Error ("monday GraphQL: " ++ msg))
        else
          match json_data j with
          | None => throw (Error "monday: missing data")
          | Some d => mret d
          end
    end.

(** [mondayFindItemByColumnValue], index.ts 126-151 *)
Definition mondayFindItemByColumnValue
    (token : string) (boardId : JSNum) (columnId value : string)
  : M (option Item) :=
  data ← mondayGraphql token
           (items_page_by_column_values (String_of_num boardId) columnId [value] 1);
  match items_page_items data with
  | Some items => mret (head items)
  | None => throw (TypeError "Cannot read properties of undefined (reading 'items')")
  end.

(** [mondayCreateItem], index.ts 153-174 *)
Definition mondayCreateItem
    (token : string) (boardId : JSNum) (groupId itemName : string)
    (columnValues : gmap string string) : M (option string) :=
  data ← mondayGraphql token
           (create_item (String_of_num boardId) groupId itemName columnValues);
  match create_item_id data with
  | Some i => mret i                                   (* data.create_item.id *)
  | None => throw (TypeError "Cannot read properties of undefined (reading 'id')")
  end.

(** [mondayUpdateItemColumns], index.ts 176-193 *)
Definition mondayUpdateItemColumns
    (token : string) (boardId : JSNum) (itemId : string)
    (columnValues : gmap string string) : M unit :=
  _ ← mondayGraphql token
        (change_multiple_column_values (String_of_num boardId) itemId columnValues);
  mret tt.

(** [fetch(url, ...)] of the source system *)
Definition fetchGoCreate (req : GoCreateRequest)
  : M (HttpResponse GoCreateByDateRangeResponse) := fun s =>
  match gocreate_api W (journal s) req with
  | Some res => (Ok res, log_event (EvGoCreate req) s)
  | None => (Throw (TypeError "fetch failed"), log_event (EvGoCreate req) s)
  end.

(** [goCreateFetchCustomersByDateRange], index.ts 195-226 *)
Definition goCreateFetchCustomersByDateRange
    (baseUrl startISO endISO userName password authToken : string)
  : M (list GoCreateCustomerInfo) :=
  match URL_ "/Customer/ByDateRange/" baseUrl with
  | None => throw (TypeError "Invalid URL")
  | Some url =>
      res ← fetchGoCreate
              {| req_url := url; DateTime := startISO; EndDateTime := endISO;
                 UserName := userName; Password := password;
                 AuthenticationToken := authToken |};
      if negb (ok res) then
        throw (Error ("GoCreate HTTP " ++ pretty (status res) ++ ": " ++ text res))
      else
        match json res with
        | None => throw (SyntaxError "Unexpected token")
        | Some j =>
            if bool_decide (IsValidResult j = Some false) then
              throw (Error (trim ("GoCreate invalid result: "
                                  ++ trim (default "" (ErrorCode j)) ++ " "
                                  ++ trim (default "" (ErrorMessage j)))))
            else mret (default [] (CustomerInfo j))
        end
  end.

(** [getSecrets], index.ts 236-251 *)
Definition getSecrets : M RuntimeSecrets :=
  let secret name := secret_store W !! name in
  let mondayAccessToken := secret "MONDAY_ACCESS_TOKEN" in
  let gocreateUsername := secret "GOCREATE_USERNAME" in
  let gocreatePassword := secret "GOCREATE_PASSWORD" in
  let gocreateAuthToken := secret "GOCREATE_AUTH_TOKEN" in
  let gocreateBaseUrl := default "http://api.gocreate.nu" (secret "GOCREATE_BASE_URL") in
  let present o := from_option truthy false o in
  if negb (present mondayAccessToken) then
    throw (Error "Missing secret: MONDAY_ACCESS_TOKEN")
  else if negb (present gocreateUsername) || negb (present gocreatePassword)
          || negb (present gocreateAuthToken) then
    throw (Error "Missing GoCreate secrets: GOCREATE_USERNAME / GOCREATE_PASSWORD / GOCREATE_AUTH_TOKEN")
  else
    mret {| mondayAccessToken := default "" mondayAccessToken;
            gocreateBaseUrl := gocreateBaseUrl;
            gocreateUsername := default "" gocreateUsername;
            gocreatePassword := default "" gocreatePassword;
            gocreateAuthToken := default "" gocreateAuthToken |}.

(** The Storage of the apps SDK: a key-value store. *)
Definition storage_get (key : string) : M StorageResult := fun s =>
  (Ok match storage s !! key with
      | Some v => {| success := true; value := Some v |}
      | None => {| success := false; value := None |}
      end,
   log_event (EvStorageGet key) s).

Definition storage_set (key v : string) : M unit := fun s =>
  (Ok tt, set_storage key v (log_event (EvStorageSet key v) s)).

Definition logger_info (msg : string) : M unit := emit (EvLog msg).

(** The local computations of one loop iteration, index.ts 307-325. *)

Definition emailRaw (c : GoCreateCustomerInfo) : string :=
  trim (default "" (Email c)).

Definition email (c : GoCreateCustomerInfo) : string :=
  toLowerCase (emailRaw c).

Definition itemName (c : GoCreateCustomerInfo) : string :=
  let firstName := trim (default "" (FirstName c)) in
  let lastName := trim (default "" (LastName c)) in
  let full := trim (firstName ++ " " ++ lastName) in
  if truthy full then full else email c.

Definition columnValues (cfg : Settings) (c : GoCreateCustomerInfo)
  : gmap string string :=
  let mobile := trim (default "" (MobileNumber c)) in
  let company := trim (default "" (CompanyName c)) in
  <[colForetag cfg := company]>
    (<[colEmail cfg := email c]> (<[colTelefon cfg := mobile]> ∅)).

Definition incr_created (c : Counters) : Counters :=
  {| created := S (created c); updated := updated c;
     skippedExisting := skippedExisting c; skippedNoEmail := skippedNoEmail c;
     errors := errors c |}.

Definition incr_updated (c : Counters) : Counters :=
  {| created := created c; updated := S (updated c);
     skippedExisting := skippedExisting c; skippedNoEmail := skippedNoEmail c;
     errors := errors c |}.

Definition incr_skippedExisting (c : Counters) : Counters :=
  {| created := created c; updated := updated c;
     skippedExisting := S (skippedExisting c); skippedNoEmail := skippedNoEmail c;
     errors := errors c |}.

Definition incr_skippedNoEmail (c : Counters) : Counters :=
  {| created := created c; updated := updated c;
     skippedExisting := skippedExisting c; skippedNoEmail := S (skippedNoEmail c);
     errors := errors c |}.

Definition push_error (e : ErrorEntry) (c : Counters) : Counters :=
  {| created := created c; updated := updated c;
     skippedExisting := skippedExisting c; skippedNoEmail := skippedNoEmail c;
     errors := errors c ++ [e] |}.

(** The [try] block of the loop, for one customer, index.ts 306-342. *)
Definition tryBlock (cfg : Settings) (c : GoCreateCustomerInfo) : M unit :=
  if negb (truthy (emailRaw c)) then
    update_vars incr_skippedNoEmail                       (* continue *)
  else
    found ← mondayFindItemByColumnValue
              (mondayToken cfg) (boardId cfg) (colEmail cfg) (email c);
    _ ← match found with
        | None =>
            _ ← (if negb (dryRun cfg)
                 then _ ← mondayCreateItem (mondayToken cfg) (boardId cfg)
                            (groupId cfg) (itemName c) (columnValues cfg c);
                      mret tt
                 else mret tt);
            update_vars incr_created
        | Some found =>
            if negb (updateExisting cfg) then
              update_vars incr_skippedExisting
            else
              _ ← (if negb (dryRun cfg)
                   then mondayUpdateItemColumns (mondayToken cfg) (boardId cfg)
                          (id found) (columnValues cfg c)
                   else mret tt);
              update_vars incr_updated
        end;
    sleep 120.

(** The [catch] block, index.ts 342-346. *)
Definition catchBlock (c : GoCreateCustomerInfo) (e : Exn) : M unit :=
  if String.eqb (exn_name e) "MondayAuthError" then throw e
  else update_vars (push_error {| err_email := Email c; err_error := exn_message e |}).

Definition loopBody (cfg : Settings) (c : GoCreateCustomerInfo) : M unit :=
  try_catch (tryBlock cfg c) (catchBlock c).

(** [for (const c of customers) { ... }], index.ts 305-347 *)
Fixpoint forOf (cfg : Settings) (customers : list GoCreateCustomerInfo) : M unit :=
  match customers with
  | [] => mret tt
  | c :: rest => _ ← loopBody cfg c; forOf cfg rest
  end.

(** [runSync], index.ts 253-373 *)
Definition runSync (force : bool) : M Outcome :=
  let dryRun := getEnvBool "DRY_RUN" false in
  let updateExisting := getEnvBool "UPDATE_EXISTING" true in
  let lookbackDays := getEnvInt "LOOKBACK_DAYS" (Num 1) in
  now ← newDate;
  let sp := stockholmParts now in
  if negb force
     && negb (JSNum_eqb (hour sp) (Num 23) && JSNum_eqb (minute sp) (Num 59))
  then mret Skipped
  else
    secrets ← getSecrets;
    let mondayToken := mondayAccessToken secrets in
    boardIdEnv ← mustGetEnv "MONDAY_BOARD_ID";
    let boardId := Number_ boardIdEnv in
    groupId ← mustGetEnv "MONDAY_GROUP_ID";
    colEmail ← mustGetEnv "MONDAY_COL_EMAIL";
    colTelefon ← mustGetEnv "MONDAY_COL_TELEFON";
    colForetag ← mustGetEnv "MONDAY_COL_FORETAG";
    alreadyRan ←
      (if negb force then
         already ← storage_get ranKey;
         mret (success already
               && bool_decide (value already = Some (yyyyMMdd sp)))
       else mret false) : M bool;
    if (alreadyRan : bool) then mret (AlreadyRan (yyyyMMdd sp))
    else
      stored ← storage_get lastRunKey;
      let storedLastRun := if success stored then value stored else None in
      startISO ←
        (match storedLastRun with
         | Some v => if truthy v && isValidIsoDate v then mret v
                     else isoDaysAgoUtc lookbackDays
         | None => isoDaysAgoUtc lookbackDays
         end) : M string;
      endISO ← isoNowUtc;
      customers ← goCreateFetchCustomersByDateRange
                    (gocreateBaseUrl secrets) startISO endISO
                    (gocreateUsername secrets) (gocreatePassword secrets)
                    (gocreateAuthToken secrets);
      _ ← update_vars (fun _ => zero);
      _ ← forOf {| dryRun := dryRun; updateExisting := updateExisting;
                   mondayToken := mondayToken; boardId := boardId;
                   groupId := groupId; colEmail := colEmail;
                   colTelefon := colTelefon; colForetag := colForetag |}
                customers;
      nowISO ← isoNowUtc;
      c ← read_vars;
      let result :=
        {| tz := TZ; stockholmDate := yyyyMMdd sp; forced := force;
           window := (startISO, endISO); fetched := length customers;
           counts := c; finishedUtc := nowISO |} in
      _ ← logger_info "sync finished";
      _ ← (if negb force && negb dryRun && Nat.eqb (length (errors c)) 0
           then _ ← storage_set lastRunKey nowISO; storage_set ranKey (yyyyMMdd sp)
           else mret tt) : M unit;
      mret (Finished result).

End Sync.

(** ** The two POST endpoints, index.ts 381-414 *)

(** What a handler gives to [res.status(code)]: [.send()] or [.json(value)]. *)
Inductive Body : Type :=
| NoBody                                (* .send() *)
| OutcomeJson (out : Outcome)           (* what runSync resolved to *)
| ErrorJson (message : string).         (* { error: message } *)

Record Response : Type := { code : Z; body : Body }.

Definition authHint : string :=
  "MONDAY AUTH ERROR - rotate MONDAY_ACCESS_TOKEN secret".

(** [out?.skipped] *)
Definition skipped (out : Outcome) : bool :=
  match out with
  | Skipped | AlreadyRan _ => true
  | Finished _ => false
  end.

Section Server.

Context `{Platform} (W : World).

(** [logger.error(msg, ...)]: the journal keeps the message of a log entry. *)
Definition logger_error (msg : string) : M unit := emit (EvLog msg).

(** The [catch] block of the two POST handlers, index.ts 387-394 and
    406-413; [failed] is the message logged for any other error. *)
Definition syncFailed (failed : string) (e : Exn) : M Response :=
  _ ← (if String.eqb (exn_name e) "MondayAuthError"
       then logger_error authHint
       else logger_error failed);
  mret {| code := 500; body := ErrorJson (exn_message e) |}.

(** [POST /mndy-cronjob/sync-customers], index.ts 382-395 *)
Definition cronSyncCustomers : M Response :=
  try_catch
    (out ← runSync W false;
     if skipped out then mret {| code := 204; body := NoBody |}
     else mret {| code := 200; body := OutcomeJson out |})
    (syncFailed "sync failed").

(** [POST /manual/run], index.ts 398-414; [header] is the value of the
    request header [x-manual-run-key], if the request has one. *)
Definition manualRun (header : option string) : M Response :=
  let key := getEnv W "MANUAL_RUN_KEY" in
  if negb (from_option truthy false key) then
    mret {| code := 404; body := NoBody |}                   (* disabled *)
  else if negb (String.eqb (default "" header) (default "" key)) then
    mret {| code := 403; body := ErrorJson "Forbidden" |}
  else
    try_catch
      (out ← runSync W true;
       mret {| code := 200; body := OutcomeJson out |})
      (syncFailed "manual sync failed").

End Server.

(** ** A reference runtime *)

Module Runtime.

(** ECMAScript WhiteSpace and LineTerminator, ASCII range. *)
Definition isWhiteSpace (c : ascii) : bool :=
  let n := nat_of_ascii c in
  ((n =? 9) || (n =? 10) || (n =? 11) || (n =? 12) || (n =? 13) || (n =? 32))%nat.

Fixpoint trimStart (s : string) : string :=
  match s with
  | String c s' => if isWhiteSpace c then trimStart s' else s
  | EmptyString => EmptyString
  end.

Definition trimEnd (s : string) : string :=
  String.rev (trimStart (String.rev s)).

(** [s.trim()] on ASCII text *)
Definition asciiTrim (s : string) : string := trimEnd (trimStart s).

Fixpoint digitsValue (acc : Z) (s : string) : option Z :=
  match s with
  | EmptyString => Some acc
  | String c s' =>
      if isDigit c
      then digitsValue (10 * acc + Z.of_nat (nat_of_ascii c) - 48) s'
      else None
  end.

(** The digits before and after the decimal point of a literal. *)
Fixpoint splitAtPoint (s : string) : string * option string :=
  match s with
  | EmptyString => ("", None)
  | String "."%char s' => ("", Some s')
  | String c s' => let '(i, f) := splitAtPoint s' in (String c i, f)
  end.

(** The value of a binary64 number. *)
Definition ofDouble (x : spec_float) : JSNum :=
  match x with
  | S754_zero _ => Num 0
  | S754_infinity b => Infinity b
  | S754_nan => NaN
  | S754_finite s m e =>
      let z := if s then Z.neg m else Z.pos m in
      if 0 <=? e then Num (z * 2 ^ e)
      else if Z.pos m mod 2 ^ (- e) =? 0 then Num (z / 2 ^ (- e))
      else Frac z e
  end.

(** [n / 10^k], rounded once. *)
Definition decimal (n : Z) (k : nat) : JSNum :=
  ofDouble (SFdiv 53 1024 (double_of n 0) (double_of (10 ^ Z.of_nat k) 0)).

Definition unsignedValue (s : string) : JSNum :=
  if String.eqb s "Infinity" then Infinity false
  else match splitAtPoint s with
       | ("", None) | ("", Some "") => NaN
       | (i, None) => from_option Num NaN (digitsValue 0 i)
       | (i, Some f) =>
           from_option (fun n => decimal n (String.length f)) NaN
                       (digitsValue 0 (i ++ f))
       end.

Definition negate (n : JSNum) : JSNum :=
  match n with
  | Num z => Num (- z)
  | Frac m e => Frac (- m) e
  | NaN => NaN
  | Infinity b => Infinity (negb b)
  end.

(** [Number(s)] on decimal literals of up to 15 digits: white space is
    trimmed, the empty string is 0, a sign may precede the digits, with or
    without a decimal point, or [Infinity]. *)
Definition number (s : string) : JSNum :=
  match asciiTrim s with
  | EmptyString => Num 0
  | String "-"%char s' => negate (unsignedValue s')
  | String "+"%char s' => unsignedValue s'
  | s' => unsignedValue s'
  end.

Definition field (s : string) (start len : nat) : option Z :=
  digitsValue 0 (substring start len s).

(** [Date.parse] on the format written by [toISOString] with a four-digit
    year, [YYYY-MM-DDTHH:mm:ss.sssZ]. *)
Definition parseDate (s : string) : option Z :=
  if negb (isoDatePrefix s && Nat.eqb (String.length s) 24
           && String.eqb (substring 13 1 s) ":" && String.eqb (substring 16 1 s) ":"
           && String.eqb (substring 19 1 s) "." && String.eqb (substring 23 1 s) "Z")
  then None
  else
    y ← field s 0 4; m ← field s 5 2; d ← field s 8 2;
    hh ← field s 11 2; mi ← field s 14 2; ss ← field s 17 2; ms ← field s 20 3;
    let days := days_from_civil y m d in
    if bool_decide (civil_from_days days = (y, m, d))
       && (hh <? 24) && (mi <? 60) && (ss <? 60)
    then Some (days * msPerDay + hh * 3600000 + mi * 60000 + ss * 1000 + ms)
    else None.

(** The last Sunday of March or October, as a day number. *)
Definition lastSunday (y m : Z) : Z :=
  let d31 := days_from_civil y m 31 in d31 - weekday d31.

(** Europe/Stockholm under the rule in force since 1996: UTC+2 from the last
    Sunday of March 01:00 UTC to the last Sunday of October 01:00 UTC,
    UTC+1 otherwise. *)
Definition stockholmOffset (t : Z) : Z :=
  let '(y, _, _) := civil_from_days (t / msPerDay) in
  let starts := lastSunday y 3 * msPerDay + 3600000 in
  let ends := lastSunday y 10 * msPerDay + 3600000 in
  if (starts <=? t) && (t <? ends) then 7200000 else 3600000.

(** The parts of the sv-SE rendering [YYYY-MM-DD HH:mm]. *)
Definition formatToParts (t : Z) : list (string * string) :=
  let local := t + stockholmOffset t in
  let '(y, m, d) := civil_from_days (local / msPerDay) in
  let ms := local mod msPerDay in
  [("year", pad4 y); ("literal", "-"); ("month", pad2 m); ("literal", "-");
   ("day", pad2 d); ("literal", " "); ("hour", pad2 (ms / 3600000));
   ("literal", ":"); ("minute", pad2 (ms / 60000 mod 60))].

Fixpoint hostEnd (s : string) : string :=
  match s with
  | String "/"%char _ => ""
  | String c s' => String c (hostEnd s')
  | EmptyString => ""
  end.

(** [new URL(path, base)] for an absolute path and an http(s) base. *)
Definition url (path base : string) : option string :=
  if String.prefix "http://" base
  then Some ("http://" ++ hostEnd (substring 7 (String.length base) base) ++ path)
  else if String.prefix "https://" base
  then Some ("https://" ++ hostEnd (substring 8 (String.length base) base) ++ path)
  else None.

(** The first count of decimals, [d] and up, with which the number reads
    back: the digits of [a * 2^e * 10^d], rounded, and that count. *)
Fixpoint shortestDecimals (fuel d : nat) (a e : Z) : option (Z * nat) :=
  match fuel with
  | O => None
  | S fuel' =>
      let p := 2 ^ (- e) in
      let s := (2 * a * 10 ^ Z.of_nat d + p) / (2 * p) in
      if SFeqb (toDouble (decimal s d)) (double_of a e) then Some (s, d)
      else shortestDecimals fuel' (S d) a e
  end.

(** The shortest digits, [k] and up, that read back as the integer [a] of
    [n] digits. *)
Fixpoint shortestDigits (fuel k : nat) (a : Z) (n : nat) : option Z :=
  match fuel with
  | O => None
  | S fuel' =>
      let p := 10 ^ Z.of_nat (n - k) in
      let s := (2 * a + p) / (2 * p) in
      if SFeqb (double_of (s * p) 0) (double_of a 0) then Some s
      else shortestDigits fuel' (S k) a n
  end.

Definition zeros (n : nat) : string := String.concat "" (repeat "0" n).

(** [String(n)] for a number with at most 17 digits: a number with a
    fraction that is 10^-6 or more, and an integer that is 10^21 or more. *)
Definition numberToString (n : JSNum) : string :=
  match n with
  | Frac m e =>
      match shortestDecimals 30 1 (Z.abs m) e with
      | Some (s, d) =>
          let f := pretty (s mod 10 ^ Z.of_nat d) in
          (if m <? 0 then "-" else "") ++ pretty (s / 10 ^ Z.of_nat d) ++ "."
          ++ zeros (d - String.length f) ++ f
      | None => "NaN"
      end
  | Num z =>
      let n := String.length (pretty (Z.abs z)) in
      match shortestDigits 17 1 (Z.abs z) n with
      | Some s =>
          let ds := pretty s in
          (if z <? 0 then "-" else "") ++ substring 0 1 ds
          ++ (if (1 <? String.length ds)%nat
              then "." ++ substring 1 (String.length ds - 1) ds else "")
          ++ "e+" ++ pretty (Z.of_nat (n - 1))
      | None => "NaN"
      end
  | NaN => "NaN"
  | Infinity false => "Infinity"
  | Infinity true => "-Infinity"
  end.

Definition asciiLowerCase_empty (s : string) : asciiLowerCase s = "" -> s = "" :=
  match s with
  | EmptyString => fun _ => eq_refl
  | String c s' => fun E =>
      match E in _ = y return match y with
                              | EmptyString => String c s' = ""
                              | String _ _ => True
                              end
      with eq_refl => I end
  end.

(** A runtime for ASCII text and decimal literals. *)
#[global] Instance node : Platform :=
  {| Number_ := number; Number_toString := numberToString;
     trim := asciiTrim; toLowerCase := asciiLowerCase;
     Date_parse := parseDate;
     Intl_formatToParts := formatToParts; URL_ := url;
     trim_empty := eq_refl; toLowerCase_empty := asciiLowerCase_empty |}.

End Runtime.

Module Scenario.

Import Runtime.

Definition env0 : gmap string string :=
  list_to_map [("MONDAY_BOARD_ID", "123"); ("MONDAY_GROUP_ID", "topics");
               ("MONDAY_COL_EMAIL", "email"); ("MONDAY_COL_TELEFON", "phone");
               ("MONDAY_COL_FORETAG", "company")].

(** [UPDATE_EXISTING=false] *)
Definition env_keep : gmap string string := <["UPDATE_EXISTING" := "false"]> env0.

(** [DRY_RUN=true] *)
Definition env_dry : gmap string string := <["DRY_RUN" := "true"]> env0.

Definition secrets0 : gmap string string :=
  list_to_map [("MONDAY_ACCESS_TOKEN", "tok"); ("GOCREATE_USERNAME", "user");
               ("GOCREATE_PASSWORD", "pw"); ("GOCREATE_AUTH_TOKEN", "auth")].

(** 2024-11-02T22:59:00Z, 23:59 in Stockholm (winter time). *)
Definition t2359 : Z := 1730588340000.

(** 2024-07-01T21:59:00Z, 23:59 in Stockholm (summer time). *)
Definition t2359_summer : Z := 1719871140000.

(** 2024-11-02T21:59:00Z, 22:59 in Stockholm (winter time). *)
Definition t2259 : Z := 1730584740000.

(** 2024-11-02T11:00:00Z, noon in Stockholm. *)
Definition noon : Z := 1730545200000.

Definition alice : GoCreateCustomerInfo :=
  {| FirstName := Some "Alice"; LastName := Some "Berg";
     MobileNumber := Some "070-1"; Email := Some " Alice@Example.SE ";
     CompanyName := Some "Acme" |}.

Definition bob : GoCreateCustomerInfo :=
  {| FirstName := Some "Bob"; LastName := None; MobileNumber := None;
     Email := Some "bob@example.se"; CompanyName := None |}.

Definition nobody : GoCreateCustomerInfo :=
  {| FirstName := Some "No"; LastName := Some "Mail"; MobileNumber := None;
     Email := Some "  "; CompanyName := None |}.

Definition answer {J} (j : J) : option (HttpResponse J) :=
  Some {| status := 200; text := ""; json := Some j |}.

Definition gocreate_returns (cs : list GoCreateCustomerInfo)
  : list Event -> GoCreateRequest -> option (HttpResponse GoCreateByDateRangeResponse) :=
  fun _ _ => answer {| CustomerInfo := Some cs; IsValidResult := Some true;
                       ErrorCode := None; ErrorMessage := None |}.

Definition page (items : list Item) : MondayJson :=
  {| json_errors := [];
     json_data := Some {| items_page_items := Some items;
                          create_item_id := Some (Some "900") |} |}.

Definition item77 : Item := {| id := "77"; name := "old" |}.

(** A board on which no search finds anything. *)
Definition board_empty
  : list Event -> string -> MondayQuery -> option (HttpResponse MondayJson) :=
  fun _ _ _ => answer (page []).

(** A board on which every search finds item 77. *)
Definition board_full
  : list Event -> string -> MondayQuery -> option (HttpResponse MondayJson) :=
  fun _ _ _ => answer (page [item77]).

(** An empty board that answers HTTP 500 to the search for one address. *)
Definition board_failing (address : string)
  : list Event -> string -> MondayQuery -> option (HttpResponse MondayJson) :=
  fun _ _ q =>
    match q with
    | items_page_by_column_values _ _ [v] _ =>
        if String.eqb v address
        then Some {| status := 500; text := "busy"; json := None |}
        else answer (page [])
    | _ => answer (page [])
    end.

(** An empty board that answers a creation with [create_item] as given:
    [None] for an answer without the member, [Some None] for a member
    without an [id]. *)
Definition board_creating (member : option (option string))
  : list Event -> string -> MondayQuery -> option (HttpResponse MondayJson) :=
  fun _ _ _ =>
    answer {| json_errors := [];
              json_data := Some {| items_page_items := Some [];
                                   create_item_id := member |} |}.

(** A board that rejects the token. *)
Definition board_locked
  : list Event -> string -> MondayQuery -> option (HttpResponse MondayJson) :=
  fun _ _ _ => Some {| status := 401; text := "no"; json := None |}.

Definition world (clock : Z) (env : gmap string string)
    (cs : list GoCreateCustomerInfo)
    (board : list Event -> string -> MondayQuery -> option (HttpResponse MondayJson))
  : World :=
  {| process_env := env; secret_store := secrets0;
     wall_clock := fun _ => clock;
     gocreate_api := gocreate_returns cs; monday_api := board |}.

Definition start : State := {| journal := []; storage := ∅; vars := zero |}.

(** The settings that [runSync] derives from [env0]. *)
Definition settings0 : Settings :=
  {| dryRun := false; updateExisting := true; mondayToken := "tok";
     boardId := Num 123; groupId := "topics"; colEmail := "email";
     colTelefon := "phone"; colForetag := "company" |}.

(** [MANUAL_RUN_KEY] set, with white space around the key. *)
Definition env_manual : gmap string string :=
  <["MANUAL_RUN_KEY" := " s3cret "]> env0.

(** [MONDAY_GROUP_ID] not set. *)
Definition env_no_group : gmap string string := delete "MONDAY_GROUP_ID" env0.

(** A customer without a name. *)
Definition carol : GoCreateCustomerInfo :=
  {| FirstName := None; LastName := Some "  "; MobileNumber := None;
     Email := Some "Carol@Example.se"; CompanyName := Some " Carol AB " |}.

(** A source system that is out of service. *)
Definition gocreate_down
  : list Event -> GoCreateRequest -> option (HttpResponse GoCreateByDateRangeResponse) :=
  fun _ _ => Some {| status := 503; text := "down"; json := None |}.

Definition world_down (clock : Z) : World :=
  {| process_env := env0; secret_store := secrets0;
     wall_clock := fun _ => clock;
     gocreate_api := gocreate_down; monday_api := board_empty |}.

(** A world whose clock advances by one second with every journal entry. *)
Definition world_ticking (cs : list GoCreateCustomerInfo)
    (board : list Event -> string -> MondayQuery -> option (HttpResponse MondayJson))
  : World :=
  {| process_env := env0; secret_store := secrets0;
     wall_clock := fun j => t2359 + 1000 * Z.of_nat (length j);
     gocreate_api := gocreate_returns cs; monday_api := board |}.

(** The request of a forced run at [t2359] with nothing stored. *)
Definition request0 : GoCreateRequest :=
  {| req_url := "http://api.gocreate.nu/Customer/ByDateRange/";
     DateTime := "2024-11-01T22:59:00.000Z";
     EndDateTime := "2024-11-02T22:59:00.000Z";
     UserName := "user"; Password := "pw"; AuthenticationToken := "auth" |}.

End Scenario.

(** * Vocabulary of the specification *)

(** Unfolding of the monad. *)
Ltac munfold :=
  unfold mbind, M_bind, mret, M_ret, throw, try_catch, emit, update_vars,
    read_vars, sleep in *.

Definition log_events (evs : list Event) (s : State) : State :=
  {| journal := journal s ++ evs; storage := storage s; vars := vars s |}.

(** Equality of two states built from the same one. *)
Ltac state_eq :=
  unfold log_event, log_events, set_vars, set_storage; simpl;
  rewrite ?app_nil_r, <- ?app_assoc; simpl;
  first [ reflexivity
        | repeat match goal with s : State |- _ => destruct s end; reflexivity ].

(** Equality of two journals built from the same one. *)
Ltac journal_eq :=
  unfold log_events, log_event, set_vars, set_storage; cbn [journal];
  rewrite <- ?app_assoc; reflexivity.

(** ** Journals *)

(** The sum that the counters keep. *)
Definition total (c : Counters) : nat :=
  created c + updated c + skippedExisting c + skippedNoEmail c + length (errors c).

(** The counters of the records that went through their upsert. *)
Definition upserted (c : Counters) : nat :=
  created c + updated c + skippedExisting c.

(** The journal entries that the loop can write. *)
Definition board_or_sleep (ev : Event) : bool :=
  match ev with
  | EvMonday _ _ | EvSleep _ => true
  | _ => false
  end.

(** The writes to the storage that a piece of journal records. *)
Definition storage_writes (evs : list Event) : list (string * string) :=
  omap (fun ev => match ev with
                  | EvStorageSet k v => Some (k, v)
                  | _ => None
                  end) evs.

(** The requests to the source system that a piece of journal records. *)
Definition fetches (evs : list Event) : list GoCreateRequest :=
  omap (fun ev => match ev with
                  | EvGoCreate req => Some req
                  | _ => None
                  end) evs.

(** The calls to the board that a piece of journal records. *)
Definition board_calls (evs : list Event) : list Event :=
  omap (fun ev => match ev with EvMonday _ _ => Some ev | _ => None end) evs.

(** The delays that a piece of journal records. *)
Definition delays (evs : list Event) : list Z :=
  omap (fun ev => match ev with EvSleep ms => Some ms | _ => None end) evs.


Definition is_create (ev : Event) : bool :=
  match ev with EvMonday _ (create_item _ _ _ _) => true | _ => false end.

Definition is_update (ev : Event) : bool :=
  match ev with
  | EvMonday _ (change_multiple_column_values _ _ _) => true
  | _ => false
  end.

(** ** One iteration of the loop *)

Section IterationTerms.

Context `{Platform} (W : World) (cfg : Settings).

(** The three calls that an iteration can make to the board. *)
Definition find_call (c : GoCreateCustomerInfo) : Event :=
  EvMonday (mondayToken cfg)
    (items_page_by_column_values (String_of_num (boardId cfg)) (colEmail cfg)
       [email c] 1).

Definition create_call (c : GoCreateCustomerInfo) : Event :=
  EvMonday (mondayToken cfg)
    (create_item (String_of_num (boardId cfg)) (groupId cfg) (itemName c)
       (columnValues cfg c)).

Definition update_call (c : GoCreateCustomerInfo) (found : Item) : Event :=
  EvMonday (mondayToken cfg)
    (change_multiple_column_values (String_of_num (boardId cfg)) (id found)
       (columnValues cfg c)).

(** The answer of the search for a customer's email. *)
Definition search (c : GoCreateCustomerInfo) (s : State) : Res (option Item) :=
  (mondayFindItemByColumnValue W (mondayToken cfg) (boardId cfg) (colEmail cfg)
     (email c) s).1.

(** The write that follows a search, and the counter that records it. *)
Definition upsert_call (c : GoCreateCustomerInfo) (found : option Item)
  : list Event :=
  if dryRun cfg then []
  else match found with
       | None => [create_call c]
       | Some it => if updateExisting cfg then [update_call c it] else []
       end.

Definition count_upsert (found : option Item) : Counters -> Counters :=
  match found with
  | None => incr_created
  | Some _ => if updateExisting cfg then incr_updated else incr_skippedExisting
  end.

(** The ways the [try] block can go. *)
Inductive Attempt (c : GoCreateCustomerInfo) (s : State)
  : Res unit -> State -> Prop :=
| attempt_no_email :
    emailRaw c = "" ->
    Attempt c s (Ok tt) (set_vars (incr_skippedNoEmail (vars s)) s)
| attempt_done found :
    emailRaw c <> "" ->
    search c s = Ok found ->
    Attempt c s (Ok tt)
      (set_vars (count_upsert found (vars s))
         (log_events (find_call c :: upsert_call c found ++ [EvSleep 120]) s))
| attempt_search_failed e :
    emailRaw c <> "" ->
    search c s = Throw e ->
    Attempt c s (Throw e) (log_events [find_call c] s)
| attempt_write_failed found w e :
    emailRaw c <> "" ->
    search c s = Ok found ->
    upsert_call c found = [w] ->
    Attempt c s (Throw e) (log_events [find_call c; w] s).

End IterationTerms.

(** A journal entry of the iteration for [c] that carries the address
    [address]: a search for it in the email column, a write of the object
    [{ [colTelefon]: mobile, [colEmail]: address, [colForetag]: company }],
    which holds the address under the email column when the company has a
    column of its own, or the delay. *)
Definition carries_email `{Platform} (cfg : Settings) (c : GoCreateCustomerInfo)
    (address : string) (ev : Event) : Prop :=
  match ev with
  | EvMonday _ (items_page_by_column_values _ col values _) =>
      col = colEmail cfg /\ values = [address]
  | EvMonday _ (create_item _ _ _ cv)
  | EvMonday _ (change_multiple_column_values _ _ cv) =>
      cv = <[colForetag cfg := trim (default "" (CompanyName c))]>
             (<[colEmail cfg := address]>
                (<[colTelefon cfg := trim (default "" (MobileNumber c))]> ∅))
      /\ (colEmail cfg <> colForetag cfg -> cv !! colEmail cfg = Some address)
  | EvSleep _ => True
  | _ => False
  end.

(** The write of an iteration: none, one creation, or one update. *)
Definition Write `{Platform} (cfg : Settings) (c : GoCreateCustomerInfo)
    (w : list Event) : Prop :=
  w = [] \/ w = [create_call cfg c] \/ exists it, w = [update_call cfg c it].

(** The journal entries of the iteration for one customer. *)
Inductive Segment `{Platform} (cfg : Settings) (c : GoCreateCustomerInfo)
  : list Event -> Prop :=
| segment_no_email :
    emailRaw c = "" -> Segment cfg c []
| segment_completed w :
    emailRaw c <> "" -> Write cfg c w ->
    Segment cfg c (find_call cfg c :: w ++ [EvSleep 120])
| segment_failed w :
    emailRaw c <> "" -> Write cfg c w ->
    Segment cfg c (find_call cfg c :: w).

(** ** The phases of [runSync] *)

Section PhaseTerms.

Context `{Platform} (W : World) (force : bool).

(** The reading of [new Date()] that opens a run from state [s], and the
    Stockholm date it falls on. *)
Definition opening (s : State) : Z := wall_clock W (journal s).

Definition today (s : State) : string := yyyyMMdd (stockholmParts (opening s)).

(** The time-of-day gate, index.ts 261. *)
Definition gate_open (s : State) : bool :=
  force || (JSNum_eqb (hour (stockholmParts (opening s))) (Num 23)
            && JSNum_eqb (minute (stockholmParts (opening s))) (Num 59)).

(** The secrets and the five env vars, index.ts 263-271, with the two
    switches read at 254-255. *)
Definition configure : M (RuntimeSecrets * Settings) :=
  secrets ← getSecrets W;
  boardIdEnv ← mustGetEnv W "MONDAY_BOARD_ID";
  groupId ← mustGetEnv W "MONDAY_GROUP_ID";
  colEmail ← mustGetEnv W "MONDAY_COL_EMAIL";
  colTelefon ← mustGetEnv W "MONDAY_COL_TELEFON";
  colForetag ← mustGetEnv W "MONDAY_COL_FORETAG";
  mret (secrets,
        {| dryRun := getEnvBool W "DRY_RUN" false;
           updateExisting := getEnvBool W "UPDATE_EXISTING" true;
           mondayToken := mondayAccessToken secrets;
           boardId := Number_ boardIdEnv;
           groupId := groupId; colEmail := colEmail;
           colTelefon := colTelefon; colForetag := colForetag |}).

(** The run-once-per-day guard, index.ts 275-280. *)
Definition onceGuard (date : string) : M bool :=
  if negb force then
    already ← storage_get ranKey;
    mret (success already && bool_decide (value already = Some date))
  else mret false.

(** The date window, index.ts 283-288. *)
Definition windowStart (stored : StorageResult) : M string :=
  let storedLastRun := if success stored then value stored else None in
  match storedLastRun with
  | Some v => if truthy v && isValidIsoDate v then mret v
              else isoDaysAgoUtc W (getEnvInt W "LOOKBACK_DAYS" (Num 1))
  | None => isoDaysAgoUtc W (getEnvInt W "LOOKBACK_DAYS" (Num 1))
  end.

Definition dateWindow : M (string * string) :=
  stored ← storage_get lastRunKey;
  startISO ← windowStart stored;
  endISO ← isoNowUtc W;
  mret (startISO, endISO).

Definition fetchCustomers (secrets : RuntimeSecrets) (w : string * string)
  : M (list GoCreateCustomerInfo) :=
  goCreateFetchCustomersByDateRange W (gocreateBaseUrl secrets) w.1 w.2
    (gocreateUsername secrets) (gocreatePassword secrets)
    (gocreateAuthToken secrets).

(** Whether the end of the pass advances the stored state, index.ts 367. *)
Definition advances (cfg : Settings) (c : Counters) : bool :=
  negb force && negb (dryRun cfg) && Nat.eqb (length (errors c)) 0.

(** What follows the loop, index.ts 349-372. *)
Definition conclude (date : string) (cfg : Settings) (w : string * string)
    (customers : list GoCreateCustomerInfo) : M Outcome :=
  nowISO ← isoNowUtc W;
  c ← read_vars;
  _ ← logger_info "sync finished";
  _ ← (if advances cfg c
       then _ ← storage_set lastRunKey nowISO; storage_set ranKey date
       else mret tt) : M unit;
  mret (Finished {| tz := TZ; stockholmDate := date; forced := force;
                    window := w; fetched := length customers;
                    counts := c; finishedUtc := nowISO |}).

(** The loop and what follows it, index.ts 299-372. *)
Definition pass (date : string) (cfg : Settings) (w : string * string)
    (customers : list GoCreateCustomerInfo) : M Outcome :=
  _ ← update_vars (fun _ => zero);
  _ ← forOf W cfg customers;
  conclude date cfg w customers.

Definition phases : M Outcome :=
  fun s =>
    let s0 := log_event (EvNow (opening s)) s in
    if negb (gate_open s) then (Ok Skipped, s0)
    else
      match configure s0 with
      | (Throw e, s1) => (Throw e, s1)
      | (Ok (secrets, cfg), s1) =>
          match onceGuard (today s) s1 with
          | (Throw e, s2) => (Throw e, s2)
          | (Ok true, s2) => (Ok (AlreadyRan (today s)), s2)
          | (Ok false, s2) =>
              match dateWindow s2 with
              | (Throw e, s3) => (Throw e, s3)
              | (Ok w, s3) =>
                  match fetchCustomers secrets w s3 with
                  | (Throw e, s4) => (Throw e, s4)
                  | (Ok customers, s4) => pass (today s) cfg w customers s4
                  end
              end
          end
      end.

Definition guard_reads : list Event :=
  if force then [] else [EvStorageGet ranKey].

(** The stored last run, when it is usable as the start of the window. *)
Definition stored_start (s : State) : option string :=
  match storage s !! lastRunKey with
  | Some v => if truthy v && isValidIsoDate v then Some v else None
  | None => None
  end.

Definition lookbackDays : JSNum := getEnvInt W "LOOKBACK_DAYS" (Num 1).

Definition lookup_result (key : string) (s : State) : StorageResult :=
  match storage s !! key with
  | Some v => {| success := true; value := Some v |}
  | None => {| success := false; value := None |}
  end.

(** The date window, path by path. *)
Inductive Window (s : State) : Res (string * string) -> State -> Prop :=
| window_stored v t2 endISO :
    stored_start s = Some v ->
    t2 = wall_clock W (journal s ++ [EvStorageGet lastRunKey]) ->
    toISOString t2 = Some endISO ->
    Window s (Ok (v, endISO)) (log_events [EvStorageGet lastRunKey; EvNow t2] s)
| window_lookback t1 startISO t2 endISO :
    stored_start s = None ->
    t1 = wall_clock W (journal s ++ [EvStorageGet lastRunKey]) ->
    isoDaysAgo t1 lookbackDays = Some startISO ->
    t2 = wall_clock W (journal s ++ [EvStorageGet lastRunKey; EvNow t1]) ->
    toISOString t2 = Some endISO ->
    Window s (Ok (startISO, endISO))
      (log_events [EvStorageGet lastRunKey; EvNow t1; EvNow t2] s)
| window_invalid e clock :
    Forall (fun ev => match ev with EvNow _ => True | _ => False end) clock ->
    Window s (Throw e) (log_events (EvStorageGet lastRunKey :: clock) s).

(** The request that carries a window to the source system. *)
Definition fetch_request (secrets : RuntimeSecrets) (w : string * string)
    (url : string) : GoCreateRequest :=
  {| req_url := url; DateTime := w.1; EndDateTime := w.2;
     UserName := gocreateUsername secrets;
     Password := gocreatePassword secrets;
     AuthenticationToken := gocreateAuthToken secrets |}.

Definition fetch_url (secrets : RuntimeSecrets) : option string :=
  URL_ "/Customer/ByDateRange/" (gocreateBaseUrl secrets).

(** The journal entries that advance the stored state. *)
Definition commit (date nowISO : string) : list Event :=
  [EvStorageSet lastRunKey nowISO; EvStorageSet ranKey date].

(** The loop and the end of the run, path by path. *)
Inductive Pass (date : string) (cfg : Settings) (w : string * string)
    (customers : list GoCreateCustomerInfo) (s : State)
  : Res Outcome -> State -> Prop :=
| pass_aborted e evs cnt :
    Forall (fun ev => board_or_sleep ev = true) evs ->
    forOf W cfg customers (set_vars zero s)
    = (Throw e, set_vars cnt (log_events evs s)) ->
    Pass date cfg w customers s (Throw e) (set_vars cnt (log_events evs s))
| pass_invalid_time evs cnt t3 :
    Forall (fun ev => board_or_sleep ev = true) evs ->
    forOf W cfg customers (set_vars zero s)
    = (Ok tt, set_vars cnt (log_events evs s)) ->
    Pass date cfg w customers s (Throw (RangeError "Invalid time value"))
      (set_vars cnt (log_events (evs ++ [EvNow t3]) s))
| pass_finished evs cnt t3 nowISO :
    Forall (fun ev => board_or_sleep ev = true) evs ->
    forOf W cfg customers (set_vars zero s)
    = (Ok tt, set_vars cnt (log_events evs s)) ->
    total cnt = length customers ->
    t3 = wall_clock W (journal s ++ evs) ->
    toISOString t3 = Some nowISO ->
    Pass date cfg w customers s
      (Ok (Finished {| tz := TZ; stockholmDate := date; forced := force;
                       window := w; fetched := length customers;
                       counts := cnt; finishedUtc := nowISO |}))
      (if advances cfg cnt
       then set_storage ranKey date
              (set_storage lastRunKey nowISO
                 (set_vars cnt
                    (log_events (evs ++ [EvNow t3; EvLog "sync finished"]
                                     ++ commit date nowISO) s)))
       else set_vars cnt
              (log_events (evs ++ [EvNow t3; EvLog "sync finished"]) s)).

(** A run, path by path. *)
Inductive Run (s : State) : Res Outcome -> State -> Prop :=
| run_skipped :
    gate_open s = false ->
    Run s (Ok Skipped) (log_events [EvNow (opening s)] s)
| run_misconfigured e :
    gate_open s = true ->
    (configure s).1 = Throw e ->
    Run s (Throw e) (log_events [EvNow (opening s)] s)
| run_already_ran conf :
    gate_open s = true ->
    (configure s).1 = Ok conf ->
    force = false ->
    storage s !! ranKey = Some (today s) ->
    Run s (Ok (AlreadyRan (today s)))
      (log_events [EvNow (opening s); EvStorageGet ranKey] s)
| run_window_failed conf e s1 :
    gate_open s = true ->
    (configure s).1 = Ok conf ->
    negb force && bool_decide (storage s !! ranKey = Some (today s)) = false ->
    Window (log_events (EvNow (opening s) :: guard_reads) s) (Throw e) s1 ->
    Run s (Throw e) s1
| run_fetch_failed secrets cfg w s1 e s2 :
    gate_open s = true ->
    (configure s).1 = Ok (secrets, cfg) ->
    negb force && bool_decide (storage s !! ranKey = Some (today s)) = false ->
    Window (log_events (EvNow (opening s) :: guard_reads) s) (Ok w) s1 ->
    fetchCustomers secrets w s1 = (Throw e, s2) ->
    Run s (Throw e) s2
| run_pass secrets cfg w s1 url customers r s3 :
    gate_open s = true ->
    (configure s).1 = Ok (secrets, cfg) ->
    negb force && bool_decide (storage s !! ranKey = Some (today s)) = false ->
    Window (log_events (EvNow (opening s) :: guard_reads) s) (Ok w) s1 ->
    fetch_url secrets = Some url ->
    (fetchCustomers secrets w s1).1 = Ok customers ->
    Pass (today s) cfg w customers
      (log_event (EvGoCreate (fetch_request secrets w url)) s1) r s3 ->
    Run s r s3.

End PhaseTerms.

Section EntryTerms.

Context `{Platform} (W : World) (force : bool).

(** The settings, the window, the customers and the state with which a run
    enters its loop; [None] when the run ends before. *)
Definition loop_entry (s : State)
  : option (Settings * (string * string) * list GoCreateCustomerInfo * State) :=
  let s0 := log_event (EvNow (opening W s)) s in
  if negb (gate_open W force s) then None
  else
    match configure W s0 with
    | (Ok (secrets, cfg), s1) =>
        match onceGuard force (today W s) s1 with
        | (Ok false, s2) =>
            match dateWindow W s2 with
            | (Ok w, s3) =>
                match fetchCustomers W secrets w s3 with
                | (Ok customers, s4) => Some (cfg, w, customers, set_vars zero s4)
                | _ => None
                end
            | _ => None
            end
        | _ => None
        end
    | _ => None
    end.

End EntryTerms.

(** ** The configuration *)

(** The secrets and the env vars without which a run cannot start. *)
Definition secretNames : list string :=
  ["MONDAY_ACCESS_TOKEN"; "GOCREATE_USERNAME"; "GOCREATE_PASSWORD";
   "GOCREATE_AUTH_TOKEN"].

Definition envNames : list string :=
  ["MONDAY_BOARD_ID"; "MONDAY_GROUP_ID"; "MONDAY_COL_EMAIL";
   "MONDAY_COL_TELEFON"; "MONDAY_COL_FORETAG"].

(** A name that a store does not hold, or holds with the empty string. *)
Definition unset (m : gmap string string) (name : string) : Prop :=
  m !! name = None \/ m !! name = Some "".

(** ** Answers of the board *)

(** An answer of the board that [mondayGraphql] accepts: a 2xx status, a JSON
    body, no GraphQL error and a [data] member. *)
Definition accepted (res : HttpResponse MondayJson) (d : MondayData) : Prop :=
  exists j, ok res = true /\ json res = Some j
            /\ json_errors j = [] /\ json_data j = Some d.

(** The three queries of an iteration. *)
Definition find_query `{Platform} (cfg : Settings) (c : GoCreateCustomerInfo)
  : MondayQuery :=
  items_page_by_column_values (String_of_num (boardId cfg)) (colEmail cfg)
    [email c] 1.

Definition create_query `{Platform} (cfg : Settings) (c : GoCreateCustomerInfo)
  : MondayQuery :=
  create_item (String_of_num (boardId cfg)) (groupId cfg) (itemName c)
    (columnValues cfg c).

Definition update_query `{Platform} (cfg : Settings) (c : GoCreateCustomerInfo)
    (it : Item) : MondayQuery :=
  change_multiple_column_values (String_of_num (boardId cfg)) (id it)
    (columnValues cfg c).

(** ** Other worlds *)

(** A world with another process environment. *)
Definition with_env (W : World) (env : gmap string string) : World :=
  {| process_env := env; secret_store := secret_store W;
     wall_clock := wall_clock W; gocreate_api := gocreate_api W;
     monday_api := monday_api W |}.

(** The world in which an env var is set to the empty string, and the world
    in which it is not set. *)
Definition set_empty (W : World) (name : string) : World :=
  with_env W (<[name := ""]> (process_env W)).

Definition not_set (W : World) (name : string) : World :=
  with_env W (delete name (process_env W)).

(** ** The parts of a formatted date *)

(** The types of the parts that are not literals. *)
Definition partTypes (ps : list (string * string)) : list string :=
  filter (fun k => k <> "literal") ps.*1.

(** The step of the reduction in [stockholmParts], index.ts 77-80. *)
Definition collect (acc : gmap string string) (p : string * string)
  : gmap string string :=
  if String.eqb (fst p) "literal" then acc else <[fst p := snd p]> acc.

(** ** Boards *)

(** A board that refuses every call with HTTP 401 or 403. *)
Definition refuses_token (W : World) : Prop :=
  forall j token q,
    exists res, monday_api W j token q = Some res
                /\ (status res = 401 \/ status res = 403).

(** * Verification *)

Section Calls.

Context `{Platform} (W : World).

(** Whatever the board answers, a GraphQL call leaves one entry in the
    journal and nothing else. *)
Lemma mondayGraphql_state token q s :
  (mondayGraphql W token q s).2 = log_event (EvMonday token q) s.
Proof.
  unfold mondayGraphql, fetchMonday. munfold.
  destruct (monday_api W (journal s) token q) as [res|]; [|done].
  repeat (case_match; simpl; try done).
Qed.

Lemma mondayFindItemByColumnValue_state token b col v s :
  (mondayFindItemByColumnValue W token b col v s).2
  = log_event (EvMonday token
                 (items_page_by_column_values (String_of_num b) col [v] 1)) s.
Proof.
  unfold mondayFindItemByColumnValue. munfold.
  pose proof (mondayGraphql_state token
                (items_page_by_column_values (String_of_num b) col [v] 1) s) as Hs.
  destruct (mondayGraphql W token _ s) as [[d|e] s1]; simpl in *; subst; [|done].
  by case_match.
Qed.

Lemma mondayCreateItem_state token b g n cv s :
  (mondayCreateItem W token b g n cv s).2
  = log_event (EvMonday token (create_item (String_of_num b) g n cv)) s.
Proof.
  unfold mondayCreateItem. munfold.
  pose proof (mondayGraphql_state token (create_item (String_of_num b) g n cv) s) as Hs.
  destruct (mondayGraphql W token _ s) as [[d|e] s1]; simpl in *; subst; [|done].
  by case_match.
Qed.

Lemma mondayUpdateItemColumns_state token b i cv s :
  (mondayUpdateItemColumns W token b i cv s).2
  = log_event (EvMonday token
                 (change_multiple_column_values (String_of_num b) i cv)) s.
Proof.
  unfold mondayUpdateItemColumns. munfold.
  pose proof (mondayGraphql_state token
                (change_multiple_column_values (String_of_num b) i cv) s) as Hs.
  by destruct (mondayGraphql W token _ s) as [[d|e] s1]; simpl in *; subst.
Qed.


End Calls.

(** ** One iteration of the loop *)

Section Iteration.

Context `{Platform} (W : World) (cfg : Settings).

Lemma truthy_false s : truthy s = false <-> s = "".
Proof. by destruct s. Qed.

Lemma truthy_true s : truthy s = true <-> s <> "".
Proof. by destruct s. Qed.

Lemma Attempt_state c s r s1 s2 :
  Attempt W cfg c s r s1 -> s1 = s2 -> Attempt W cfg c s r s2.
Proof. by intros A <-. Qed.

Lemma tryBlock_Attempt c s :
  Attempt W cfg c s (tryBlock W cfg c s).1 (tryBlock W cfg c s).2.
Proof.
  unfold tryBlock.
  destruct (truthy (emailRaw c)) eqn:He; simpl.
  2:{ apply attempt_no_email. by apply truthy_false. }
  apply truthy_true in He.
  pose proof (mondayFindItemByColumnValue_state W (mondayToken cfg) (boardId cfg)
                (colEmail cfg) (email c) s) as Hs.
  assert (Hr : search W cfg c s = (mondayFindItemByColumnValue W (mondayToken cfg)
                  (boardId cfg) (colEmail cfg) (email c) s).1) by done.
  munfold.
  destruct (mondayFindItemByColumnValue W _ _ _ _ s) as [[found|e] s1];
    simpl in *; subst s1.
  2:{ by apply attempt_search_failed. }
  pose proof (attempt_done W cfg c s found He Hr) as A.
  unfold upsert_call, count_upsert in *.
  destruct found as [it|].
  - destruct (updateExisting cfg) eqn:Hu; simpl.
    + destruct (dryRun cfg) eqn:Hd; simpl.
      * eapply Attempt_state; [exact A | state_eq].
      * pose proof (mondayUpdateItemColumns_state W (mondayToken cfg) (boardId cfg)
                      (id it) (columnValues cfg c)
                      (log_event (find_call cfg c) s)) as Hs.
        fold (find_call cfg c).
        destruct (mondayUpdateItemColumns W _ _ _ _ _) as [[[]|e] s2];
          simpl in *; subst s2.
        -- eapply Attempt_state; [exact A | state_eq].
        -- eapply Attempt_state;
             [apply (attempt_write_failed W cfg c s (Some it) (update_call cfg c it) e He Hr)
             | state_eq].
           unfold upsert_call. by rewrite Hd, Hu.
    + eapply Attempt_state; [exact A | by destruct (dryRun cfg); state_eq].
  - destruct (dryRun cfg) eqn:Hd; simpl.
    + eapply Attempt_state; [exact A | state_eq].
    + pose proof (mondayCreateItem_state W (mondayToken cfg) (boardId cfg)
                    (groupId cfg) (itemName c) (columnValues cfg c)
                    (log_event (find_call cfg c) s)) as Hs.
      fold (find_call cfg c).
      destruct (mondayCreateItem W _ _ _ _ _ _) as [[i|e] s2];
        simpl in *; subst s2.
      * eapply Attempt_state; [exact A | state_eq].
      * eapply Attempt_state;
          [apply (attempt_write_failed W cfg c s None (create_call cfg c) e He Hr)
          | state_eq].
        unfold upsert_call. by rewrite Hd.
Qed.

End Iteration.

(** ** The loop *)

Section Loop.

Context `{Platform} (W : World) (cfg : Settings).

Lemma loopBody_unfold c s :
  loopBody W cfg c s
  = match tryBlock W cfg c s with
    | (Ok a, s') => (Ok a, s')
    | (Throw e, s') => catchBlock c e s'
    end.
Proof. reflexivity. Qed.

Lemma catchBlock_auth c e s :
  exn_name e = "MondayAuthError" -> catchBlock c e s = (Throw e, s).
Proof. intros He. unfold catchBlock. by rewrite He. Qed.

Lemma catchBlock_other c e s :
  exn_name e <> "MondayAuthError" ->
  catchBlock c e s
  = (Ok tt, set_vars (push_error {| err_email := Email c;
                                    err_error := exn_message e |} (vars s)) s).
Proof.
  intros He. unfold catchBlock.
  destruct (String.eqb_spec (exn_name e) "MondayAuthError"); [done|].
  reflexivity.
Qed.

Lemma count_upsert_total found c :
  total (count_upsert cfg found c) = S (total c).
Proof.
  unfold count_upsert, total.
  destruct found; [destruct (updateExisting cfg)|]; simpl; lia.
Qed.

Lemma upsert_call_board c found :
  Forall (fun ev => board_or_sleep ev = true) (upsert_call cfg c found).
Proof.
  unfold upsert_call.
  destruct (dryRun cfg), found; try destruct (updateExisting cfg);
    repeat constructor.
Qed.

(** An iteration appends board calls and delays to the journal, leaves the
    storage alone, and when it does not throw it counts its customer once. *)
Lemma loopBody_effects c s :
  exists evs cnt,
    (loopBody W cfg c s).2 = set_vars cnt (log_events evs s)
    /\ Forall (fun ev => board_or_sleep ev = true) evs
    /\ ((loopBody W cfg c s).1 = Ok tt -> total cnt = S (total (vars s))).
Proof.
  rewrite loopBody_unfold.
  pose proof (tryBlock_Attempt W cfg c s) as A.
  destruct (tryBlock W cfg c s) as [[[]|e] s1]; simpl in A.
  - inversion A; subst; simpl.
    + exists [], (incr_skippedNoEmail (vars s)). split; [state_eq|].
      split; [constructor|]. intros _. unfold total; simpl; lia.
    + eexists _, _. split; [reflexivity|]. split.
      * constructor; [done|]. apply Forall_app. split.
        -- apply upsert_call_board.
        -- by repeat constructor.
      * intros _. apply count_upsert_total.
  - assert (exists evs, s1 = log_events evs s
                        /\ Forall (fun ev => board_or_sleep ev = true) evs)
      as (evs & -> & Hevs).
    { inversion A; subst.
      - eexists; split; [reflexivity|by repeat constructor].
      - eexists; split; [reflexivity|].
        match goal with Hw : upsert_call _ _ _ = _ |- _ =>
          pose proof (upsert_call_board c found) as Hb; rewrite Hw in Hb end.
        constructor; [done|exact Hb]. }
    destruct (decide (exn_name e = "MondayAuthError")) as [He|He].
    + rewrite (catchBlock_auth _ _ _ He). simpl.
      exists evs, (vars s). split; [done|]. split; [done|]. intros; discriminate.
    + rewrite (catchBlock_other _ _ _ He). simpl.
      eexists evs, _. split; [reflexivity|]. split; [done|].
      intros _. unfold total; simpl. rewrite length_app; simpl. lia.
Qed.

Lemma forOf_effects cs s :
  exists evs cnt,
    (forOf W cfg cs s).2 = set_vars cnt (log_events evs s)
    /\ Forall (fun ev => board_or_sleep ev = true) evs
    /\ ((forOf W cfg cs s).1 = Ok tt
        -> total cnt = (total (vars s) + length cs)%nat).
Proof.
  revert s. induction cs as [|c cs IH]; intros s; simpl.
  - exists [], (vars s). split; [state_eq|]. split; [constructor|]. intros _; lia.
  - unfold mbind, M_bind.
    destruct (loopBody_effects c s) as (evs1 & cnt1 & Hs1 & Hb1 & Ht1).
    destruct (loopBody W cfg c s) as [[[]|e] s1]; simpl in *; subst s1.
    + destruct (IH (set_vars cnt1 (log_events evs1 s)))
        as (evs2 & cnt2 & Hs2 & Hb2 & Ht2).
      exists (evs1 ++ evs2)%list, cnt2. split; [|split].
      * rewrite Hs2. state_eq.
      * by apply Forall_app.
      * intros Hok. rewrite (Ht2 Hok). simpl. rewrite (Ht1 eq_refl). lia.
    + exists evs1, cnt1. split; [done|]. split; [done|]. intros; discriminate.
Qed.

End Loop.

(** ** The phases of [runSync] *)

Section Phases.

Context `{Platform} (W : World) (force : bool).

(** [runSync] runs its phases in sequence. *)
Lemma runSync_phases s : runSync W force s = phases W force s.
Proof.
  unfold runSync, phases, configure, onceGuard, dateWindow, windowStart,
    fetchCustomers,
    pass, conclude, gate_open, today, opening, advances, newDate.
  unfold mbind, M_bind, mret, M_ret. simpl.
  destruct force; simpl.
  all: repeat (case_match; simplify_eq/=; try done).
Qed.

(** *** What each phase does *)

Lemma mustGetEnv_state name s : (mustGetEnv W name s).2 = s.
Proof. unfold mustGetEnv. by repeat case_match. Qed.

Lemma getSecrets_state s : (getSecrets W s).2 = s.
Proof. unfold getSecrets. by repeat case_match. Qed.

(** Reading the configuration touches nothing. *)
Lemma configure_state s : (configure W s).2 = s.
Proof.
  unfold configure, mbind, M_bind.
  pose proof (getSecrets_state s) as Hs.
  destruct (getSecrets W s) as [[?|?] s1]; simpl in Hs; subst; [|done].
  repeat (match goal with
          | |- context [mustGetEnv W ?n ?s] =>
              let Hm := fresh in
              pose proof (mustGetEnv_state n s) as Hm;
              destruct (mustGetEnv W n s) as [[?|?] ?]; simpl in Hm; subst;
              [|done]
          end).
  done.
Qed.

(** The configuration does not depend on the state. *)
Lemma configure_result s s' : (configure W s).1 = (configure W s').1.
Proof.
  unfold configure, mbind, M_bind, getSecrets, mustGetEnv, mret, M_ret, throw.
  by repeat (case_match; simplify_eq/=).
Qed.

Lemma onceGuard_run date s :
  onceGuard force date s
  = (Ok (negb force && bool_decide (storage s !! ranKey = Some date)),
     log_events (guard_reads force) s).
Proof.
  unfold onceGuard, guard_reads, storage_get. munfold.
  destruct force; simpl.
  - f_equal. state_eq.
  - f_equal. by destruct (storage s !! ranKey) as [v|].
Qed.

Lemma Window_state s r s1 s2 : Window W s r s1 -> s1 = s2 -> Window W s r s2.
Proof. by intros A <-. Qed.

Lemma storage_get_run key s :
  storage_get key s = (Ok (lookup_result key s), log_event (EvStorageGet key) s).
Proof. reflexivity. Qed.

Lemma windowStart_stored s :
  windowStart W (lookup_result lastRunKey s)
  = match stored_start s with
    | Some v => mret v
    | None => isoDaysAgoUtc W (lookbackDays W)
    end.
Proof.
  unfold windowStart, stored_start, lookup_result, lookbackDays.
  destruct (storage s !! lastRunKey) as [v|]; simpl; [|done].
  by destruct (truthy v && isValidIsoDate v).
Qed.

Lemma dateWindow_Window s : Window W s (dateWindow W s).1 (dateWindow W s).2.
Proof.
  destruct (dateWindow W s) as [r s'] eqn:E. simpl.
  unfold dateWindow, mbind, M_bind in E.
  rewrite storage_get_run in E. cbv beta iota in E.
  rewrite windowStart_stored in E.
  unfold isoDaysAgoUtc, isoNowUtc, newDate, dateToISOString in E.
  munfold. simpl in E.
  destruct (stored_start s) as [v|] eqn:Hst; simpl in E.
  - destruct (toISOString (wall_clock W (journal s ++ [EvStorageGet lastRunKey])))
      as [endISO|] eqn:He; simplify_eq/=.
    + eapply Window_state;
        [by apply (window_stored W s v _ endISO Hst eq_refl)|state_eq].
    + eapply Window_state;
        [eapply (window_invalid W s _ [EvNow _]); by repeat constructor|state_eq].
  - destruct (isoDaysAgo _ _) as [startISO|] eqn:Hs'; simpl in E.
    + destruct (toISOString (wall_clock W _)) as [endISO|] eqn:He;
        simplify_eq/=.
      * eapply Window_state.
        -- apply (window_lookback W s _ startISO _ endISO Hst eq_refl Hs' eq_refl).
           rewrite <- He. f_equal. f_equal. by rewrite <- app_assoc.
        -- state_eq.
      * eapply Window_state;
          [eapply (window_invalid W s _ [EvNow _; EvNow _]);
           by repeat constructor|state_eq].
    + simplify_eq/=.
      eapply Window_state;
        [eapply (window_invalid W s _ [EvNow _]); by repeat constructor|state_eq].
Qed.

Lemma fetchCustomers_state secrets w s :
  match fetch_url secrets with
  | None => fetchCustomers W secrets w s = (Throw (TypeError "Invalid URL"), s)
  | Some url =>
      (fetchCustomers W secrets w s).2
      = log_event (EvGoCreate (fetch_request secrets w url)) s
  end.
Proof.
  unfold fetchCustomers, goCreateFetchCustomersByDateRange, fetch_url,
    fetchGoCreate, fetch_request.
  destruct (URL_ _ _) as [url|]; [|done]. munfold.
  destruct (gocreate_api W (journal s) _) as [res|]; [|done].
  by repeat (case_match; simpl).
Qed.

Lemma Pass_state date cfg w cs s r s1 s2 :
  Pass W force date cfg w cs s r s1 -> s1 = s2 -> Pass W force date cfg w cs s r s2.
Proof. by intros A <-. Qed.

Lemma pass_Pass date cfg w cs s :
  Pass W force date cfg w cs s (pass W force date cfg w cs s).1 (pass W force date cfg w cs s).2.
Proof.
  destruct (pass W force date cfg w cs s) as [r s'] eqn:E. simpl.
  unfold pass, mbind, M_bind, update_vars in E.
  destruct (forOf_effects W cfg cs (set_vars zero s))
    as (evs & cnt & Hs & Hb & Ht).
  destruct (forOf W cfg cs (set_vars zero s)) as [[[]|e] s1] eqn:Hf;
    simpl in Hs; subst s1.
  2:{ simplify_eq. eapply Pass_state; [by eapply pass_aborted|state_eq]. }
  specialize (Ht eq_refl). simpl in Ht.
  unfold conclude, isoNowUtc, newDate, dateToISOString, logger_info,
    storage_set in E.
  munfold. simpl in E.
  destruct (toISOString (wall_clock W (journal s ++ evs))) as [nowISO|] eqn:Hn;
    simpl in E.
  - pose proof (pass_finished W force date cfg w cs s evs cnt _ nowISO Hb Hf Ht
                  eq_refl Hn) as P.
    destruct (advances force cfg cnt); simplify_eq/=.
    + eapply Pass_state; [exact P|unfold commit; state_eq].
    + eapply Pass_state; [exact P|state_eq].
  - simplify_eq. eapply Pass_state; [by eapply pass_invalid_time|state_eq].
Qed.

Lemma Run_state s r s1 s2 : Run W force s r s1 -> s1 = s2 -> Run W force s r s2.
Proof. by intros A <-. Qed.

Lemma runSync_Run s : Run W force s (runSync W force s).1 (runSync W force s).2.
Proof.
  rewrite runSync_phases. unfold phases.
  destruct (gate_open W force s) eqn:Hg; simpl;
    [|eapply Run_state; [by apply run_skipped|state_eq]].
  pose proof (configure_state (log_event (EvNow (opening W s)) s)) as Hcs.
  pose proof (configure_result (log_event (EvNow (opening W s)) s) s) as Hcr.
  destruct (configure W (log_event (EvNow (opening W s)) s)) as [[[secrets cfg]|e] s1];
    simpl in Hcs, Hcr; subst s1.
  2:{ eapply Run_state; [by apply run_misconfigured|state_eq]. }
  rewrite onceGuard_run.
  destruct (negb force && bool_decide (storage _ !! ranKey = Some (today W s)))
    eqn:Hguard.
  { apply andb_prop in Hguard as [Hf Hd].
    apply negb_true_iff in Hf. apply bool_decide_eq_true in Hd.
    eapply Run_state; [by eapply (run_already_ran W force s (secrets, cfg))|].
    unfold guard_reads. rewrite Hf. state_eq. }
  simpl in Hguard.
  pose proof (dateWindow_Window
                (log_events (guard_reads force) (log_event (EvNow (opening W s)) s))) as Hw.
  replace (log_events (guard_reads force) (log_event (EvNow (opening W s)) s))
    with (log_events (EvNow (opening W s) :: guard_reads force) s) in * by state_eq.
  destruct (dateWindow W _) as [[w|e] s2]; simpl in Hw.
  2:{ by eapply run_window_failed. }
  pose proof (fetchCustomers_state secrets w s2) as Hfs.
  destruct (fetchCustomers W secrets w s2) as [[customers|e] s3] eqn:Hfetch.
  2:{ by eapply run_fetch_failed. }
  destruct (fetch_url secrets) as [url|] eqn:Hurl; [|done].
  simpl in Hfs. subst s3.
  eapply run_pass; try done.
  - by rewrite Hfetch.
  - apply pass_Pass.
Qed.

End Phases.

(** ** Facts about strings and numbers *)

Lemma JSNum_eqb_Num a z : JSNum_eqb a (Num z) = true <-> a = Num z.
Proof.
  destruct a as [y| | |]; simpl; try (split; discriminate).
  rewrite Z.eqb_eq. split; congruence.
Qed.

(** A whole number of days is subtracted in the integers. *)
Lemma isoDaysAgo_Num t n :
  isoDaysAgo t (Num n) = toISOString (t - n * 24 * 60 * 60 * 1000).
Proof.
  unfold isoDaysAgo, daysBefore, toISOString.
  destruct ((- maxTime <=? _) && (_ <=? maxTime)) eqn:Hrange; [|done].
  by rewrite Hrange.
Qed.

(** Of a missing [Email] nothing is left. *)
Lemma emailRaw_missing `{Platform} c : Email c = None -> emailRaw c = "".
Proof. unfold emailRaw. intros ->. apply trim_empty. Qed.

(** * The claims *)

Import Scenario.

(** ** C2: the time-of-day gate *)

Section Gate.

Context `{Platform} (W : World).

Lemma gate_open_unforced s :
  gate_open W false s = true
  <-> hour (stockholmParts (wall_clock W (journal s))) = Num 23
      /\ minute (stockholmParts (wall_clock W (journal s))) = Num 59.
Proof.
  unfold gate_open, opening. simpl.
  rewrite andb_true_iff, !JSNum_eqb_Num. done.
Qed.

End Gate.

(** C2. A run that is not forced goes past its gate only when the clock,
    read in Europe/Stockholm local time, shows hour 23 and minute 59.  At any
    other reading the run answers [Skipped] and all it has done is read the
    clock: no secret, storage, source-system or board call is made.
    Conversely a run that did anything else was at 23:59. *)
Theorem gate_only_at_2359 `{Platform} (W : World) (s : State) :
  let now := wall_clock W (journal s) in
  let sp := stockholmParts now in
  (~ (hour sp = Num 23 /\ minute sp = Num 59) ->
   runSync W false s = (Ok Skipped, log_event (EvNow now) s))
  /\ (runSync W false s <> (Ok Skipped, log_event (EvNow now) s) ->
      hour sp = Num 23 /\ minute sp = Num 59).
Proof.
  intros now sp.
  assert (Hskip : gate_open W false s = false ->
                  runSync W false s = (Ok Skipped, log_event (EvNow now) s)).
  { intros Hg. rewrite runSync_phases. unfold phases. by rewrite Hg. }
  split.
  - intros Hn. apply Hskip. apply not_true_is_false.
    by rewrite gate_open_unforced.
  - intros Hr. apply gate_open_unforced.
    destruct (gate_open W false s) eqn:Hg; [done|]. by destruct Hr; apply Hskip.
Qed.

(** At noon in Stockholm a scheduled run is skipped. *)
Lemma gate_only_at_2359_witness :
  runSync (world noon env0 [alice] board_empty) false start
  = (Ok Skipped, log_event (EvNow noon) start).
Proof.
  apply (proj1 (gate_only_at_2359 (world noon env0 [alice] board_empty) start)).
  vm_compute. intros [Hh _]. discriminate Hh.
Defined.

(** With the reference runtime the gate follows the Stockholm wall clock
    through the change of time: it opens at 22:59 UTC in winter and at
    21:59 UTC in summer, also on the night after the last Sunday of March. *)
Example gate_across_daylight_saving :
  stockholmParts t2359
  = {| yyyyMMdd := "2024-11-02"; hour := Num 23; minute := Num 59 |}
  /\ stockholmParts t2359_summer
     = {| yyyyMMdd := "2024-07-01"; hour := Num 23; minute := Num 59 |}
  /\ stockholmParts t2259
     = {| yyyyMMdd := "2024-11-02"; hour := Num 22; minute := Num 59 |}
  /\ stockholmParts 1711839540000   (* 2024-03-30T22:59:00Z *)
     = {| yyyyMMdd := "2024-03-30"; hour := Num 23; minute := Num 59 |}
  /\ stockholmParts 1711922340000   (* 2024-03-31T21:59:00Z *)
     = {| yyyyMMdd := "2024-03-31"; hour := Num 23; minute := Num 59 |}
  /\ (runSync (world t2259 env0 [alice] board_empty) false start).1 = Ok Skipped
  /\ (runSync (world t2359_summer env0 [alice] board_empty) false start).1
     <> Ok Skipped.
Proof. vm_compute. repeat split; discriminate. Qed.

(** ** Journals of whole runs *)

Lemma storage_writes_app evs1 evs2 :
  storage_writes (evs1 ++ evs2) = (storage_writes evs1 ++ storage_writes evs2)%list.
Proof. apply omap_app. Qed.

Lemma fetches_app evs1 evs2 :
  fetches (evs1 ++ evs2) = (fetches evs1 ++ fetches evs2)%list.
Proof. apply omap_app. Qed.

Lemma storage_writes_cons ev evs :
  storage_writes (ev :: evs)
  = (match ev with EvStorageSet k v => [(k, v)] | _ => [] end
     ++ storage_writes evs)%list.
Proof. by destruct ev. Qed.

Lemma fetches_cons ev evs :
  fetches (ev :: evs)
  = (match ev with EvGoCreate req => [req] | _ => [] end ++ fetches evs)%list.
Proof. by destruct ev. Qed.

Lemma board_or_sleep_quiet evs :
  Forall (fun ev => board_or_sleep ev = true) evs ->
  storage_writes evs = [] /\ fetches evs = [].
Proof.
  induction 1 as [|ev evs Hev _ [IH1 IH2]]; [done|].
  rewrite storage_writes_cons, fetches_cons, IH1, IH2. by destruct ev.
Qed.

Lemma clock_quiet evs :
  Forall (fun ev => match ev with EvNow _ => True | _ => False end) evs ->
  storage_writes evs = [] /\ fetches evs = [].
Proof.
  induction 1 as [|ev evs Hev _ [IH1 IH2]]; [done|].
  rewrite storage_writes_cons, fetches_cons, IH1, IH2. by destruct ev.
Qed.

Lemma guard_reads_quiet force t :
  storage_writes (EvNow t :: guard_reads force) = []
  /\ fetches (EvNow t :: guard_reads force) = [].
Proof. by destruct force. Qed.

Section Effects.

Context `{Platform} (W : World) (force : bool).

(** The configuration carries the two switches of the environment. *)
Lemma configure_switches s secrets cfg :
  (configure W s).1 = Ok (secrets, cfg) ->
  dryRun cfg = getEnvBool W "DRY_RUN" false
  /\ updateExisting cfg = getEnvBool W "UPDATE_EXISTING" true.
Proof.
  unfold configure, mbind, M_bind, getSecrets, mustGetEnv, mret, M_ret, throw.
  intros Hc. by repeat (case_match; simplify_eq/=).
Qed.

(** The date window reads the stored last run and the clock. *)
Lemma Window_effects s r s1 :
  Window W s r s1 ->
  exists evs, s1 = log_events evs s
              /\ storage_writes evs = [] /\ fetches evs = [].
Proof.
  intros Hw. inversion Hw; subst.
  - by eexists.
  - by eexists.
  - eexists. split; [done|].
    match goal with Hc : Forall _ _ |- _ => apply clock_quiet in Hc as [Hc1 Hc2] end.
    by rewrite storage_writes_cons, fetches_cons, Hc1, Hc2.
Qed.

(** The loop and the end of the run write to the storage only to advance
    the stored state. *)
Lemma Pass_effects date cfg w customers s r s3 :
  Pass W force date cfg w customers s r s3 ->
  exists evs,
    journal s3 = (journal s ++ evs)%list /\ fetches evs = []
    /\ match r with
       | Ok (Finished result) =>
           stockholmDate result = date /\ forced result = force
           /\ window result = w
           /\ total (counts result) = fetched result
           /\ if advances force cfg (counts result)
              then storage_writes evs
                   = [(lastRunKey, finishedUtc result); (ranKey, date)]
                   /\ storage s3
                      = <[ranKey := date]>
                          (<[lastRunKey := finishedUtc result]> (storage s))
              else storage_writes evs = [] /\ storage s3 = storage s
       | Ok _ => False
       | Throw _ => storage_writes evs = [] /\ storage s3 = storage s
       end.
Proof.
  intros Hp. inversion Hp; subst.
  - exists evs. destruct (board_or_sleep_quiet evs) as [Hq1 Hq2]; [done|].
    by repeat split.
  - exists (evs ++ [EvNow t3])%list.
    destruct (board_or_sleep_quiet evs) as [Hq1 Hq2]; [done|].
    rewrite storage_writes_app, fetches_app, Hq1, Hq2. by repeat split.
  - destruct (board_or_sleep_quiet evs) as [Hq1 Hq2]; [done|].
    simpl. destruct (advances force cfg cnt).
    + eexists. split; [reflexivity|].
      rewrite !storage_writes_app, !fetches_app, Hq1, Hq2. by repeat split.
    + eexists. split; [reflexivity|].
      rewrite !storage_writes_app, !fetches_app, Hq1, Hq2. by repeat split.
Qed.

(** What a run leaves behind, by the way it ends. *)
Lemma Run_effects s r s' :
  Run W force s r s' ->
  exists evs,
    journal s' = (journal s ++ evs)%list
    /\ match r with
       | Ok Skipped =>
           gate_open W force s = false
           /\ evs = [EvNow (opening W s)] /\ storage s' = storage s
       | Ok (AlreadyRan date) =>
           force = false /\ date = today W s
           /\ storage s !! ranKey = Some (today W s)
           /\ evs = [EvNow (opening W s); EvStorageGet ranKey]
           /\ storage s' = storage s
       | Ok (Finished result) =>
           gate_open W force s = true
           /\ negb force && bool_decide (storage s !! ranKey = Some (today W s))
              = false
           /\ stockholmDate result = today W s /\ forced result = force
           /\ total (counts result) = fetched result
           /\ if negb force && negb (getEnvBool W "DRY_RUN" false)
                 && Nat.eqb (length (errors (counts result))) 0
              then storage_writes evs
                   = [(lastRunKey, finishedUtc result);
                      (ranKey, stockholmDate result)]
                   /\ storage s'
                      = <[ranKey := stockholmDate result]>
                          (<[lastRunKey := finishedUtc result]> (storage s))
              else storage_writes evs = [] /\ storage s' = storage s
       | Throw _ => storage_writes evs = [] /\ storage s' = storage s
       end.
Proof.
  intros Hrun.
  destruct (guard_reads_quiet force (opening W s)) as [Hg _].
  inversion Hrun; subst.
  - by eexists.
  - by eexists.
  - by eexists.
  - match goal with Hw : Window _ _ _ _ |- _ =>
      apply Window_effects in Hw as (evs & -> & Hq & _) end.
    exists ((EvNow (opening W s) :: guard_reads force) ++ evs)%list.
    split; [journal_eq|]. by rewrite storage_writes_app, Hg, Hq.
  - match goal with Hw : Window _ _ _ _ |- _ =>
      apply Window_effects in Hw as (evs & -> & Hq & _) end.
    match goal with Hf : fetchCustomers _ _ _ _ = _ |- _ =>
      pose proof (fetchCustomers_state W secrets w
                    (log_events evs
                       (log_events (EvNow (opening W s) :: guard_reads force) s)))
        as Hst; rewrite Hf in Hst end.
    destruct (fetch_url secrets) as [url|]; simpl in Hst.
    + subst.
      exists ((EvNow (opening W s) :: guard_reads force) ++ evs
              ++ [EvGoCreate (fetch_request secrets w url)])%list.
      split; [journal_eq|]. by rewrite !storage_writes_app, Hg, Hq.
    + simplify_eq.
      exists ((EvNow (opening W s) :: guard_reads force) ++ evs)%list.
      split; [journal_eq|]. by rewrite !storage_writes_app, Hg, Hq.
  - match goal with Hw : Window _ _ _ _ |- _ =>
      apply Window_effects in Hw as (evs & -> & Hq & _) end.
    match goal with Hp : Pass _ _ _ _ _ _ _ _ _ |- _ =>
      apply Pass_effects in Hp as (evs2 & Hj & _ & Hr) end.
    exists (((EvNow (opening W s) :: guard_reads force) ++ evs
             ++ [EvGoCreate (fetch_request secrets w url)]) ++ evs2)%list.
    split; [rewrite Hj; journal_eq|].
    rewrite !storage_writes_app, Hg, Hq. simpl in *.
    match goal with Hc : (configure _ _).1 = _ |- _ =>
      apply configure_switches in Hc as [Hdry _] end.
    destruct r as [[| |result]|e]; try done.
    destruct Hr as (-> & -> & _ & Ht & Hadv).
    unfold advances in Hadv. rewrite Hdry in Hadv. by repeat split.
Qed.

End Effects.

(** ** C4: when the stored state advances *)

(** C4. The two guard keys [sync:lastRunISO] and
    [sync:lastRunDateStockholm] are written exactly when the run is not
    forced, [DRY_RUN] is off and the run finishes with an empty list of
    per-record errors; they are then set to the finishing time and to the
    Stockholm date of the run.  In every other case (forced, dry run, thrown
    error, skipped, some per-record error) the journal of the run records no
    write and the storage is what it was. *)
Theorem guard_keys_written_iff `{Platform} (W : World) (force : bool) (s : State) :
  let r := (runSync W force s).1 in
  let s' := (runSync W force s).2 in
  exists evs,
    journal s' = (journal s ++ evs)%list
    /\ ((exists result,
           r = Ok (Finished result) /\ force = false
           /\ getEnvBool W "DRY_RUN" false = false
           /\ errors (counts result) = []
           /\ storage_writes evs
              = [(lastRunKey, finishedUtc result); (ranKey, stockholmDate result)]
           /\ storage s'
              = <[ranKey := stockholmDate result]>
                  (<[lastRunKey := finishedUtc result]> (storage s)))
        \/ ((force = true \/ getEnvBool W "DRY_RUN" false = true
             \/ (forall result, r = Ok (Finished result) ->
                                errors (counts result) <> []))
            /\ storage_writes evs = [] /\ storage s' = storage s)).
Proof.
  intros r s'.
  destruct (Run_effects W force s r s' (runSync_Run W force s))
    as (evs & Hj & Hr).
  exists evs. split; [done|].
  destruct r as [[| |result]|e].
  - right. destruct Hr as (_ & -> & Hs).
    split; [right; right; intros; discriminate|done].
  - right. destruct Hr as (_ & _ & _ & -> & Hs).
    split; [right; right; intros; discriminate|done].
  - destruct Hr as (_ & _ & _ & _ & _ & Hadv).
    destruct force; simpl in Hadv.
    { right. split; [by left|done]. }
    destruct (getEnvBool W "DRY_RUN" false); simpl in Hadv.
    { right. split; [by right; left|done]. }
    destruct (errors (counts result)) as [|err errs] eqn:He; simpl in Hadv.
    + left. exists result. destruct Hadv. by repeat split.
    + right. split; [|done]. right; right. intros ? [= <-]. by rewrite He.
  - right. split; [right; right; intros; discriminate|done].
Qed.

(** A scheduled run without errors writes both keys; the same run forced, or
    as a dry run, or with a failing record, writes none. *)
Example guard_keys_written_cases :
  storage (runSync (world t2359 env0 [alice] board_empty) false start).2
  = <[ranKey := "2024-11-02"]> (<[lastRunKey := "2024-11-02T22:59:00.000Z"]> ∅)
  /\ storage (runSync (world t2359 env0 [alice] board_empty) true start).2 = ∅
  /\ storage (runSync (world t2359 env_dry [alice] board_empty) false start).2 = ∅
  /\ storage (runSync (world t2359 env0 [alice]
                         (board_failing "alice@example.se")) false start).2 = ∅
  /\ storage (runSync (world t2359 env0 [alice] board_locked) false start).2 = ∅.
Proof. vm_compute. repeat split. Qed.

(** ** C10: the counters *)

(** C10. When a run finishes, the counters it reports add up to the number
    of fetched records: every iteration that does not throw adds one to
    exactly one of [created], [updated], [skippedExisting], [skippedNoEmail],
    or appends one entry to [errors]. *)
Theorem counters_partition_fetched `{Platform} (W : World) :
  (forall force s result s',
      runSync W force s = (Ok (Finished result), s') ->
      (created (counts result) + updated (counts result)
       + skippedExisting (counts result) + skippedNoEmail (counts result)
       + length (errors (counts result)))%nat = fetched result)
  /\ (forall cfg c s,
         (loopBody W cfg c s).1 = Ok tt ->
         let v := vars s in
         let v' := vars (loopBody W cfg c s).2 in
         v' = incr_created v \/ v' = incr_updated v
         \/ v' = incr_skippedExisting v \/ v' = incr_skippedNoEmail v
         \/ exists e, v' = push_error e v).
Proof.
  split.
  - intros force s result s' Hrun.
    destruct (Run_effects W force s _ _ (runSync_Run W force s))
      as (evs & _ & Hr).
    rewrite Hrun in Hr. simpl in Hr. by destruct Hr as (_ & _ & _ & _ & Ht & _).
  - intros cfg c s. rewrite loopBody_unfold.
    pose proof (tryBlock_Attempt W cfg c s) as A.
    destruct (tryBlock W cfg c s) as [[[]|e] s1]; simpl in A.
    + intros _. inversion A; subst; simpl.
      * by right; right; right; left.
      * unfold count_upsert. destruct found; [destruct (updateExisting cfg)|];
          tauto.
    + assert (vars s1 = vars s) as Hv by (by inversion A; subst).
      destruct (decide (exn_name e = "MondayAuthError")) as [He|He].
      * by rewrite (catchBlock_auth _ _ _ He).
      * rewrite (catchBlock_other _ _ _ He). simpl. rewrite Hv. intros _.
        right; right; right; right. by eexists.
Qed.

(** Three fetched records: one created, one without email, one failed. *)
Lemma counters_partition_fetched_witness :
  match runSync (world t2359 env0 [alice; nobody; bob]
                   (board_failing "bob@example.se")) true start with
  | (Ok (Finished result), _) =>
      fetched result = 3%nat
      /\ (created (counts result) + updated (counts result)
          + skippedExisting (counts result) + skippedNoEmail (counts result)
          + length (errors (counts result)))%nat = fetched result
  | _ => False
  end.
Proof.
  destruct (runSync _ true start) as [[[| |result]|e] s'] eqn:E.
  1, 2, 4: vm_compute in E; discriminate E.
  split.
  - vm_compute in E. injection E as <- _. reflexivity.
  - exact (proj1 (counters_partition_fetched _) true start result s' E).
Defined.

(** ** C3: the once-per-day guard *)

(** C3 as stated fails: a scheduled pass that records a per-record error
    does not store the date, so a second scheduled pass on the same Stockholm
    date runs in full again.  Here the search for Alice is answered by
    HTTP 500 in both passes, and both passes fetch the customers and create
    an item for Bob. *)
Lemma once_per_day_counterexample :
  let W := world t2359 env0 [alice; bob] (board_failing "alice@example.se") in
  match runSync W false start with
  | (Ok (Finished first), s1) =>
      match runSync W false s1 with
      | (Ok (Finished second), s2) =>
          forced first = false /\ forced second = false
          /\ stockholmDate first = "2024-11-02"
          /\ stockholmDate second = "2024-11-02"
          /\ storage s1 !! ranKey = None
          /\ fetched first = 2%nat /\ fetched second = 2%nat
          /\ created (counts first) = 1%nat /\ created (counts second) = 1%nat
          /\ length (fetches (journal s2)) = 2%nat
          /\ length (List.filter is_create (journal s2)) = 2%nat
      | _ => False
      end
  | _ => False
  end.
Proof. vm_compute. repeat split. Qed.

(** C3, amended.  The guard rests on the stored Stockholm date: a run that is
    not forced and finds today's date stored does nothing but read the clock
    and that key; it answers skipped, or throws when a secret or an env var
    is missing.  The date is stored by a run that is not forced, not a dry
    run and finishes without per-record errors; after such a run no further
    unforced pass takes place on that Stockholm date, as long as the stored
    date stays. *)
Theorem once_per_day_guard `{Platform} (W : World) :
  (forall s,
      storage s !! ranKey = Some (today W s) ->
      let r := (runSync W false s).1 in
      let s' := (runSync W false s).2 in
      storage s' = storage s
      /\ ((gate_open W false s = false /\ r = Ok Skipped
           /\ journal s' = (journal s ++ [EvNow (opening W s)])%list)
          \/ (gate_open W false s = true
              /\ ((r = Ok (AlreadyRan (today W s))
                   /\ journal s'
                      = (journal s ++ [EvNow (opening W s); EvStorageGet ranKey])%list)
                  \/ (exists e, r = Throw e /\ (configure W s).1 = Throw e
                                /\ journal s'
                                   = (journal s ++ [EvNow (opening W s)])%list)))))
  /\ (forall s result s1 s2,
         runSync W false s = (Ok (Finished result), s1) ->
         getEnvBool W "DRY_RUN" false = false ->
         errors (counts result) = [] ->
         storage s2 !! ranKey = storage s1 !! ranKey ->
         today W s2 = stockholmDate result ->
         forall again, (runSync W false s2).1 <> Ok (Finished again)).
Proof.
  split.
  - intros s Hstored.
    pose proof (runSync_Run W false s) as R.
    destruct (runSync W false s) as [r s']. simpl in *.
    assert (Hguard : negb false
                     && bool_decide (storage s !! ranKey = Some (today W s))
                     = true) by (by rewrite bool_decide_eq_true_2).
    inversion R; subst; try congruence.
    + split; [done|]. by left.
    + split; [done|]. right. split; [done|]. right. by exists e.
    + split; [done|]. right. split; [done|]. by left.
  - intros s result s1 s2 Hrun Hdry Herr Hkey Hdate again Hagain.
    destruct (Run_effects W false s _ _ (runSync_Run W false s))
      as (evs & _ & Hr).
    rewrite Hrun in Hr. simpl in Hr.
    destruct Hr as (_ & _ & _ & _ & _ & Hadv).
    rewrite Hdry, Herr in Hadv. simpl in Hadv. destruct Hadv as [_ Hs1].
    destruct (Run_effects W false s2 _ _ (runSync_Run W false s2))
      as (evs2 & _ & Hr2).
    rewrite Hagain in Hr2. destruct Hr2 as (_ & Hguard & _).
    simpl in Hguard. apply bool_decide_eq_false in Hguard. apply Hguard.
    rewrite Hkey, Hs1, Hdate. apply lookup_insert_eq.
Qed.

(** After a scheduled pass without errors, a second run at the same reading
    of the clock is no pass. *)
Lemma once_per_day_guard_witness :
  let W := world t2359 env0 [alice] board_empty in
  match runSync W false start with
  | (Ok (Finished result), s1) =>
      forall again, (runSync W false s1).1 <> Ok (Finished again)
  | _ => False
  end.
Proof.
  intros W.
  destruct (runSync W false start) as [[[| |result]|e] s1] eqn:E.
  1, 2, 4: vm_compute in E; discriminate E.
  apply (proj2 (once_per_day_guard W) start result s1 s1 E).
  - reflexivity.
  - vm_compute in E. injection E as <- _. reflexivity.
  - reflexivity.
  - vm_compute in E. injection E as <- <-. reflexivity.
Defined.

(** ** C5: the date window *)

Lemma fetches_elem req evs : EvGoCreate req ∈ evs -> req ∈ fetches evs.
Proof.
  intros Hin. unfold fetches. apply list_elem_of_omap.
  exists (EvGoCreate req). by split.
Qed.

(** The number of days that a run looks back, from the env var. *)
Lemma lookbackDays_env `{Platform} (W : World) :
  lookbackDays W
  = match process_env W !! "LOOKBACK_DAYS" with
    | Some v => if truthy v && isFinite (Number_ v) then Number_ v else Num 1
    | None => Num 1
    end.
Proof.
  unfold lookbackDays, getEnvInt.
  destruct (process_env W !! "LOOKBACK_DAYS") as [v|]; [|done].
  destruct (truthy v); [|done]. simpl. by destruct (isFinite (Number_ v)).
Qed.

(** The one fetch of a run and the two readings of the clock before it. *)
Lemma Run_window `{Platform} (W : World) (force : bool) (s : State)
    (req : GoCreateRequest) :
  EvGoCreate req ∈ drop (length (journal s)) (journal (runSync W force s).2) ->
  exists pre post t2,
    journal (runSync W force s).2
    = (journal s ++ pre ++ [EvNow t2; EvGoCreate req] ++ post)%list
    /\ fetches pre = [] /\ fetches post = []
    /\ t2 = wall_clock W (journal s ++ pre)
    /\ toISOString t2 = Some (EndDateTime req)
    /\ match stored_start s with
       | Some v => DateTime req = v
       | None =>
           exists pre' t1,
             pre = (pre' ++ [EvNow t1])%list
             /\ t1 = wall_clock W (journal s ++ pre')
             /\ isoDaysAgo t1 (lookbackDays W) = Some (DateTime req)
       end.
Proof.
  intros Hin.
  pose proof (runSync_Run W force s) as R.
  destruct (runSync W force s) as [r s']. simpl in *.
  destruct (guard_reads_quiet force (opening W s)) as [_ Hg].
  assert (Hnew : forall evs, journal s' = (journal s ++ evs)%list ->
                             req ∈ fetches evs).
  { intros evs Hj. apply fetches_elem. rewrite Hj in Hin.
    by rewrite drop_app_length in Hin. }
  (* The two ways a run reaches the fetch share their journal up to it. *)
  assert (Hreach : forall secrets w s1 url post,
             Window W (log_events (EvNow (opening W s) :: guard_reads force) s)
               (Ok w) s1 ->
             journal s' = (journal s1
                           ++ [EvGoCreate (fetch_request secrets w url)]
                           ++ post)%list ->
             fetches post = [] ->
             exists pre post t2,
               journal s'
               = (journal s ++ pre ++ [EvNow t2; EvGoCreate req] ++ post)%list
               /\ fetches pre = [] /\ fetches post = []
               /\ t2 = wall_clock W (journal s ++ pre)
               /\ toISOString t2 = Some (EndDateTime req)
               /\ match stored_start s with
                  | Some v => DateTime req = v
                  | None =>
                      exists pre' t1,
                        pre = (pre' ++ [EvNow t1])%list
                        /\ t1 = wall_clock W (journal s ++ pre')
                        /\ isoDaysAgo t1 (lookbackDays W)
                           = Some (DateTime req)
                  end).
  { intros secrets w s1 url post Hw Hj Hpost.
    assert (req = fetch_request secrets w url) as ->.
    { destruct (Window_effects W _ _ _ Hw) as (evs & -> & _ & Hq).
      specialize (Hnew ((EvNow (opening W s) :: guard_reads force) ++ evs
                        ++ [EvGoCreate (fetch_request secrets w url)] ++ post)%list).
      rewrite !fetches_app, Hg, Hq, Hpost in Hnew. simpl in Hnew.
      apply list_elem_of_singleton. apply Hnew. rewrite Hj. journal_eq. }
    inversion Hw as [v t2 endISO Hst Ht2 Hiso Hr Hs1
                    |t1 startISO t2 endISO Hst Ht1 Hstart Ht2 Hiso Hr Hs1| ];
      subst w s1.
    - exists ((EvNow (opening W s) :: guard_reads force)
              ++ [EvStorageGet lastRunKey])%list, post, t2.
      split; [rewrite Hj; journal_eq|].
      split; [by rewrite fetches_app, Hg|]. split; [done|].
      split; [rewrite Ht2; simpl; by rewrite <- app_assoc|].
      split; [done|].
      change (stored_start s = Some v) in Hst. by rewrite Hst.
    - exists ((EvNow (opening W s) :: guard_reads force)
              ++ [EvStorageGet lastRunKey; EvNow t1])%list, post, t2.
      split; [rewrite Hj; journal_eq|].
      split; [by rewrite fetches_app, Hg|]. split; [done|].
      split; [rewrite Ht2; simpl; by rewrite <- app_assoc|].
      split; [done|].
      change (stored_start s = None) in Hst. rewrite Hst.
      exists ((EvNow (opening W s) :: guard_reads force)
              ++ [EvStorageGet lastRunKey])%list, t1.
      split; [by rewrite <- app_assoc|].
      split; [rewrite Ht1; simpl; by rewrite <- app_assoc|done]. }
  inversion R; subst.
  - specialize (Hnew [EvNow (opening W s)] eq_refl). by inversion Hnew.
  - specialize (Hnew [EvNow (opening W s)] eq_refl). by inversion Hnew.
  - specialize (Hnew [EvNow (opening W s); EvStorageGet ranKey] eq_refl).
    by inversion Hnew.
  - match goal with Hw : Window _ _ _ _ |- _ =>
      apply Window_effects in Hw as (evs & -> & _ & Hq) end.
    specialize (Hnew ((EvNow (opening W s) :: guard_reads force) ++ evs)%list).
    rewrite fetches_app, Hg, Hq in Hnew.
    exfalso. eapply not_elem_of_nil. apply Hnew. journal_eq.
  - match goal with Hf : fetchCustomers _ _ _ _ = _ |- _ =>
      pose proof (fetchCustomers_state W secrets w s1) as Hst;
      rewrite Hf in Hst end.
    destruct (fetch_url secrets) as [url|]; simpl in Hst.
    + subst. eapply (Hreach secrets w s1 url []); [done| |done]. journal_eq.
    + simplify_eq.
      match goal with Hw : Window _ _ _ _ |- _ =>
        apply Window_effects in Hw as (evs & -> & _ & Hq) end.
      specialize (Hnew ((EvNow (opening W s) :: guard_reads force) ++ evs)%list).
      rewrite fetches_app, Hg, Hq in Hnew.
      exfalso. eapply not_elem_of_nil. apply Hnew. journal_eq.
  - match goal with Hp : Pass _ _ _ _ _ _ _ _ _ |- _ =>
      apply Pass_effects in Hp as (evs2 & Hj & Hq2 & _) end.
    eapply (Hreach secrets w s1 url evs2); [done| |done].
    rewrite Hj. journal_eq.
Qed.

(** C5. Whenever a run calls the by-date-range fetch, the window it sends
    ends at the reading of the clock taken just before the call, and starts
    at the stored last-run timestamp when that is stored, non-empty and
    accepted by [isValidIsoDate]; otherwise it starts the number of days
    that the env var [LOOKBACK_DAYS] holds before a reading of the clock
    taken just before that: 1 day when the variable is unset, empty or not a
    finite number, that many times 24 * 60 * 60 * 1000 milliseconds for a
    whole number, and what binary64 arithmetic gives for a number with a
    fraction.  A run makes no other fetch. *)
Theorem fetch_window `{Platform} (W : World) (force : bool) (s : State)
    (req : GoCreateRequest) :
  EvGoCreate req ∈ drop (length (journal s)) (journal (runSync W force s).2) ->
  exists pre post t2,
    journal (runSync W force s).2
    = (journal s ++ pre ++ [EvNow t2; EvGoCreate req] ++ post)%list
    /\ fetches pre = [] /\ fetches post = []
    /\ t2 = wall_clock W (journal s ++ pre)
    /\ toISOString t2 = Some (EndDateTime req)
    /\ match stored_start s with
       | Some v => DateTime req = v
       | None =>
           exists pre' t1,
             pre = (pre' ++ [EvNow t1])%list
             /\ t1 = wall_clock W (journal s ++ pre')
             /\ let days :=
                  match process_env W !! "LOOKBACK_DAYS" with
                  | Some v =>
                      if truthy v && isFinite (Number_ v) then Number_ v
                      else Num 1
                  | None => Num 1
                  end in
                match days with
                | Num n =>
                    toISOString (t1 - n * 24 * 60 * 60 * 1000)
                    = Some (DateTime req)
                | _ => isoDaysAgo t1 days = Some (DateTime req)
                end
       end.
Proof.
  intros Hin.
  destruct (Run_window W force s req Hin)
    as (pre & post & t2 & Hj & Hpre & Hpost & Ht2 & Hend & Hstart).
  exists pre, post, t2. split_and!; try done.
  destruct (stored_start s) as [v|]; [done|].
  destruct Hstart as (pre' & t1 & Hpre' & Ht1 & Hiso).
  exists pre', t1. split_and!; try done.
  rewrite lookbackDays_env in Hiso. simpl.
  destruct (match process_env W !! "LOOKBACK_DAYS" with
            | Some v => _ | None => _ end) as [n| | |]; try done.
  by rewrite <- isoDaysAgo_Num.
Qed.

(** [LOOKBACK_DAYS=1.5] and nothing stored: the window starts 36 hours
    before the reading of the clock. *)
Lemma fetch_window_witness :
  let W := world t2359 (<["LOOKBACK_DAYS" := "1.5"]> env0) [alice] board_empty in
  let req := {| req_url := "http://api.gocreate.nu/Customer/ByDateRange/";
                DateTime := "2024-11-01T10:59:00.000Z";
                EndDateTime := "2024-11-02T22:59:00.000Z";
                UserName := "user"; Password := "pw";
                AuthenticationToken := "auth" |} in
  exists pre post t2,
    journal (runSync W true start).2
    = (journal start ++ pre ++ [EvNow t2; EvGoCreate req] ++ post)%list
    /\ toISOString t2 = Some "2024-11-02T22:59:00.000Z"
    /\ exists pre' t1,
         pre = (pre' ++ [EvNow t1])%list
         /\ isoDaysAgo t1 (Number_ "1.5") = Some "2024-11-01T10:59:00.000Z".
Proof.
  intros W req.
  assert (Hin : EvGoCreate req
                ∈ drop (length (journal start)) (journal (runSync W true start).2)).
  { vm_compute. repeat constructor. }
  destruct (fetch_window W true start req Hin)
    as (pre & post & t2 & Hj & _ & _ & _ & Ht & Hstart).
  exists pre, post, t2. split; [exact Hj|]. split; [exact Ht|].
  assert (Hnone : stored_start start = None) by (vm_compute; reflexivity).
  rewrite Hnone in Hstart.
  destruct Hstart as (pre' & t1 & Hpre & _ & Ht1).
  exists pre', t1. split; [exact Hpre|].
  assert (Hdays : Number_ "1.5" = Frac 6755399441055744 (-52))
    by (vm_compute; reflexivity).
  rewrite Hdays.
  cbv zeta in Ht1.
  match type of Ht1 with
  | match ?d with Num _ => _ | _ => _ end =>
      assert (Hd : d = Frac 6755399441055744 (-52)) by (vm_compute; reflexivity);
      rewrite Hd in Ht1
  end.
  exact Ht1.
Defined.

(** The window of a forced run at 22:59:00 UTC with nothing stored: the last
    day when [LOOKBACK_DAYS] is unset, empty or no number, the last two days
    for [LOOKBACK_DAYS=2], the last 36 hours for [LOOKBACK_DAYS=1.5]. *)
Example fetch_window_days :
  let starts env :=
    map DateTime
        (fetches (journal (runSync (world t2359 env [] board_empty) true start).2)) in
  starts env0 = ["2024-11-01T22:59:00.000Z"]
  /\ starts (<["LOOKBACK_DAYS" := ""]> env0) = ["2024-11-01T22:59:00.000Z"]
  /\ starts (<["LOOKBACK_DAYS" := "soon"]> env0) = ["2024-11-01T22:59:00.000Z"]
  /\ starts (<["LOOKBACK_DAYS" := "2"]> env0) = ["2024-10-31T22:59:00.000Z"]
  /\ starts (<["LOOKBACK_DAYS" := "1.5"]> env0) = ["2024-11-01T10:59:00.000Z"].
Proof. vm_compute. repeat split. Qed.

(** A stored last run that is a valid ISO date is sent as the start. *)
Example fetch_window_from_stored_run :
  let W := world t2359 env0 [] board_empty in
  let s := {| journal := [];
              storage := {[ lastRunKey := "2024-10-30T08:00:00.000Z" ]};
              vars := zero |} in
  fetches (journal (runSync W true s).2)
  = [{| req_url := "http://api.gocreate.nu/Customer/ByDateRange/";
        DateTime := "2024-10-30T08:00:00.000Z";
        EndDateTime := "2024-11-02T22:59:00.000Z";
        UserName := "user"; Password := "pw";
        AuthenticationToken := "auth" |}].
Proof. vm_compute. reflexivity. Qed.

(** ** Journals of iterations *)

Section Iterations.

Context `{Platform} (W : World) (cfg : Settings).

Lemma count_upsert_upserted found c :
  upserted (count_upsert cfg found c) = S (upserted c)
  /\ skippedNoEmail (count_upsert cfg found c) = skippedNoEmail c
  /\ errors (count_upsert cfg found c) = errors c.
Proof.
  unfold count_upsert, upserted.
  destruct found; [destruct (updateExisting cfg)|]; simpl; repeat split; lia.
Qed.

(** An iteration for a customer with an email: the search, the write that
    the answer decides, and the delay when nothing was thrown. *)
Lemma loopBody_email c s :
  emailRaw c <> "" ->
  exists w tail cnt,
    (loopBody W cfg c s).2 = set_vars cnt (log_events (find_call cfg c :: w ++ tail) s)
    /\ w = match search W cfg c s with
           | Ok found => upsert_call cfg c found
           | Throw _ => []
           end
    /\ ((tail = [EvSleep 120]
         /\ (tryBlock W cfg c s).1 = Ok tt
         /\ exists found, search W cfg c s = Ok found
                          /\ cnt = count_upsert cfg found (vars s))
        \/ (tail = []
            /\ exists e, (tryBlock W cfg c s).1 = Throw e
                         /\ (cnt = vars s
                             \/ cnt = push_error {| err_email := Email c;
                                                    err_error := exn_message e |}
                                        (vars s)))).
Proof.
  intros He. rewrite loopBody_unfold.
  pose proof (tryBlock_Attempt W cfg c s) as A.
  destruct (tryBlock W cfg c s) as [[[]|e] s1]; simpl in A.
  - inversion A as [Hno|found _ Hs| |]; subst; [done|].
    exists (upsert_call cfg c found), [EvSleep 120], (count_upsert cfg found (vars s)).
    rewrite Hs. split; [done|]. split; [done|]. left. eauto.
  - assert (exists w, s1 = log_events (find_call cfg c :: w ++ []) s
                      /\ w = match search W cfg c s with
                             | Ok found => upsert_call cfg c found
                             | Throw _ => []
                             end) as (w & -> & Hw).
    { inversion A as [| |e' _ Hs|found w' e' _ Hs Hup]; subst.
      - exists []. by rewrite Hs.
      - exists [w']. by rewrite Hs, Hup. }
    destruct (decide (exn_name e = "MondayAuthError")) as [Hn|Hn].
    + rewrite (catchBlock_auth _ _ _ Hn). simpl.
      exists w, [], (vars s). split; [state_eq|]. split; [done|].
      right. split; [done|]. exists e. eauto.
    + rewrite (catchBlock_other _ _ _ Hn). simpl.
      eexists w, [], _. split; [reflexivity|]. split; [done|].
      right. split; [done|]. exists e. eauto.
Qed.

Lemma loopBody_no_email c s :
  emailRaw c = "" ->
  loopBody W cfg c s = (Ok tt, set_vars (incr_skippedNoEmail (vars s)) s).
Proof.
  intros He. rewrite loopBody_unfold. unfold tryBlock. by rewrite He.
Qed.

Lemma board_calls_app evs1 evs2 :
  board_calls (evs1 ++ evs2) = (board_calls evs1 ++ board_calls evs2)%list.
Proof. apply omap_app. Qed.

Lemma board_calls_upsert c found :
  board_calls (upsert_call cfg c found) = upsert_call cfg c found.
Proof.
  unfold upsert_call.
  destruct (dryRun cfg), found; try destruct (updateExisting cfg); done.
Qed.

End Iterations.

(** ** C1: creation or update, by email *)




(** ** The loop inside a run *)

Section Entry.

Context `{Platform} (W : World) (force : bool).

(** From there on a run is its loop and its conclusion. *)
Lemma runSync_loop s cfg w customers s0 :
  loop_entry W force s = Some (cfg, w, customers, s0) ->
  runSync W force s
  = match forOf W cfg customers s0 with
    | (Ok _, s1) => conclude W force (today W s) cfg w customers s1
    | (Throw e, s1) => (Throw e, s1)
    end.
Proof.
  rewrite runSync_phases. unfold phases, loop_entry, pass.
  unfold mbind, M_bind, update_vars.
  intros He. by repeat (case_match; simplify_eq/=).
Qed.

(** The settings of the loop are read from the environment, and the loop
    starts with its counters at zero. *)
Lemma loop_entry_settings s cfg w customers s0 :
  loop_entry W force s = Some (cfg, w, customers, s0) ->
  dryRun cfg = getEnvBool W "DRY_RUN" false
  /\ updateExisting cfg = getEnvBool W "UPDATE_EXISTING" true
  /\ boardId cfg = from_option Number_ NaN (process_env W !! "MONDAY_BOARD_ID")
  /\ process_env W !! "MONDAY_GROUP_ID" = Some (groupId cfg)
  /\ process_env W !! "MONDAY_COL_EMAIL" = Some (colEmail cfg)
  /\ process_env W !! "MONDAY_COL_TELEFON" = Some (colTelefon cfg)
  /\ process_env W !! "MONDAY_COL_FORETAG" = Some (colForetag cfg)
  /\ secret_store W !! "MONDAY_ACCESS_TOKEN" = Some (mondayToken cfg)
  /\ vars s0 = zero.
Proof.
  unfold loop_entry. intros He.
  destruct (negb (gate_open W force s)); [done|].
  destruct (configure W _) as [[[secrets cfg']|?] s1] eqn:Hc; [|done].
  assert (cfg' = cfg /\ vars s0 = zero) as [-> Hz].
  { by repeat (case_match; simplify_eq/=). }
  clear He. split_and!; try done.
  all: revert Hc; unfold configure, mbind, M_bind, getSecrets, mustGetEnv,
         mret, M_ret, throw; intros Hc;
       destruct (secret_store W !! "MONDAY_ACCESS_TOKEN") as [tok|];
       simpl in Hc;
       by repeat (case_match; simplify_eq/=).
Qed.

End Entry.

(** ** C9: errors inside the loop *)

Section Errors.

Context `{Platform} (W : World) (cfg : Settings).

Lemma loopBody_throws c s e s1 :
  loopBody W cfg c s = (Throw e, s1) ->
  exn_name e = "MondayAuthError" /\ tryBlock W cfg c s = (Throw e, s1).
Proof.
  rewrite loopBody_unfold.
  destruct (tryBlock W cfg c s) as [[[]|e'] s']; [done|].
  destruct (decide (exn_name e' = "MondayAuthError")) as [Hn|Hn].
  - rewrite (catchBlock_auth _ _ _ Hn). by intros [= <- <-].
  - by rewrite (catchBlock_other _ _ _ Hn).
Qed.

(** The loop throws nothing but authentication errors. *)
Lemma forOf_throws cs s e s1 :
  forOf W cfg cs s = (Throw e, s1) -> exn_name e = "MondayAuthError".
Proof.
  revert s. induction cs as [|c cs IH]; intros s; simpl; [done|].
  unfold mbind, M_bind.
  destruct (loopBody W cfg c s) as [[[]|e'] s'] eqn:Hb.
  - apply IH.
  - intros [= <- <-]. by apply loopBody_throws in Hb as [Hn _].
Qed.

(** HTTP 401 and 403 are authentication errors. *)
Lemma mondayGraphql_unauthorized token q s res :
  monday_api W (journal s) token q = Some res ->
  status res = 401 \/ status res = 403 ->
  exists msg, (mondayGraphql W token q s).1 = Throw (MondayAuthError msg).
Proof.
  intros Hres Hst. unfold mondayGraphql, fetchMonday. munfold. rewrite Hres.
  simpl. destruct Hst as [-> | ->]; simpl; by eexists.
Qed.

End Errors.

(** C9. When the [try] block of an iteration throws an exception named
    [MondayAuthError], the loop rethrows it at once: the remaining customers
    are not processed, and a run that has entered its loop ends with that
    exception, in the state of the throw.  Any other exception ends the
    iteration without a throw: one entry is added at the end of [errors],
    with the [Email] field of the record as it was fetched and the message of
    the exception, the four counters stay as they were before the iteration,
    and the loop goes on with the remaining customers. *)
Theorem auth_error_aborts `{Platform} (W : World) :
  (forall cfg c rest s e s1,
      tryBlock W cfg c s = (Throw e, s1) ->
      exn_name e = "MondayAuthError" ->
      forOf W cfg (c :: rest) s = (Throw e, s1))
  /\ (forall force s cfg w customers s0 e s1,
         loop_entry W force s = Some (cfg, w, customers, s0) ->
         forOf W cfg customers s0 = (Throw e, s1) ->
         runSync W force s = (Throw e, s1)
         /\ exn_name e = "MondayAuthError")
  /\ (forall cfg c rest s e s1,
         tryBlock W cfg c s = (Throw e, s1) ->
         exn_name e <> "MondayAuthError" ->
         vars s1 = vars s
         /\ exists s2,
              loopBody W cfg c s = (Ok tt, s2)
              /\ errors (vars s2)
                 = (errors (vars s)
                    ++ [{| err_email := Email c; err_error := exn_message e |}])%list
              /\ created (vars s2) = created (vars s)
              /\ updated (vars s2) = updated (vars s)
              /\ skippedExisting (vars s2) = skippedExisting (vars s)
              /\ skippedNoEmail (vars s2) = skippedNoEmail (vars s)
              /\ journal s2 = journal s1
              /\ storage s2 = storage s1
              /\ forOf W cfg (c :: rest) s = forOf W cfg rest s2).
Proof.
  split; [|split].
  - intros cfg c rest s e s1 Ht Hn. simpl. unfold mbind, M_bind.
    by rewrite loopBody_unfold, Ht, (catchBlock_auth _ _ _ Hn).
  - intros force s cfg w customers s0 e s1 Hentry Hloop. split.
    + by rewrite (runSync_loop W force s cfg w customers s0 Hentry), Hloop.
    + by eapply forOf_throws.
  - intros cfg c rest s e s1 Ht Hn.
    assert (Hv : vars s1 = vars s).
    { pose proof (tryBlock_Attempt W cfg c s) as A. rewrite Ht in A.
      simpl in A. by inversion A; subst. }
    split; [done|].
    assert (Hbody : loopBody W cfg c s
                    = (Ok tt, set_vars (push_error {| err_email := Email c;
                                                      err_error := exn_message e |}
                                          (vars s1)) s1)).
    { by rewrite loopBody_unfold, Ht, (catchBlock_other _ _ _ Hn). }
    eexists. split; [exact Hbody|]. simpl. rewrite Hv. split_and!; try done.
    unfold mbind, M_bind. by rewrite Hbody, Hv.
Qed.

(** A board that rejects the token stops the run at the first search; a
    search answered by HTTP 500 is recorded with the email as it was fetched
    and the next customer is processed. *)
Lemma auth_error_aborts_witness :
  (let W := world t2359 env0 [alice; bob] board_locked in
   exists msg s1,
     runSync W false start = (Throw (MondayAuthError msg), s1)
     /\ board_calls (journal s1) = [find_call settings0 alice])
  /\ (let W := world t2359 env0 [alice; bob] (board_failing "alice@example.se") in
      exists s2,
        loopBody W settings0 alice start = (Ok tt, s2)
        /\ errors (vars s2)
           = [{| err_email := Some " Alice@Example.SE ";
                 err_error := "monday HTTP 500: busy" |}]
        /\ forOf W settings0 [alice; bob] start = forOf W settings0 [bob] s2).
Proof.
  split.
  - intros W.
    destruct (loop_entry W false start) as [[[[cfg w] customers] s0]|] eqn:Hentry;
      [|vm_compute in Hentry; discriminate Hentry].
    destruct (forOf W cfg customers s0) as [[[]|e] s1] eqn:Hloop.
    + vm_compute in Hentry. injection Hentry as <- <- <- <-.
      vm_compute in Hloop. discriminate Hloop.
    + destruct (proj1 (proj2 (auth_error_aborts W))
                  false start cfg w customers s0 e s1 Hentry Hloop) as [Hrun _].
      vm_compute in Hentry. injection Hentry as <- <- <- <-.
      vm_compute in Hloop. injection Hloop as <- <-.
      eexists _, _. split; [exact Hrun|]. vm_compute. reflexivity.
  - intros W.
    assert (Ht : tryBlock W settings0 alice start
                 = (Throw (Error "monday HTTP 500: busy"),
                    log_event (find_call settings0 alice) start))
      by (vm_compute; reflexivity).
    assert (Hn : exn_name (Error "monday HTTP 500: busy") <> "MondayAuthError")
      by (vm_compute; discriminate).
    destruct (proj2 (proj2 (auth_error_aborts W))
                settings0 alice [bob] start _ _ Ht Hn)
      as (_ & s2 & Hbody & Herr & _ & _ & _ & _ & _ & _ & Hfor).
    exists s2. split; [exact Hbody|]. split; [exact Herr|exact Hfor].
Defined.

(** ** C8: records without an email, and the normalised email *)

(** With distinct column ids the email column of a write holds the
    normalised email. *)
Lemma columnValues_email `{Platform} cfg c :
  colEmail cfg <> colForetag cfg ->
  columnValues cfg c !! colEmail cfg = Some (toLowerCase (trim (default "" (Email c)))).
Proof.
  intros Hne. unfold columnValues.
  rewrite lookup_insert_ne by done. by rewrite lookup_insert_eq.
Qed.

(** C8. A customer whose [Email] is missing, empty or white space only, so
    that [trim] leaves nothing of it, is skipped: the iteration throws
    nothing, adds one to [skippedNoEmail], leaves the other counters, the
    errors, the storage and the journal as they are, so it makes no search,
    create or update call.  For any other customer the iteration starts with
    the search for the trimmed, lowercased email in the email column, and
    every later entry is the delay or a write of the object built from that
    same address, which holds it under the email column when the company has
    a column of its own; [skippedNoEmail] stays. *)
Theorem email_normalised `{Platform} (W : World) (cfg : Settings)
    (c : GoCreateCustomerInfo) (s : State) :
  (Email c = None \/ Email c = Some ""
   \/ (exists e, Email c = Some e /\ trim e = "") ->
   exists s',
     loopBody W cfg c s = (Ok tt, s')
     /\ skippedNoEmail (vars s') = S (skippedNoEmail (vars s))
     /\ created (vars s') = created (vars s)
     /\ updated (vars s') = updated (vars s)
     /\ skippedExisting (vars s') = skippedExisting (vars s)
     /\ errors (vars s') = errors (vars s)
     /\ journal s' = journal s
     /\ storage s' = storage s)
  /\ (forall e,
         Email c = Some e -> trim e <> "" ->
         exists evs,
           journal (loopBody W cfg c s).2
           = (journal s
              ++ EvMonday (mondayToken cfg)
                   (items_page_by_column_values (String_of_num (boardId cfg))
                      (colEmail cfg) [toLowerCase (trim e)] 1)
              :: evs)%list
           /\ Forall (carries_email cfg c (toLowerCase (trim e))) evs
           /\ skippedNoEmail (vars (loopBody W cfg c s).2)
              = skippedNoEmail (vars s)).
Proof.
  split.
  - intros Hno.
    assert (Hraw : emailRaw c = "").
    { destruct Hno as [Hno | [Hno | (e & Hno & He)]].
      - by apply emailRaw_missing.
      - unfold emailRaw. rewrite Hno. apply trim_empty.
      - unfold emailRaw. by rewrite Hno. }
    eexists. split; [by apply loopBody_no_email|]. done.
  - intros e He Hws.
    assert (Hraw : emailRaw c <> "").
    { unfold emailRaw. by rewrite He. }
    assert (Hmail : email c = toLowerCase (trim e)).
    { unfold email, emailRaw. by rewrite He. }
    assert (Hcv : carries_email cfg c (toLowerCase (trim e))
                    (EvSleep 120)
                  /\ (forall tok b g n,
                         carries_email cfg c (toLowerCase (trim e))
                           (EvMonday tok (create_item b g n (columnValues cfg c))))
                  /\ (forall tok b i,
                         carries_email cfg c (toLowerCase (trim e))
                           (EvMonday tok (change_multiple_column_values b i
                                            (columnValues cfg c))))).
    { split; [done|].
      split; intros; simpl; (split;
        [unfold columnValues; by rewrite Hmail
        |intros Hne; rewrite <- Hmail; by apply columnValues_email]). }
    destruct Hcv as (Hsleep & Hcreate & Hupdate).
    destruct (loopBody_email W cfg c s Hraw) as (w & tail & cnt & Hs & Hw & Htail).
    exists (w ++ tail)%list. rewrite Hs. simpl. split; [|split].
    + unfold find_call. by rewrite Hmail.
    + apply Forall_app. split.
      * rewrite Hw. destruct (search W cfg c s) as [found|]; [|constructor].
        unfold upsert_call.
        destruct (dryRun cfg); [constructor|].
        destruct found as [it|]; [destruct (updateExisting cfg)|].
        -- apply Forall_cons_2; [|apply Forall_nil_2].
           apply (Hupdate (mondayToken cfg) (String_of_num (boardId cfg)) (id it)).
        -- apply Forall_nil_2.
        -- apply Forall_cons_2; [|apply Forall_nil_2].
           apply (Hcreate (mondayToken cfg) (String_of_num (boardId cfg))
                    (groupId cfg) (itemName c)).
      * destruct Htail as [[-> _]|[-> _]]; by repeat constructor.
    + destruct Htail as [(_ & _ & found & _ & ->)|(_ & e' & _ & [-> | ->])];
        [|done|done].
      by destruct (count_upsert_upserted cfg found (vars s)) as (_ & ? & _).
Qed.

(** A record with a blank email is skipped and counted; Alice is searched
    for by her trimmed, lowercased address, and that address is what a write
    holds in the email column. *)
Lemma email_normalised_witness :
  let W := world t2359 env0 [] board_empty in
  (exists s',
      loopBody W settings0 nobody start = (Ok tt, s')
      /\ skippedNoEmail (vars s') = 1%nat
      /\ journal s' = [])
  /\ exists evs,
       journal (loopBody W settings0 alice start).2
       = EvMonday "tok"
           (items_page_by_column_values "123" "email" ["alice@example.se"] 1)
         :: evs
       /\ Forall (carries_email settings0 alice "alice@example.se") evs.
Proof.
  intros W. split.
  - destruct (proj1 (email_normalised W settings0 nobody start))
      as (s' & Hbody & Hskip & _ & _ & _ & _ & Hj & _).
    { right. right. exists "  ". split; reflexivity. }
    exists s'. split; [exact Hbody|]. split; [exact Hskip|exact Hj].
  - assert (Ht : trim " Alice@Example.SE " <> "") by (vm_compute; discriminate).
    destruct (proj2 (email_normalised W settings0 alice start)
                " Alice@Example.SE " eq_refl Ht) as (evs & Hj & Hc & _).
    exists evs. split; [exact Hj|exact Hc].
Defined.

(** ** C6: the search *)

Section Search.

Context `{Platform} (W : World) (cfg : Settings).





End Search.



(** ** C7: order and delay *)

Section Order.

Context `{Platform} (W : World) (cfg : Settings).

Lemma upsert_call_Write c found : Write cfg c (upsert_call cfg c found).
Proof.
  unfold upsert_call, Write.
  destruct (dryRun cfg); [by left|].
  destruct found as [it|]; [|by right; left].
  destruct (updateExisting cfg); [right; right; by exists it|by left].
Qed.

Lemma delays_app evs1 evs2 :
  delays (evs1 ++ evs2) = (delays evs1 ++ delays evs2)%list.
Proof. apply omap_app. Qed.

Lemma delays_Write c w : Write cfg c w -> delays w = [].
Proof. by intros [-> | [-> | [it ->]]]. Qed.

(** One iteration: its segment, and its delay when the customer is counted
    as created, updated or skippedExisting. *)
Lemma loopBody_segment c s :
  exists seg,
    journal (loopBody W cfg c s).2 = (journal s ++ seg)%list
    /\ Segment cfg c seg
    /\ upserted (vars (loopBody W cfg c s).2)
       = (upserted (vars s) + length (delays seg))%nat
    /\ Forall (fun ms => ms = 120) (delays seg).
Proof.
  destruct (decide (emailRaw c = "")) as [He|He].
  - rewrite (loopBody_no_email W cfg c s He). exists []. simpl.
    rewrite app_nil_r. split; [done|]. split; [by constructor|].
    split; [unfold upserted; simpl; lia|constructor].
  - destruct (loopBody_email W cfg c s He) as (w & tail & cnt & Hs & Hw & Htail).
    assert (HW : Write cfg c w).
    { rewrite Hw. destruct (search W cfg c s); [apply upsert_call_Write|by left]. }
    exists (find_call cfg c :: w ++ tail)%list. rewrite Hs. simpl.
    split; [done|].
    change (delays (find_call cfg c :: w ++ tail)) with (delays (w ++ tail)).
    rewrite delays_app, (delays_Write c w HW). simpl.
    destruct Htail as [(-> & _ & found & _ & ->)|(-> & e & _ & Hcnt)].
    + split; [by apply segment_completed|].
      destruct (count_upsert_upserted cfg found (vars s)) as (-> & _).
      split; [simpl; lia|by repeat constructor].
    + rewrite app_nil_r. split; [by apply segment_failed|].
      split; [|constructor]. simpl.
      destruct Hcnt as [-> | ->]; unfold upserted; simpl; lia.
Qed.

End Order.

(** C7 as stated fails: no delay separates a record whose processing threw
    (or that has no email) from the next one.  The search for Alice is
    answered by HTTP 500; the search for Bob follows it at once. *)
Lemma sequential_with_delay_counterexample :
  let W := world t2359 env0 [] (board_failing "alice@example.se") in
  journal (forOf W settings0 [alice; bob] start).2
  = [find_call settings0 alice;
     find_call settings0 bob; create_call settings0 bob; EvSleep 120]
  /\ find_call settings0 alice
     = EvMonday "tok"
         (items_page_by_column_values "123" "email" ["alice@example.se"] 1)
  /\ find_call settings0 bob
     = EvMonday "tok"
         (items_page_by_column_values "123" "email" ["bob@example.se"] 1).
Proof. vm_compute. repeat split. Qed.

(** C7, amended.  The loop processes the customers one after the other in
    the order of the fetched list: its journal is the concatenation, in that
    order, of one segment for each customer it reached, so every call for one
    record precedes every call for the next.  A segment is empty for a record
    without email; otherwise it is the search, at most one write and, when
    nothing was thrown, a delay of 120 ms.  So the loop waits 120 ms once for
    each record it counts as created, updated or skippedExisting, and not
    after a record without email or one whose processing threw. *)
Theorem sequential_with_delay `{Platform} (W : World) (cfg : Settings)
    (customers : list GoCreateCustomerInfo) (s : State) :
  exists segs,
    journal (forOf W cfg customers s).2 = (journal s ++ concat segs)%list
    /\ Forall2 (Segment cfg) (take (length segs) customers) segs
    /\ ((forOf W cfg customers s).1 = Ok tt -> length segs = length customers)
    /\ upserted (vars (forOf W cfg customers s).2)
       = (upserted (vars s) + length (delays (concat segs)))%nat
    /\ Forall (fun ms => ms = 120) (delays (concat segs)).
Proof.
  revert s. induction customers as [|c cs IH]; intros s; simpl.
  - exists []. simpl. rewrite app_nil_r. repeat split; try done; constructor.
  - unfold mbind, M_bind.
    destruct (loopBody_segment W cfg c s) as (seg & Hj & Hseg & Hup & Hms).
    destruct (loopBody W cfg c s) as [[[]|e] s1]; simpl in Hj, Hup.
    + destruct (IH s1) as (segs & Hj2 & Hsegs & Hlen & Hup2 & Hms2).
      exists (seg :: segs). simpl. rewrite delays_app, length_app.
      split; [by rewrite Hj2, Hj, <- app_assoc|].
      split; [by constructor|].
      split; [intros Hok; by rewrite (Hlen Hok)|].
      split; [rewrite Hup2, Hup; lia|by apply Forall_app].
    + exists [seg]. simpl. rewrite !app_nil_r.
      split; [done|]. split; [by repeat constructor|].
      split; [done|]. split; done.
Qed.

(** ** Further properties *)

(** The board's refusals of the token are told apart from other failures:
    HTTP 401 and 403, and a GraphQL error list whose messages read like an
    authentication failure, throw [MondayAuthError]. *)
Theorem auth_failures_detected `{Platform} (W : World) (token : string)
    (q : MondayQuery) (s : State) (res : HttpResponse MondayJson) :
  monday_api W (journal s) token q = Some res ->
  (status res = 401 \/ status res = 403 ->
   exists msg, (mondayGraphql W token q s).1 = Throw (MondayAuthError msg))
  /\ (forall j,
         ok res = true -> json res = Some j -> json_errors j <> [] ->
         authLike (join " | " (json_errors j)) = true ->
         exists msg, (mondayGraphql W token q s).1 = Throw (MondayAuthError msg)).
Proof.
  intros Hres. split.
  - by apply mondayGraphql_unauthorized.
  - intros j Hok Hj Herr Hauth.
    unfold mondayGraphql, fetchMonday. munfold. rewrite Hres. simpl.
    assert (Hst : (status res =? 401) || (status res =? 403) = false).
    { unfold ok in Hok. apply andb_prop in Hok as [_ Hle].
      apply Z.leb_le in Hle. apply orb_false_intro; apply Z.eqb_neq; lia. }
    rewrite Hst, Hok, Hj. simpl.
    destruct (json_errors j) as [|m ms] eqn:He; [done|].
    simpl negb. cbv iota. rewrite Hauth. by eexists.
Qed.

(** HTTP 401 is an authentication error. *)
Lemma auth_failures_detected_witness :
  let W := world t2359 env0 [] board_locked in
  exists msg,
    (mondayGraphql W "tok" (items_page_by_column_values "123" "email" ["a@b.se"] 1)
       start).1 = Throw (MondayAuthError msg).
Proof.
  intros W.
  apply (proj1 (auth_failures_detected W "tok"
                  (items_page_by_column_values "123" "email" ["a@b.se"] 1) start
                  {| status := 401; text := "no"; json := None |} eq_refl)).
  by left.
Defined.

(** A run that throws, for whatever reason, leaves the stored state as it
    was: the next run starts from the same last-run timestamp. *)
Theorem failed_run_keeps_state `{Platform} (W : World) (force : bool) (s : State) :
  match runSync W force s with
  | (Throw _, s') =>
      storage s' = storage s
      /\ exists evs, journal s' = (journal s ++ evs)%list
                     /\ storage_writes evs = []
  | _ => True
  end.
Proof.
  destruct (Run_effects W force s _ _ (runSync_Run W force s)) as (evs & Hj & Hr).
  destruct (runSync W force s) as [[o|e] s']; [done|]. simpl in *.
  destruct Hr as [Hw Hs]. split; [done|]. by exists evs.
Qed.

(** A forced run passes the gate and the guard: it is never skipped. *)
Theorem forced_run_never_skipped `{Platform} (W : World) (s : State) :
  (runSync W true s).1 <> Ok Skipped
  /\ forall date, (runSync W true s).1 <> Ok (AlreadyRan date).
Proof.
  destruct (Run_effects W true s _ _ (runSync_Run W true s)) as (evs & _ & Hr).
  destruct (runSync W true s) as [[[| |result]|e] s']; simpl in *;
    split; try done.
  - by destruct Hr as [Hg _].
  - by destruct Hr as [Hf _].
Qed.

(** *** The calls to the board come from the loop *)

Section Board.

Context `{Platform} (W : World) (force : bool).

Lemma board_calls_cons ev evs :
  board_calls (ev :: evs)
  = (match ev with EvMonday _ _ => [ev] | _ => [] end ++ board_calls evs)%list.
Proof. by destruct ev. Qed.

Lemma board_calls_clock evs :
  Forall (fun ev => match ev with EvNow _ => True | _ => False end) evs ->
  board_calls evs = [].
Proof.
  induction 1 as [|ev evs Hev _ IH]; [done|].
  rewrite board_calls_cons, IH. by destruct ev.
Qed.

Lemma Window_board s r s1 :
  Window W s r s1 -> exists evs, s1 = log_events evs s /\ board_calls evs = [].
Proof.
  intros Hw. inversion Hw; subst.
  - by eexists.
  - by eexists.
  - eexists. split; [done|].
    match goal with Hc : Forall _ _ |- _ => apply board_calls_clock in Hc end.
    change (board_calls (EvStorageGet lastRunKey :: clock))
      with (board_calls clock). done.
Qed.

Lemma Pass_board date cfg w customers s r s3 :
  Pass W force date cfg w customers s r s3 ->
  exists loop tail r0 cnt,
    forOf W cfg customers (set_vars zero s) = (r0, set_vars cnt (log_events loop s))
    /\ journal s3 = (journal s ++ loop ++ tail)%list
    /\ board_calls tail = [].
Proof.
  intros Hp. inversion Hp; subst.
  - exists evs, [], (Throw e), cnt. split; [done|]. simpl. by rewrite app_nil_r.
  - exists evs, [EvNow t3], (Ok tt), cnt. by split.
  - destruct (advances force cfg cnt).
    + eexists evs, _, (Ok tt), cnt. split; [done|]. by split.
    + eexists evs, _, (Ok tt), cnt. split; [done|]. by split.
Qed.

(** The calls that a run makes to the board are those of its loop, which
    runs with the settings read from the environment. *)
Lemma Run_board s r s' :
  Run W force s r s' ->
  exists evs,
    journal s' = (journal s ++ evs)%list
    /\ (board_calls evs = []
        \/ exists secrets cfg customers s0 r0 cnt loop,
             (configure W s).1 = Ok (secrets, cfg)
             /\ forOf W cfg customers (set_vars zero s0)
                = (r0, set_vars cnt (log_events loop s0))
             /\ board_calls evs = board_calls loop).
Proof.
  intros Hrun.
  assert (Hg : board_calls (EvNow (opening W s) :: guard_reads force) = [])
    by (by destruct force).
  inversion Hrun; subst.
  - eexists. split; [reflexivity|by left].
  - eexists. split; [reflexivity|by left].
  - eexists. split; [reflexivity|by left].
  - match goal with Hw : Window _ _ _ _ |- _ =>
      apply Window_board in Hw as (evs & -> & Hq) end.
    exists ((EvNow (opening W s) :: guard_reads force) ++ evs)%list.
    split; [journal_eq|]. left. by rewrite board_calls_app, Hg, Hq.
  - match goal with Hw : Window _ _ _ _ |- _ =>
      apply Window_board in Hw as (evs & -> & Hq) end.
    match goal with Hf : fetchCustomers _ _ _ _ = _ |- _ =>
      pose proof (fetchCustomers_state W secrets w
                    (log_events evs
                       (log_events (EvNow (opening W s) :: guard_reads force) s)))
        as Hst; rewrite Hf in Hst end.
    destruct (fetch_url secrets) as [url|]; simpl in Hst.
    + subst.
      exists ((EvNow (opening W s) :: guard_reads force) ++ evs
              ++ [EvGoCreate (fetch_request secrets w url)])%list.
      split; [journal_eq|]. left. by rewrite !board_calls_app, Hg, Hq.
    + simplify_eq.
      exists ((EvNow (opening W s) :: guard_reads force) ++ evs)%list.
      split; [journal_eq|]. left. by rewrite !board_calls_app, Hg, Hq.
  - match goal with Hw : Window _ _ _ _ |- _ =>
      apply Window_board in Hw as (evs & -> & Hq) end.
    match goal with Hp : Pass _ _ _ _ _ _ _ _ _ |- _ =>
      apply Pass_board in Hp as (loop & tail & r0 & cnt & Hloop & Hj & Ht) end.
    exists (((EvNow (opening W s) :: guard_reads force) ++ evs
             ++ [EvGoCreate (fetch_request secrets w url)]) ++ loop ++ tail)%list.
    split; [rewrite Hj; journal_eq|].
    right. eexists secrets, cfg, customers, _, r0, cnt, loop.
    split; [done|]. split; [exact Hloop|].
    rewrite !board_calls_app, Hg, Hq, Ht. simpl. by rewrite app_nil_r.
Qed.

End Board.

Section Dry.

Context `{Platform} (W : World) (cfg : Settings).

(** With [DRY_RUN] on, the loop only searches. *)
Lemma forOf_dry cs s :
  dryRun cfg = true ->
  exists evs,
    journal (forOf W cfg cs s).2 = (journal s ++ evs)%list
    /\ Forall (fun ev => is_create ev = false /\ is_update ev = false) evs.
Proof.
  intros Hdry. revert s. induction cs as [|c cs IH]; intros s; simpl.
  - exists []. by rewrite app_nil_r.
  - unfold mbind, M_bind.
    assert (exists evs1,
               journal (loopBody W cfg c s).2 = (journal s ++ evs1)%list
               /\ Forall (fun ev => is_create ev = false /\ is_update ev = false)
                    evs1) as (evs1 & Hj1 & Hf1).
    { destruct (decide (emailRaw c = "")) as [He|He].
      - rewrite (loopBody_no_email W cfg c s He). exists []. simpl.
        by rewrite app_nil_r.
      - destruct (loopBody_email W cfg c s He)
          as (w & tail & cnt & Hs & Hw & Htail).
        assert (w = []) as ->.
        { rewrite Hw. destruct (search W cfg c s); [|done].
          unfold upsert_call. by rewrite Hdry. }
        exists (find_call cfg c :: tail). rewrite Hs. split; [done|].
        constructor; [done|].
        destruct Htail as [[-> _]|[-> _]]; by repeat constructor. }
    destruct (loopBody W cfg c s) as [[[]|e] s1]; simpl in Hj1.
    + destruct (IH s1) as (evs2 & Hj2 & Hf2).
      exists (evs1 ++ evs2)%list. split; [by rewrite Hj2, Hj1, <- app_assoc|].
      by apply Forall_app.
    + by exists evs1.
Qed.

End Dry.

Lemma board_calls_writes evs :
  Forall (fun ev => is_create ev = false /\ is_update ev = false) evs ->
  Forall (fun ev => is_create ev = false /\ is_update ev = false) (board_calls evs).
Proof.
  induction 1 as [|ev evs Hev _ IH]; [constructor|].
  rewrite board_calls_cons.
  apply Forall_app. split; [|done].
  destruct ev; try constructor; [done|constructor].
Qed.

(** With [DRY_RUN] on a run writes nothing: among its calls to the board
    there is no creation and no update, and the storage is left as it was. *)
Theorem dry_run_writes_nothing `{Platform} (W : World) (force : bool) (s : State) :
  getEnvBool W "DRY_RUN" false = true ->
  exists evs,
    journal (runSync W force s).2 = (journal s ++ evs)%list
    /\ Forall (fun ev => is_create ev = false /\ is_update ev = false)
         (board_calls evs)
    /\ storage (runSync W force s).2 = storage s.
Proof.
  intros Hdry.
  destruct (Run_board W force s _ _ (runSync_Run W force s)) as (evs & Hj & Hb).
  exists evs. split; [done|]. split.
  - destruct Hb as [-> | (secrets & cfg & cs & s0 & r0 & cnt & loop
                          & Hcfg & Hloop & ->)]; [constructor|].
    apply configure_switches in Hcfg as [Hd _]. rewrite Hdry in Hd.
    destruct (forOf_dry W cfg cs (set_vars zero s0) Hd) as (evs' & Hj' & Hf').
    rewrite Hloop in Hj'. simpl in Hj'. apply app_inv_head in Hj'. subst evs'.
    by apply board_calls_writes.
  - destruct (Run_effects W force s _ _ (runSync_Run W force s))
      as (evs2 & _ & Hr).
    destruct (runSync W force s) as [[[| |result]|e] s']; simpl in *.
    + by destruct Hr as (_ & _ & ?).
    + by destruct Hr as (_ & _ & _ & _ & ?).
    + destruct Hr as (_ & _ & _ & _ & _ & Hadv). rewrite Hdry in Hadv.
      rewrite andb_false_r in Hadv. by destruct Hadv.
    + by destruct Hr.
Qed.

(** A scheduled dry run over a board that knows every customer. *)
Lemma dry_run_writes_nothing_witness :
  let W := world t2359 env_dry [alice; bob] board_full in
  exists evs,
    journal (runSync W false start).2 = (journal start ++ evs)%list
    /\ Forall (fun ev => is_create ev = false /\ is_update ev = false)
         (board_calls evs)
    /\ storage (runSync W false start).2 = storage start.
Proof.
  intros W. apply (dry_run_writes_nothing W false start). reflexivity.
Defined.

(** ** Missing configuration *)

Section Configuration.

Context `{Platform} (W : World).

Lemma mustGetEnv_unset name s :
  unset (process_env W) name ->
  mustGetEnv W name s = (Throw (Error ("Missing env var: " ++ name)), s).
Proof. unfold mustGetEnv. by intros [-> | ->]. Qed.

Lemma mustGetEnv_set name s :
  ~ unset (process_env W) name ->
  exists v, process_env W !! name = Some v /\ mustGetEnv W name s = (Ok v, s).
Proof.
  unfold mustGetEnv, unset. intros Hn.
  destruct (process_env W !! name) as [[|c v]|]; [tauto| |tauto].
  by eexists.
Qed.

Lemma unset_dec m name : {unset m name} + {~ unset m name}.
Proof.
  unfold unset. destruct (m !! name) as [[|c v]|].
  - left. by right.
  - right. intros [|]; discriminate.
  - left. by left.
Qed.

Lemma present_unset (m : gmap string string) name :
  from_option truthy false (m !! name) = false <-> unset m name.
Proof.
  unfold unset. destruct (m !! name) as [[|c v]|]; simpl; split; try done.
  - by right.
  - intros [|]; discriminate.
  - by left.
Qed.

Lemma present_set (m : gmap string string) name :
  from_option truthy false (m !! name) = true <-> ~ unset m name.
Proof.
  rewrite <- present_unset. by destruct (from_option truthy false (m !! name)).
Qed.

(** The secrets, by what is missing. *)
Lemma getSecrets_missing s :
  (unset (secret_store W) "MONDAY_ACCESS_TOKEN" ->
   getSecrets W s = (Throw (Error "Missing secret: MONDAY_ACCESS_TOKEN"), s))
  /\ (~ unset (secret_store W) "MONDAY_ACCESS_TOKEN" ->
      unset (secret_store W) "GOCREATE_USERNAME"
      \/ unset (secret_store W) "GOCREATE_PASSWORD"
      \/ unset (secret_store W) "GOCREATE_AUTH_TOKEN" ->
      getSecrets W s
      = (Throw (Error "Missing GoCreate secrets: GOCREATE_USERNAME / GOCREATE_PASSWORD / GOCREATE_AUTH_TOKEN"), s))
  /\ ((forall name, name ∈ secretNames -> ~ unset (secret_store W) name) ->
      exists secrets, getSecrets W s = (Ok secrets, s)).
Proof.
  unfold getSecrets. munfold. split; [|split].
  - intros Hu. apply present_unset in Hu. by rewrite Hu.
  - intros Ht Hu. apply present_set in Ht. rewrite Ht. simpl.
    rewrite <- !present_unset in Hu.
    destruct Hu as [-> | [-> | ->]]; simpl; by rewrite ?orb_true_r.
  - intros Hall.
    assert (Hp : forall name, name ∈ secretNames ->
                   from_option truthy false (secret_store W !! name) = true).
    { intros name Hin. by apply present_set, Hall. }
    rewrite !Hp by (unfold secretNames; repeat constructor). simpl.
    by eexists.
Qed.

(** The five env vars are read in the order of [envNames]; the first that
    is missing decides the error. *)
Lemma configure_missing_env s :
  (forall name, name ∈ secretNames -> ~ unset (secret_store W) name) ->
  (exists name, name ∈ envNames /\ unset (process_env W) name) ->
  exists before name after,
    envNames = (before ++ name :: after)%list
    /\ Forall (fun n => ~ unset (process_env W) n) before
    /\ unset (process_env W) name
    /\ configure W s = (Throw (Error ("Missing env var: " ++ name)), s).
Proof.
  intros Hsec Henv.
  destruct (proj2 (proj2 (getSecrets_missing s)) Hsec) as (secrets & Hs).
  unfold configure, mbind, M_bind. rewrite Hs.
  destruct (unset_dec (process_env W) "MONDAY_BOARD_ID") as [Hu1|Hu1].
  { exists [], "MONDAY_BOARD_ID", (tail envNames).
    split; [done|]. split; [done|]. split; [done|].
    by rewrite (mustGetEnv_unset _ s Hu1). }
  destruct (mustGetEnv_set _ s Hu1) as (v1 & _ & ->).
  destruct (unset_dec (process_env W) "MONDAY_GROUP_ID") as [Hu2|Hu2].
  { exists ["MONDAY_BOARD_ID"], "MONDAY_GROUP_ID", (drop 2 envNames).
    split; [done|]. split; [by repeat constructor|]. split; [done|].
    by rewrite (mustGetEnv_unset _ s Hu2). }
  destruct (mustGetEnv_set _ s Hu2) as (v2 & _ & ->).
  destruct (unset_dec (process_env W) "MONDAY_COL_EMAIL") as [Hu3|Hu3].
  { exists (take 2 envNames), "MONDAY_COL_EMAIL", (drop 3 envNames).
    split; [done|]. split; [by repeat constructor|]. split; [done|].
    by rewrite (mustGetEnv_unset _ s Hu3). }
  destruct (mustGetEnv_set _ s Hu3) as (v3 & _ & ->).
  destruct (unset_dec (process_env W) "MONDAY_COL_TELEFON") as [Hu4|Hu4].
  { exists (take 3 envNames), "MONDAY_COL_TELEFON", (drop 4 envNames).
    split; [done|]. split; [by repeat constructor|]. split; [done|].
    by rewrite (mustGetEnv_unset _ s Hu4). }
  destruct (mustGetEnv_set _ s Hu4) as (v4 & _ & ->).
  destruct (unset_dec (process_env W) "MONDAY_COL_FORETAG") as [Hu5|Hu5].
  { exists (take 4 envNames), "MONDAY_COL_FORETAG", [].
    split; [done|]. split; [by repeat constructor|]. split; [done|].
    by rewrite (mustGetEnv_unset _ s Hu5). }
  exfalso. destruct Henv as (name & Hin & Hun). unfold envNames in Hin.
  repeat (apply elem_of_cons in Hin as [->|Hin]); try done.
  by apply elem_of_nil in Hin.
Qed.

Lemma configure_missing_secret s e :
  getSecrets W s = (Throw e, s) -> configure W s = (Throw e, s).
Proof. intros Hs. unfold configure, mbind, M_bind. by rewrite Hs. Qed.

Lemma secrets_dec :
  {forall name, name ∈ secretNames -> ~ unset (secret_store W) name}
  + {exists name, name ∈ secretNames /\ unset (secret_store W) name}.
Proof.
  unfold secretNames.
  destruct (unset_dec (secret_store W) "MONDAY_ACCESS_TOKEN") as [H1|H1];
    [right; eexists; split; [|exact H1]; repeat constructor|].
  destruct (unset_dec (secret_store W) "GOCREATE_USERNAME") as [H2|H2];
    [right; eexists; split; [|exact H2]; repeat constructor|].
  destruct (unset_dec (secret_store W) "GOCREATE_PASSWORD") as [H3|H3];
    [right; eexists; split; [|exact H3]; repeat constructor|].
  destruct (unset_dec (secret_store W) "GOCREATE_AUTH_TOKEN") as [H4|H4];
    [right; eexists; split; [|exact H4]; repeat constructor|].
  left. intros name Hin.
  repeat (apply elem_of_cons in Hin as [->|Hin]); try done.
  by apply elem_of_nil in Hin.
Qed.

End Configuration.

(** A run that has passed the gate and finds a secret or an env var missing
    or empty throws an [Error] that names what is missing, and has done
    nothing but read the clock: no storage access, no fetch, no call to the
    board.  Without the secret [MONDAY_ACCESS_TOKEN] the message names that
    secret; with it and without one of the three GoCreate secrets it names
    those three; with the four secrets it names the first of the five env
    vars, in the order in which they are read, that is missing. *)
Theorem missing_configuration_stops_run `{Platform} (W : World) (force : bool)
    (s : State) :
  gate_open W force s = true ->
  (exists name, name ∈ secretNames /\ unset (secret_store W) name)
  \/ (exists name, name ∈ envNames /\ unset (process_env W) name) ->
  exists msg,
    runSync W force s = (Throw (Error msg), log_event (EvNow (opening W s)) s)
    /\ (unset (secret_store W) "MONDAY_ACCESS_TOKEN" ->
        msg = "Missing secret: MONDAY_ACCESS_TOKEN")
    /\ (~ unset (secret_store W) "MONDAY_ACCESS_TOKEN" ->
        unset (secret_store W) "GOCREATE_USERNAME"
        \/ unset (secret_store W) "GOCREATE_PASSWORD"
        \/ unset (secret_store W) "GOCREATE_AUTH_TOKEN" ->
        msg = "Missing GoCreate secrets: GOCREATE_USERNAME / GOCREATE_PASSWORD / GOCREATE_AUTH_TOKEN")
    /\ ((forall name, name ∈ secretNames -> ~ unset (secret_store W) name) ->
        exists before name after,
          envNames = (before ++ name :: after)%list
          /\ Forall (fun n => ~ unset (process_env W) n) before
          /\ unset (process_env W) name
          /\ msg = "Missing env var: " ++ name).
Proof.
  intros Hgate Hmiss.
  set (s0 := log_event (EvNow (opening W s)) s).
  assert (Hrun : forall e, configure W s0 = (Throw e, s0) ->
                           runSync W force s = (Throw e, s0)).
  { intros e Hc. rewrite runSync_phases. unfold phases. fold s0.
    by rewrite Hgate, Hc. }
  destruct (getSecrets_missing W s0) as (Htok & Hgo & _).
  destruct (unset_dec (secret_store W) "MONDAY_ACCESS_TOKEN") as [Hu|Hu].
  { eexists. split; [apply Hrun, configure_missing_secret, Htok, Hu|].
    split; [done|]. split; [done|]. intros Hall. exfalso.
    apply (Hall "MONDAY_ACCESS_TOKEN"); [repeat constructor|done]. }
  destruct (secrets_dec W) as [Hall|(name & Hin & Hun)].
  - assert (Henv : exists name, name ∈ envNames /\ unset (process_env W) name).
    { destruct Hmiss as [(name & Hin & Hun)|]; [|done].
      by destruct (Hall name Hin). }
    destruct (configure_missing_env W s0 Hall Henv)
      as (before & name & after & Hnames & Hbefore & Hun & Hc).
    eexists. split; [apply Hrun, Hc|]. split; [done|].
    split.
    + intros _ [Hg|[Hg|Hg]]; exfalso;
        (eapply Hall; [|exact Hg]); unfold secretNames; repeat constructor.
    + intros _. by exists before, name, after.
  - assert (Hone : unset (secret_store W) "GOCREATE_USERNAME"
                   \/ unset (secret_store W) "GOCREATE_PASSWORD"
                   \/ unset (secret_store W) "GOCREATE_AUTH_TOKEN").
    { unfold secretNames in Hin.
      repeat (apply elem_of_cons in Hin as [->|Hin]); try tauto.
      by apply elem_of_nil in Hin. }
    eexists. split; [apply Hrun, configure_missing_secret, (Hgo Hu Hone)|].
    split; [done|]. split; [done|]. intros Hall. by destruct (Hall name Hin).
Qed.

(** A forced run without [MONDAY_GROUP_ID]: the four secrets are there, and
    the error names an env var that is missing. *)
Lemma missing_configuration_stops_run_witness :
  let W := world noon env_no_group [alice] board_empty in
  exists before name after,
    envNames = (before ++ name :: after)%list
    /\ unset (process_env W) name
    /\ runSync W true start
       = (Throw (Error ("Missing env var: " ++ name)), log_event (EvNow noon) start).
Proof.
  intros W.
  destruct (missing_configuration_stops_run W true start)
    as (msg & Hrun & _ & _ & Henv).
  - reflexivity.
  - right. exists "MONDAY_GROUP_ID". split; [repeat constructor|].
    left. vm_compute. reflexivity.
  - destruct Henv as (before & name & after & Hnames & _ & Hun & ->).
    { intros name Hin Hun. unfold secretNames in Hin.
      repeat (apply elem_of_cons in Hin as [->|Hin]);
        try (destruct Hun as [Hun|Hun]; vm_compute in Hun; discriminate Hun).
      by apply elem_of_nil in Hin. }
    exists before, name, after. split; [exact Hnames|]. split; [exact Hun|exact Hrun].
Defined.

(** One message for each cause: the token, a GoCreate secret, an env var. *)
Example missing_configuration_messages :
  let run secrets env :=
    (runSync {| process_env := env; secret_store := secrets;
                wall_clock := fun _ => noon;
                gocreate_api := gocreate_returns []; monday_api := board_empty |}
       true start).1 in
  run (delete "MONDAY_ACCESS_TOKEN" secrets0) env_no_group
  = Throw (Error "Missing secret: MONDAY_ACCESS_TOKEN")
  /\ run (<["GOCREATE_PASSWORD" := ""]> secrets0) env_no_group
     = Throw (Error "Missing GoCreate secrets: GOCREATE_USERNAME / GOCREATE_PASSWORD / GOCREATE_AUTH_TOKEN")
  /\ run secrets0 (delete "MONDAY_COL_EMAIL" env_no_group)
     = Throw (Error "Missing env var: MONDAY_GROUP_ID").
Proof. vm_compute. repeat split. Qed.

(** ** The fetch inside a run *)

Section Fetch.

Context `{Platform} (W : World) (force : bool).

(** What the program makes of the answer of the source system. *)
Lemma fetchCustomers_answer secrets w s url :
  fetch_url secrets = Some url ->
  (fetchCustomers W secrets w s).1
  = match gocreate_api W (journal s) (fetch_request secrets w url) with
    | None => Throw (TypeError "fetch failed")
    | Some res =>
        if negb (ok res)
        then Throw (Error ("GoCreate HTTP " ++ pretty (status res) ++ ": "
                           ++ text res))
        else match json res with
             | None => Throw (SyntaxError "Unexpected token")
             | Some j =>
                 if bool_decide (IsValidResult j = Some false)
                 then Throw (Error (trim ("GoCreate invalid result: "
                                          ++ trim (default "" (ErrorCode j)) ++ " "
                                          ++ trim (default "" (ErrorMessage j)))))
                 else Ok (default [] (CustomerInfo j))
             end
    end.
Proof.
  unfold fetch_url, fetchCustomers, goCreateFetchCustomersByDateRange,
    fetchGoCreate, fetch_request.
  intros ->. munfold.
  destruct (gocreate_api W (journal s) _) as [res|]; [|done].
  by repeat (case_match; simpl).
Qed.

Lemma delays_cons ev evs :
  delays (ev :: evs)
  = (match ev with EvSleep ms => [ms] | _ => [] end ++ delays evs)%list.
Proof. by destruct ev. Qed.

Lemma clock_silent evs :
  Forall (fun ev => match ev with EvNow _ => True | _ => False end) evs ->
  board_calls evs = [] /\ delays evs = [].
Proof.
  induction 1 as [|ev evs Hev _ [IH1 IH2]]; [done|].
  rewrite board_calls_cons, delays_cons, IH1, IH2. by destruct ev.
Qed.

(** The date window reads the storage and the clock and nothing else. *)
Lemma Window_quiet s r s1 :
  Window W s r s1 ->
  exists evs, s1 = log_events evs s
              /\ storage_writes evs = [] /\ fetches evs = []
              /\ board_calls evs = [] /\ delays evs = [].
Proof.
  intros Hw. inversion Hw; subst.
  - by eexists.
  - by eexists.
  - eexists. split; [done|].
    match goal with Hc : Forall _ _ |- _ =>
      destruct (clock_quiet _ Hc) as [Hc1 Hc2];
      destruct (clock_silent _ Hc) as [Hc3 Hc4] end.
    by rewrite storage_writes_cons, fetches_cons, board_calls_cons, delays_cons,
         Hc1, Hc2, Hc3, Hc4.
Qed.

Lemma guard_reads_silent t :
  board_calls (EvNow t :: guard_reads force) = []
  /\ delays (EvNow t :: guard_reads force) = [].
Proof. by destruct force. Qed.

(** A run either ends before the fetch, or makes one fetch with the window
    it computed; what the source answers decides how it goes on. *)
Lemma Run_fetch s r s' :
  Run W force s r s' ->
  (exists evs,
      journal s' = (journal s ++ evs)%list
      /\ fetches evs = [] /\ board_calls evs = [] /\ delays evs = []
      /\ forall result, r <> Ok (Finished result))
  \/ (exists secrets cfg w s1 pre url post,
         (configure W s).1 = Ok (secrets, cfg)
         /\ Window W (log_events (EvNow (opening W s) :: guard_reads force) s)
              (Ok w) s1
         /\ journal s1 = (journal s ++ pre)%list
         /\ fetches pre = [] /\ board_calls pre = [] /\ delays pre = []
         /\ fetch_url secrets = Some url
         /\ journal s'
            = (journal s1 ++ EvGoCreate (fetch_request secrets w url) :: post)%list
         /\ match (fetchCustomers W secrets w s1).1 with
            | Throw e => r = Throw e /\ post = []
            | Ok customers =>
                Pass W force (today W s) cfg w customers
                  (log_event (EvGoCreate (fetch_request secrets w url)) s1) r s'
            end).
Proof.
  intros Hrun.
  destruct (guard_reads_quiet force (opening W s)) as [_ Hg].
  destruct (guard_reads_silent (opening W s)) as [Hgb Hgd].
  inversion Hrun; subst.
  - left. eexists. by repeat split.
  - left. eexists. by repeat split.
  - left. eexists. by repeat split.
  - left.
    match goal with Hw : Window _ _ _ _ |- _ =>
      apply Window_quiet in Hw as (evs & -> & _ & Hq & Hb & Hd) end.
    exists ((EvNow (opening W s) :: guard_reads force) ++ evs)%list.
    split; [journal_eq|].
    by rewrite fetches_app, board_calls_app, delays_app, Hg, Hgb, Hgd, Hq, Hb, Hd.
  - match goal with Hw : Window _ _ _ _ |- _ =>
      pose proof Hw as Hw';
      apply Window_quiet in Hw' as (evs & Hs1 & _ & Hq & Hb & Hd) end.
    match goal with Hf : fetchCustomers _ _ _ _ = _ |- _ =>
      pose proof (fetchCustomers_state W secrets w s1) as Hst;
      rewrite Hf in Hst; rename Hf into Hfetch end.
    destruct (fetch_url secrets) as [url|] eqn:Hurl; simpl in Hst.
    + right. exists secrets, cfg, w, s1,
        ((EvNow (opening W s) :: guard_reads force) ++ evs)%list, url, [].
      split; [done|]. split; [done|].
      split; [subst s1; journal_eq|].
      split; [by rewrite fetches_app, Hg, Hq|].
      split; [by rewrite board_calls_app, Hgb, Hb|].
      split; [by rewrite delays_app, Hgd, Hd|].
      split; [done|]. split; [by rewrite Hst|].
      by rewrite Hfetch.
    + left. simplify_eq.
      exists ((EvNow (opening W s) :: guard_reads force) ++ evs)%list.
      split; [journal_eq|].
      by rewrite fetches_app, board_calls_app, delays_app, Hg, Hgb, Hgd, Hq, Hb, Hd.
  - match goal with Hw : Window _ _ _ _ |- _ =>
      pose proof Hw as Hw';
      apply Window_quiet in Hw' as (evs & Hs1 & _ & Hq & Hb & Hd) end.
    match goal with Hp : Pass _ _ _ _ _ _ _ _ _ |- _ =>
      pose proof Hp as Hp';
      apply Pass_effects in Hp' as (evs2 & Hj & _ & _) end.
    right. exists secrets, cfg, w, s1,
      ((EvNow (opening W s) :: guard_reads force) ++ evs)%list, url, evs2.
    split; [done|]. split; [done|].
    split; [subst s1; journal_eq|].
    split; [by rewrite fetches_app, Hg, Hq|].
    split; [by rewrite board_calls_app, Hgb, Hb|].
    split; [by rewrite delays_app, Hgd, Hd|].
    split; [done|]. split; [rewrite Hj; journal_eq|].
    match goal with Hf : (fetchCustomers _ _ _ _).1 = _ |- _ => by rewrite Hf end.
Qed.

(** The one fetch of a run, found from its journal. *)
Lemma Run_fetched s r s' req :
  Run W force s r s' ->
  EvGoCreate req ∈ drop (length (journal s)) (journal s') ->
  exists secrets cfg w s1 pre url post,
    (configure W s).1 = Ok (secrets, cfg)
    /\ Window W (log_events (EvNow (opening W s) :: guard_reads force) s)
         (Ok w) s1
    /\ journal s1 = (journal s ++ pre)%list
    /\ fetches pre = [] /\ board_calls pre = [] /\ delays pre = []
    /\ fetch_url secrets = Some url
    /\ req = fetch_request secrets w url
    /\ journal s' = (journal s1 ++ EvGoCreate req :: post)%list
    /\ match (fetchCustomers W secrets w s1).1 with
       | Throw e => r = Throw e /\ post = []
       | Ok customers =>
           Pass W force (today W s) cfg w customers
             (log_event (EvGoCreate req) s1) r s'
       end.
Proof.
  intros Hrun Hin.
  destruct (Run_fetch s r s' Hrun)
    as [(evs & Hj & Hf & _)
       |(secrets & cfg & w & s1 & pre & url & post & Hc & Hw & Hj1 & Hf1 & Hb1
         & Hd1 & Hurl & Hj & Hr)].
  - rewrite Hj, drop_app_length in Hin. apply fetches_elem in Hin.
    rewrite Hf in Hin. by apply elem_of_nil in Hin.
  - assert (req = fetch_request secrets w url) as ->.
    { assert (fetches post = []) as Hpost.
      { destruct ((fetchCustomers W secrets w s1).1) as [customers|e].
        - apply Pass_effects in Hr as (evs2 & Hj2 & Hq2 & _).
          rewrite Hj in Hj2. simpl in Hj2. rewrite <- app_assoc in Hj2.
          apply app_inv_head in Hj2. simpl in Hj2. by simplify_eq.
        - by destruct Hr as [_ ->]. }
      rewrite Hj, Hj1, <- app_assoc, drop_app_length in Hin.
      apply fetches_elem in Hin.
      rewrite fetches_app, Hf1, fetches_cons, Hpost in Hin. simpl in Hin.
      by apply list_elem_of_singleton in Hin. }
    by exists secrets, cfg, w, s1, pre, url, post.
Qed.

End Fetch.

(** When the source system does not answer the fetch with a valid result,
    the run ends at the fetch with an exception that tells why: the fetch
    rejected, the status was not 2xx, the body was not JSON, or
    [IsValidResult] was false.  Nothing follows the fetch in the journal, no
    call was made to the board, and the stored state is as it was. *)
Theorem source_failure_stops_run `{Platform} (W : World) (force : bool)
    (s : State) (req : GoCreateRequest) :
  let r := (runSync W force s).1 in
  let s' := (runSync W force s).2 in
  EvGoCreate req ∈ drop (length (journal s)) (journal s') ->
  exists pre post,
    journal s' = (journal s ++ pre ++ EvGoCreate req :: post)%list
    /\ fetches pre = [] /\ board_calls pre = []
    /\ let failed (e : Exn) :=
         r = Throw e /\ post = [] /\ storage s' = storage s in
       match gocreate_api W (journal s ++ pre) req with
       | None => exists msg, failed (TypeError msg)
       | Some res =>
           if negb (ok res)
           then failed (Error ("GoCreate HTTP " ++ pretty (status res) ++ ": "
                               ++ text res))
           else match json res with
                | None => exists msg, failed (SyntaxError msg)
                | Some j =>
                    if bool_decide (IsValidResult j = Some false)
                    then failed
                           (Error (trim ("GoCreate invalid result: "
                                         ++ trim (default "" (ErrorCode j)) ++ " "
                                         ++ trim (default "" (ErrorMessage j)))))
                    else True
                end
       end.
Proof.
  intros r s' Hin. subst r s'.
  pose proof (runSync_Run W force s) as R.
  destruct (Run_effects W force s _ _ R) as (evs & Hjs & Heff).
  destruct (Run_fetched W force s _ _ req R Hin)
    as (secrets & cfg & w & s1 & pre & url & post & Hc & Hw & Hj1 & Hf1 & Hb1
        & Hd1 & Hurl & -> & Hj & Hr).
  exists pre, post. split; [by rewrite Hj, Hj1, <- app_assoc|].
  split; [done|]. split; [done|].
  rewrite (fetchCustomers_answer W secrets w s1 url Hurl), Hj1 in Hr.
  assert (Hfail : forall e, (runSync W force s).1 = Throw e /\ post = [] ->
                            (runSync W force s).1 = Throw e /\ post = []
                            /\ storage (runSync W force s).2 = storage s).
  { intros e [He Hp]. split; [done|]. split; [done|].
    rewrite He in Heff. by destruct Heff. }
  cbv zeta.
  destruct (gocreate_api W (journal s ++ pre) _) as [res|]; [|by eauto].
  destruct (negb (ok res)); [by eauto|].
  destruct (json res) as [j|]; [|by eauto].
  by destruct (bool_decide (IsValidResult j = Some false)); eauto.
Qed.

(** The source system answers 503. *)
Lemma source_failure_stops_run_witness :
  (runSync (world_down t2359) true start).1
  = Throw (Error "GoCreate HTTP 503: down").
Proof.
  assert (Hin : EvGoCreate request0
                ∈ drop (length (journal start))
                    (journal (runSync (world_down t2359) true start).2)).
  { vm_compute. repeat constructor. }
  destruct (source_failure_stops_run (world_down t2359) true start request0 Hin)
    as (pre & post & _ & _ & _ & Hres).
  simpl in Hres. destruct Hres as [Hr _]. exact Hr.
Defined.

(** The result of a finished run reports the fetch as it was made: the run
    made exactly one fetch, [window] holds the two dates it sent, [fetched]
    is the number of records in the answer (none when the answer has no
    [CustomerInfo]), and the date, the time zone and the [forced] flag are
    those of the run. *)
Theorem result_reports_fetch `{Platform} (W : World) (force : bool)
    (s s' : State) (result : SyncResult) :
  runSync W force s = (Ok (Finished result), s') ->
  exists pre req post res j,
    journal s' = (journal s ++ pre ++ EvGoCreate req :: post)%list
    /\ fetches pre = [] /\ fetches post = []
    /\ gocreate_api W (journal s ++ pre) req = Some res
    /\ ok res = true /\ json res = Some j
    /\ fetched result = length (default [] (CustomerInfo j))
    /\ window result = (DateTime req, EndDateTime req)
    /\ tz result = "Europe/Stockholm"
    /\ stockholmDate result = yyyyMMdd (stockholmParts (opening W s))
    /\ forced result = force.
Proof.
  intros Hrun.
  pose proof (runSync_Run W force s) as R. rewrite Hrun in R. simpl in R.
  destruct (Run_fetch W force s _ _ R)
    as [(evs & _ & _ & _ & _ & Hno)
       |(secrets & cfg & w & s1 & pre & url & post & Hc & Hw & Hj1 & Hf1 & Hb1
         & Hd1 & Hurl & Hj & Hr)]; [by destruct (Hno result)|].
  rewrite (fetchCustomers_answer W secrets w s1 url Hurl), Hj1 in Hr.
  exists pre, (fetch_request secrets w url), post.
  destruct (gocreate_api W (journal s ++ pre) _) as [res|]; [|by destruct Hr].
  destruct (ok res) eqn:Hok; simpl in Hr; [|by destruct Hr].
  destruct (json res) as [j|] eqn:Hjson; [|by destruct Hr].
  destruct (bool_decide (IsValidResult j = Some false)); [by destruct Hr|].
  exists res, j.
  split; [by rewrite Hj, Hj1, <- app_assoc|]. split; [done|].
  pose proof (Pass_effects W force _ _ _ _ _ _ _ Hr) as (evs2 & Hj2 & Hq2 & _).
  assert (post = evs2) as ->.
  { rewrite Hj in Hj2. simpl in Hj2. rewrite <- app_assoc in Hj2.
    apply app_inv_head in Hj2. simpl in Hj2. by simplify_eq. }
  split; [done|]. split; [done|]. split; [done|]. split; [done|].
  inversion Hr; subst. simpl. by destruct w.
Qed.

(** Two records fetched in a forced run. *)
Lemma result_reports_fetch_witness :
  match runSync (world t2359 env0 [alice; bob] board_empty) true start with
  | (Ok (Finished result), _) => fetched result = 2%nat
  | _ => False
  end.
Proof.
  destruct (runSync _ true start) as [[[| |result]|e] s'] eqn:E.
  1, 2, 4: vm_compute in E; discriminate E.
  destruct (result_reports_fetch _ true start s' result E)
    as (pre & req & post & res & j & _ & _ & _ & Hres & _ & Hj & Hn & _).
  simpl in Hres. injection Hres as <-. simpl in Hj. injection Hj as <-.
  exact Hn.
Defined.

(** ** The events of the loop *)

Section LoopEvents.

Context `{Platform} (W : World) (cfg : Settings).

(** What holds of the three calls and of the delay holds of every entry
    that the loop writes. *)
Lemma forOf_events (P : Event -> Prop) cs s :
  (forall c, c ∈ cs -> emailRaw c <> "" ->
             P (find_call cfg c) /\ P (create_call cfg c)
             /\ forall it, P (update_call cfg c it)) ->
  P (EvSleep 120) ->
  exists evs,
    journal (forOf W cfg cs s).2 = (journal s ++ evs)%list /\ Forall P evs.
Proof.
  intros Hcalls Hsleep. revert s.
  induction cs as [|c cs IH]; intros s; simpl.
  - exists []. by rewrite app_nil_r.
  - unfold mbind, M_bind.
    destruct (loopBody_segment W cfg c s) as (seg & Hj & Hseg & _).
    assert (Hp : Forall P seg).
    { inversion Hseg as [|w He Hw|w He Hw]; subst; [constructor| |].
      all: destruct (Hcalls c) as (Hfind & Hcreate & Hupdate);
        [by left|done|].
      all: constructor; [done|]; try apply Forall_app; try split.
      all: try by repeat constructor.
      all: destruct Hw as [-> | [-> | [it ->]]]; by repeat constructor. }
    destruct (loopBody W cfg c s) as [[[]|e] s1]; simpl in Hj.
    + destruct IH with (s := s1) as (evs & Hj2 & Hp2).
      { intros c' Hin. apply Hcalls. by right. }
      exists (seg ++ evs)%list. split; [by rewrite Hj2, Hj, <- app_assoc|].
      by apply Forall_app.
    + by exists seg.
Qed.

(** An iteration makes at most two calls to the board, and at most one in a
    dry run; it makes none for a customer without email. *)
Lemma loopBody_calls c s :
  exists evs,
    journal (loopBody W cfg c s).2 = (journal s ++ evs)%list
    /\ (length (board_calls evs) <= (if dryRun cfg then 1 else 2)
                                    * (if decide (emailRaw c = "") then 0 else 1))%nat.
Proof.
  destruct (decide (emailRaw c = "")) as [He|He].
  - rewrite (loopBody_no_email W cfg c s He). exists []. simpl.
    rewrite app_nil_r. split; [done|lia].
  - destruct (loopBody_email W cfg c s He) as (w & tail & cnt & Hs & Hw & Htail).
    exists (find_call cfg c :: w ++ tail)%list. rewrite Hs. split; [done|].
    change (board_calls (find_call cfg c :: w ++ tail))
      with (find_call cfg c :: board_calls (w ++ tail)).
    rewrite board_calls_app.
    assert (board_calls tail = []) as ->
      by (by destruct Htail as [[-> _]|[-> _]]).
    rewrite app_nil_r. simpl.
    assert (length (board_calls w) <= (if dryRun cfg then 0 else 1))%nat.
    { rewrite Hw. destruct (search W cfg c s) as [found|]; [|simpl; case_match; lia].
      rewrite board_calls_upsert. unfold upsert_call.
      destruct (dryRun cfg); [done|].
      destruct found; [destruct (updateExisting cfg)|]; simpl; lia. }
    destruct (dryRun cfg); lia.
Qed.

Lemma forOf_calls cs s :
  exists evs,
    journal (forOf W cfg cs s).2 = (journal s ++ evs)%list
    /\ (length (board_calls evs)
        <= (if dryRun cfg then 1 else 2)
           * length (filter (fun c => emailRaw c <> "") cs))%nat.
Proof.
  revert s. induction cs as [|c cs IH]; intros s; simpl.
  - exists []. rewrite app_nil_r. split; [done|simpl; lia].
  - unfold mbind, M_bind.
    destruct (loopBody_calls c s) as (evs1 & Hj1 & Hn1).
    rewrite filter_cons.
    assert (Hlen : ((if decide (emailRaw c = "") then 0 else 1)
                    + length (filter (fun c => emailRaw c <> "") cs)
                    = length (if decide (emailRaw c <> "")
                              then c :: filter (fun c => emailRaw c <> "") cs
                              else filter (fun c => emailRaw c <> "") cs))%nat).
    { destruct (decide (emailRaw c = "")), (decide (emailRaw c <> ""));
        simpl; try lia; tauto. }
    rewrite <- Hlen.
    destruct (loopBody W cfg c s) as [[[]|e] s1]; simpl in Hj1.
    + destruct (IH s1) as (evs2 & Hj2 & Hn2).
      exists (evs1 ++ evs2)%list. split; [by rewrite Hj2, Hj1, <- app_assoc|].
      rewrite board_calls_app, length_app. nia.
    + exists evs1. split; [done|]. nia.
Qed.

End LoopEvents.

Lemma board_calls_elem tok q evs :
  EvMonday tok q ∈ evs <-> EvMonday tok q ∈ board_calls evs.
Proof.
  unfold board_calls. rewrite list_elem_of_omap. split.
  - intros Hin. by exists (EvMonday tok q).
  - intros (ev & Hin & Hev). destruct ev; by simplify_eq.
Qed.

Section Secrets.

Context `{Platform} (W : World).

(** The configuration holds the stored secrets. *)
Lemma configure_secrets s secrets cfg :
  (configure W s).1 = Ok (secrets, cfg) ->
  secret_store W !! "MONDAY_ACCESS_TOKEN" = Some (mondayToken cfg)
  /\ secret_store W !! "GOCREATE_USERNAME" = Some (gocreateUsername secrets)
  /\ secret_store W !! "GOCREATE_PASSWORD" = Some (gocreatePassword secrets)
  /\ secret_store W !! "GOCREATE_AUTH_TOKEN" = Some (gocreateAuthToken secrets)
  /\ gocreateBaseUrl secrets
     = default "http://api.gocreate.nu" (secret_store W !! "GOCREATE_BASE_URL").
Proof.
  unfold configure, mbind, M_bind, getSecrets, mustGetEnv, mret, M_ret, throw.
  intros Hc.
  destruct (secret_store W !! "MONDAY_ACCESS_TOKEN") as [tok|]; simpl in Hc;
    [|done].
  destruct (secret_store W !! "GOCREATE_USERNAME") as [user|]; simpl in Hc;
    [|by destruct (truthy tok)].
  destruct (secret_store W !! "GOCREATE_PASSWORD") as [pw|]; simpl in Hc;
    [|by destruct (truthy tok), (truthy user)].
  destruct (secret_store W !! "GOCREATE_AUTH_TOKEN") as [auth|]; simpl in Hc;
    [|by destruct (truthy tok), (truthy user), (truthy pw)].
  by repeat (case_match; simplify_eq/=).
Qed.

End Secrets.

(** Every request of a run carries the stored secrets and no others: a
    fetch goes to [/Customer/ByDateRange/] on the stored base URL
    ([http://api.gocreate.nu] when none is stored) with the three stored
    GoCreate credentials, and every call to the board is authorised by the
    stored [MONDAY_ACCESS_TOKEN]. *)
Theorem requests_carry_stored_secrets `{Platform} (W : World) (force : bool)
    (s : State) :
  let evs := drop (length (journal s)) (journal (runSync W force s).2) in
  (forall req,
      EvGoCreate req ∈ evs ->
      secret_store W !! "GOCREATE_USERNAME" = Some (UserName req)
      /\ secret_store W !! "GOCREATE_PASSWORD" = Some (Password req)
      /\ secret_store W !! "GOCREATE_AUTH_TOKEN" = Some (AuthenticationToken req)
      /\ URL_ "/Customer/ByDateRange/"
           (default "http://api.gocreate.nu"
              (secret_store W !! "GOCREATE_BASE_URL"))
         = Some (req_url req))
  /\ (forall token q,
         EvMonday token q ∈ evs ->
         secret_store W !! "MONDAY_ACCESS_TOKEN" = Some token).
Proof.
  intros evs. subst evs.
  pose proof (runSync_Run W force s) as R. split.
  - intros req Hin.
    destruct (Run_fetched W force s _ _ req R Hin)
      as (secrets & cfg & w & s1 & pre & url & post & Hc & _ & _ & _ & _ & _
          & Hurl & -> & _).
    destruct (configure_secrets W s secrets cfg Hc) as (_ & Hu & Hp & Ha & Hb).
    unfold fetch_url in Hurl. rewrite Hb in Hurl. by repeat split.
  - intros token q Hin.
    destruct (Run_board W force s _ _ R) as (evs & Hj & Hb).
    rewrite Hj, drop_app_length in Hin. apply board_calls_elem in Hin.
    destruct Hb as [Hb | (secrets & cfg & cs & s0 & r0 & cnt & loop
                          & Hcfg & Hloop & Hb)];
      rewrite Hb in Hin; [by apply elem_of_nil in Hin|].
    apply board_calls_elem in Hin.
    destruct (forOf_events W cfg
                (fun ev => match ev with
                           | EvMonday tok _ => tok = mondayToken cfg
                           | _ => True
                           end) cs (set_vars zero s0)) as (evs' & Hj' & Hp);
      [done|done|].
    rewrite Hloop in Hj'. simpl in Hj'. apply app_inv_head in Hj'. subst evs'.
    rewrite Forall_forall in Hp. specialize (Hp _ Hin). simpl in Hp. subst token.
    by destruct (configure_secrets W s secrets cfg Hcfg) as (Ht & _).
Qed.

(** A run makes at most two calls to the board for each fetched record (the
    search and one write), and at most one in a dry run. *)
Theorem board_calls_bounded `{Platform} (W : World) (force : bool)
    (s s' : State) (result : SyncResult) :
  runSync W force s = (Ok (Finished result), s') ->
  (length (board_calls (drop (length (journal s)) (journal s')))
   <= (if getEnvBool W "DRY_RUN" false then 1 else 2) * fetched result)%nat.
Proof.
  intros Hrun.
  pose proof (runSync_Run W force s) as R. rewrite Hrun in R. simpl in R.
  destruct (Run_fetch W force s _ _ R)
    as [(evs & _ & _ & _ & _ & Hno)
       |(secrets & cfg & w & s1 & pre & url & post & Hc & Hw & Hj1 & Hf1 & Hb1
         & Hd1 & Hurl & Hj & Hr)]; [by destruct (Hno result)|].
  destruct ((fetchCustomers W secrets w s1).1) as [customers|e];
    [|by destruct Hr].
  apply configure_switches in Hc as [Hdry _]. rewrite <- Hdry.
  rewrite Hj, Hj1, <- app_assoc, drop_app_length.
  rewrite board_calls_app, Hb1. simpl.
  destruct (Pass_board W force _ _ _ _ _ _ _ Hr)
    as (loop & tail & r0 & cnt & Hloop & Hj3 & Ht).
  assert (post = (loop ++ tail)%list) as ->.
  { rewrite Hj in Hj3. simpl in Hj3. rewrite <- app_assoc in Hj3.
    apply app_inv_head in Hj3. simpl in Hj3. by simplify_eq. }
  rewrite board_calls_app, Ht, app_nil_r.
  destruct (forOf_calls W cfg customers
              (set_vars zero (log_event (EvGoCreate (fetch_request secrets w url)) s1)))
    as (evs & Hje & Hn).
  rewrite Hloop in Hje. simpl in Hje. apply app_inv_head in Hje. subst evs.
  assert (fetched result = length customers) as -> by (by inversion Hr; subst).
  pose proof (length_filter (fun c => emailRaw c <> "") customers).
  nia.
Qed.

(** Two records, three calls. *)
Lemma board_calls_bounded_witness :
  let W := world t2359 env0 [alice; bob] board_full in
  match runSync W true start with
  | (Ok (Finished result), s') =>
      (length (board_calls (drop (length (journal start)) (journal s')))
       <= (if getEnvBool W "DRY_RUN" false then 1 else 2) * fetched result)%nat
  | _ => False
  end.
Proof.
  intros W.
  destruct (runSync W true start) as [[[| |result]|e] s'] eqn:E.
  1, 2, 4: vm_compute in E; discriminate E.
  exact (board_calls_bounded W true start s' result E).
Defined.

(** ** Timestamps *)

Lemma digit_isDigit n : exists c, digit n = String c "" /\ isDigit c = true.
Proof.
  unfold digit. eexists. split; [reflexivity|].
  pose proof (Z.mod_pos_bound n 10 ltac:(lia)) as Hn.
  assert (Hc : (Z.to_nat (n mod 10) < 10)%nat) by lia.
  destruct (Z.to_nat (n mod 10)) as [|[|[|[|[|[|[|[|[|[|k]]]]]]]]]];
    try reflexivity. lia.
Qed.

(** From 1970 to the end of the year 9999 the year of a day has four
    digits. *)
Lemma civil_from_days_year z :
  0 <= z < 2932897 ->
  0 <= (civil_from_days z).1.1 <= 9999.
Proof.
  intros Hz. unfold civil_from_days. cbv zeta.
  repeat match goal with
         | |- context [if ?b then _ else _] => destruct b eqn:?
         end; simpl fst.
  all: rewrite ?Z.leb_le, ?Z.leb_gt, ?Z.ltb_lt, ?Z.ltb_ge in *.
  all: Z.to_euclidean_division_equations; lia.
Qed.

(** From 1970 to the end of the year 9999, [toISOString] writes a string
    that starts as [/^\d{4}-\d{2}-\d{2}T/] asks. *)
Lemma toISOString_prefix t iso :
  0 <= t < 253402300800000 ->
  toISOString t = Some iso ->
  isoDatePrefix iso = true /\ truthy iso = true.
Proof.
  intros Ht. unfold toISOString.
  destruct ((- maxTime <=? t) && (t <=? maxTime)); [|done].
  pose proof (civil_from_days_year (t / msPerDay)) as Hy.
  destruct (civil_from_days (t / msPerDay)) as [[y m] d]. simpl in Hy.
  assert (0 <= y <= 9999) as [Hy1 Hy2].
  { apply Hy. unfold msPerDay. Z.to_euclidean_division_equations; lia. }
  intros [= <-]. unfold isoYear.
  assert ((0 <=? y) && (y <=? 9999) = true) as ->
    by (apply andb_true_intro; split; by apply Z.leb_le).
  unfold pad4, pad2.
  destruct (digit_isDigit (y / 100 / 10)) as (c1 & -> & H1).
  destruct (digit_isDigit (y / 100)) as (c2 & -> & H2).
  destruct (digit_isDigit (y / 10)) as (c3 & -> & H3).
  destruct (digit_isDigit y) as (c4 & -> & H4).
  destruct (digit_isDigit (m / 10)) as (c5 & -> & H5).
  destruct (digit_isDigit m) as (c6 & -> & H6).
  destruct (digit_isDigit (d / 10)) as (c7 & -> & H7).
  destruct (digit_isDigit d) as (c8 & -> & H8).
  simpl. by rewrite H1, H2, H3, H4, H5, H6, H7, H8.
Qed.

Section Chain.

Context `{Platform} (W : World) (force : bool).

(** The finishing time of a run is a reading of the clock. *)
Lemma Run_finished_clock s result s' :
  Run W force s (Ok (Finished result)) s' ->
  exists j, toISOString (wall_clock W j) = Some (finishedUtc result).
Proof.
  intros R.
  destruct (Run_fetch W force s _ _ R)
    as [(evs & _ & _ & _ & _ & Hno)
       |(secrets & cfg & w & s1 & pre & url & post & Hc & Hw & Hj1 & Hf1 & Hb1
         & Hd1 & Hurl & Hj & Hr)]; [by destruct (Hno result)|].
  destruct ((fetchCustomers W secrets w s1).1) as [customers|e];
    [|by destruct Hr].
  inversion Hr; subst. simpl. by eexists.
Qed.

(** A run that fetches with a usable last run stored sends it as the start
    of its window. *)
Lemma Run_fetch_from_stored s r s' req v :
  Run W force s r s' ->
  EvGoCreate req ∈ drop (length (journal s)) (journal s') ->
  stored_start s = Some v ->
  DateTime req = v.
Proof.
  intros R Hin Hst.
  destruct (Run_fetched W force s _ _ req R Hin)
    as (secrets & cfg & w & s1 & pre & url & post & _ & Hw & _ & _ & _ & _
        & _ & -> & _).
  inversion Hw as [v' t2 endISO Hst' _ _ Hr Hs1
                  |t1 startISO t2 endISO Hst' _ _ _ _ Hr Hs1| ]; subst.
  - change (stored_start s = Some v') in Hst'. simpl. congruence.
  - change (stored_start s = None) in Hst'. congruence.
Qed.

End Chain.

(** Windows follow each other.  A scheduled run that finishes without
    errors, and is no dry run, stores its finishing time, read from the
    clock after the last record; as long as that value stays stored, the
    next fetch of any run, scheduled or forced, asks for the records from
    that finishing time on. *)
Theorem next_window_starts_at_last_finish `{Platform} (W W' : World)
    (force : bool) (s s1 s2 : State) (result : SyncResult)
    (req : GoCreateRequest) :
  (forall j, 0 <= wall_clock W j < 253402300800000) ->
  runSync W false s = (Ok (Finished result), s1) ->
  getEnvBool W "DRY_RUN" false = false ->
  errors (counts result) = [] ->
  is_Some (Date_parse (finishedUtc result)) ->
  storage s2 !! lastRunKey = storage s1 !! lastRunKey ->
  EvGoCreate req ∈ drop (length (journal s2)) (journal (runSync W' force s2).2) ->
  storage s1 !! lastRunKey = Some (finishedUtc result)
  /\ DateTime req = finishedUtc result.
Proof.
  intros Hclock Hrun Hdry Herr Hparse Hkey Hin.
  pose proof (runSync_Run W false s) as R. rewrite Hrun in R. simpl in R.
  destruct (Run_effects W false s _ _ R) as (evs & _ & Hr). simpl in Hr.
  destruct Hr as (_ & _ & _ & _ & _ & Hadv).
  rewrite Hdry, Herr in Hadv. simpl in Hadv. destruct Hadv as [_ Hs1].
  assert (Hstored : storage s1 !! lastRunKey = Some (finishedUtc result)).
  { rewrite Hs1. rewrite lookup_insert_ne by done. apply lookup_insert_eq. }
  split; [done|].
  destruct (Run_finished_clock W false s result s1 R) as (j & Hiso).
  destruct (toISOString_prefix _ _ (Hclock j) Hiso) as [Hprefix Htruthy].
  apply (Run_fetch_from_stored W' force s2 _ _ req _ (runSync_Run W' force s2) Hin).
  unfold stored_start. rewrite Hkey, Hstored.
  unfold isValidIsoDate. rewrite Htruthy, Hprefix.
  by rewrite bool_decide_eq_true_2.
Qed.

(** A scheduled run, and the forced run that follows it. *)
Lemma next_window_starts_at_last_finish_witness :
  let W := world t2359 env0 [alice] board_empty in
  match runSync W false start with
  | (Ok (Finished result), s1) =>
      storage s1 !! lastRunKey = Some (finishedUtc result)
      /\ "2024-11-02T22:59:00.000Z" = finishedUtc result
  | _ => False
  end.
Proof.
  intros W.
  destruct (runSync W false start) as [[[| |result]|e] s1] eqn:E.
  1, 2, 4: vm_compute in E; discriminate E.
  apply (next_window_starts_at_last_finish W W true start s1 s1 result
           {| req_url := "http://api.gocreate.nu/Customer/ByDateRange/";
              DateTime := "2024-11-02T22:59:00.000Z";
              EndDateTime := "2024-11-02T22:59:00.000Z";
              UserName := "user"; Password := "pw";
              AuthenticationToken := "auth" |}).
  - intros j. simpl. unfold t2359. lia.
  - exact E.
  - vm_compute. reflexivity.
  - vm_compute in E. injection E as <- _. reflexivity.
  - vm_compute in E. injection E as <- _. vm_compute. by eexists.
  - reflexivity.
  - vm_compute in E. injection E as _ <-. vm_compute. repeat constructor.
Defined.

(** With a clock that advances, the time stored is the finishing time of the
    run, read after the loop. *)
Example finishing_time_is_stored :
  match runSync (world_ticking [alice] board_empty) false start with
  | (Ok (Finished result), s1) =>
      window result = ("2024-11-01T22:59:03.000Z", "2024-11-02T22:59:04.000Z")
      /\ finishedUtc result = "2024-11-02T22:59:09.000Z"
      /\ storage s1 !! lastRunKey = Some "2024-11-02T22:59:09.000Z"
  | _ => False
  end.
Proof. vm_compute. repeat split. Qed.

(** ** Answers of the board *)

Section Answers.

Context `{Platform} (W : World).

(** [mondayGraphql] returns data only for an answer with a 2xx status, a
    JSON body, no GraphQL error and a [data] member. *)
Lemma mondayGraphql_ok token q s d :
  (mondayGraphql W token q s).1 = Ok d ->
  exists res j,
    monday_api W (journal s) token q = Some res
    /\ ok res = true /\ json res = Some j
    /\ json_errors j = [] /\ json_data j = Some d.
Proof.
  unfold mondayGraphql, fetchMonday. munfold.
  destruct (monday_api W (journal s) token q) as [res|]; [|done]. simpl.
  destruct ((status res =? 401) || (status res =? 403)); [done|].
  destruct (ok res) eqn:Hok; [|done]. simpl.
  destruct (json res) as [j|] eqn:Hj; [|done].
  destruct (json_errors j) as [|m ms] eqn:He; simpl.
  - destruct (json_data j) as [d'|] eqn:Hd; [|done]. intros [= ->].
    by exists res, j.
  - by destruct (authLike _).
Qed.


End Answers.

Section Records.

Context `{Platform} (W : World) (cfg : Settings).

Lemma search_find c s :
  mondayFindItemByColumnValue W (mondayToken cfg) (boardId cfg) (colEmail cfg)
    (email c) s
  = (search W cfg c s, log_event (find_call cfg c) s).
Proof.
  unfold search.
  pose proof (mondayFindItemByColumnValue_state W (mondayToken cfg) (boardId cfg)
                (colEmail cfg) (email c) s) as Hs.
  destruct (mondayFindItemByColumnValue W _ _ _ _ s) as [r s1].
  simpl in *. by subst.
Qed.

(** The [try] block for a customer with an email, after the search. *)
Lemma tryBlock_search c s :
  emailRaw c <> "" ->
  tryBlock W cfg c s
  = match search W cfg c s with
    | Throw e => (Throw e, log_event (find_call cfg c) s)
    | Ok None =>
        if dryRun cfg
        then (Ok tt, log_event (EvSleep 120)
                       (set_vars (incr_created (vars s))
                          (log_event (find_call cfg c) s)))
        else match mondayCreateItem W (mondayToken cfg) (boardId cfg)
                     (groupId cfg) (itemName c) (columnValues cfg c)
                     (log_event (find_call cfg c) s) with
             | (Ok _, s2) =>
                 (Ok tt, log_event (EvSleep 120)
                           (set_vars (incr_created (vars s2)) s2))
             | (Throw e, s2) => (Throw e, s2)
             end
    | Ok (Some it) =>
        if updateExisting cfg
        then if dryRun cfg
             then (Ok tt, log_event (EvSleep 120)
                            (set_vars (incr_updated (vars s))
                               (log_event (find_call cfg c) s)))
             else match mondayUpdateItemColumns W (mondayToken cfg) (boardId cfg)
                          (id it) (columnValues cfg c)
                          (log_event (find_call cfg c) s) with
                  | (Ok _, s2) =>
                      (Ok tt, log_event (EvSleep 120)
                                (set_vars (incr_updated (vars s2)) s2))
                  | (Throw e, s2) => (Throw e, s2)
                  end
        else (Ok tt, log_event (EvSleep 120)
                       (set_vars (incr_skippedExisting (vars s))
                          (log_event (find_call cfg c) s)))
    end.
Proof.
  intros He. apply truthy_true in He.
  unfold tryBlock. rewrite He. simpl.
  unfold mbind, M_bind at 1. rewrite search_find.
  destruct (search W cfg c s) as [[it|]|e]; [| |done].
  - destruct (updateExisting cfg), (dryRun cfg); simpl; munfold; try done.
    by destruct (mondayUpdateItemColumns W _ _ _ _ _) as [[[]|e] s2].
  - destruct (dryRun cfg); simpl; munfold; try done.
    by destruct (mondayCreateItem W _ _ _ _ _ _) as [[i|e] s2].
Qed.

End Records.

Section Writes.

Context `{Platform} (W : World) (cfg : Settings).

Lemma mondayCreateItem_ok token b g n cv s i :
  (mondayCreateItem W token b g n cv s).1 = Ok i ->
  exists res d,
    monday_api W (journal s) token (create_item (String_of_num b) g n cv)
    = Some res
    /\ accepted res d /\ create_item_id d = Some i.
Proof.
  unfold mondayCreateItem. munfold.
  pose proof (mondayGraphql_ok W token (create_item (String_of_num b) g n cv) s)
    as Hok.
  destruct (mondayGraphql W token _ s) as [[d|e] s1]; simpl in *; [|done].
  destruct (Hok d eq_refl) as (res & j & Hres & Hrest).
  destruct (create_item_id d) as [i'|] eqn:Hi; [|done]. intros [= ->].
  exists res, d. split; [done|]. split; [by exists j|done].
Qed.

Lemma mondayUpdateItemColumns_ok token b i cv s :
  (mondayUpdateItemColumns W token b i cv s).1 = Ok tt ->
  exists res d,
    monday_api W (journal s) token
      (change_multiple_column_values (String_of_num b) i cv) = Some res
    /\ accepted res d.
Proof.
  unfold mondayUpdateItemColumns. munfold.
  pose proof (mondayGraphql_ok W token
                (change_multiple_column_values (String_of_num b) i cv) s) as Hok.
  destruct (mondayGraphql W token _ s) as [[d|e] s1]; simpl in *; [|done].
  destruct (Hok d eq_refl) as (res & j & Hres & Hrest). intros _.
  exists res, d. split; [done|]. by exists j.
Qed.

(** The catch block changes no counter but [errors]. *)
Lemma catchBlock_counters c e s :
  created (vars (catchBlock c e s).2) = created (vars s)
  /\ updated (vars (catchBlock c e s).2) = updated (vars s)
  /\ skippedExisting (vars (catchBlock c e s).2) = skippedExisting (vars s)
  /\ skippedNoEmail (vars (catchBlock c e s).2) = skippedNoEmail (vars s).
Proof.
  destruct (decide (exn_name e = "MondayAuthError")) as [Hn|Hn].
  - by rewrite (catchBlock_auth _ _ _ Hn).
  - by rewrite (catchBlock_other _ _ _ Hn).
Qed.

Lemma search_throws c s e :
  (mondayGraphql W (mondayToken cfg) (find_query cfg c) s).1 = Throw e ->
  search W cfg c s = Throw e.
Proof.
  unfold search, mondayFindItemByColumnValue, find_query. munfold.
  by destruct (mondayGraphql W _ _ s) as [[d|e'] s1]; simpl; [|intros [= ->]].
Qed.

End Writes.

(** Outside a dry run, a record is counted as created or updated only
    after the board has accepted the write: the [create_item] or
    [change_multiple_column_values] call made for it was answered with a 2xx
    status, a JSON body without GraphQL errors and a [data] member (with a
    [create_item] member, for a creation; the id in it is not looked at). *)
Theorem counted_writes_acknowledged `{Platform} (W : World) (cfg : Settings)
    (c : GoCreateCustomerInfo) (s : State) :
  dryRun cfg = false ->
  let s' := (loopBody W cfg c s).2 in
  let board := monday_api W (journal s ++ [find_call cfg c]) (mondayToken cfg) in
  (created (vars s') = S (created (vars s)) ->
   search W cfg c s = Ok None
   /\ exists res d, board (create_query cfg c) = Some res
                    /\ accepted res d /\ is_Some (create_item_id d))
  /\ (updated (vars s') = S (updated (vars s)) ->
      exists it res d,
        search W cfg c s = Ok (Some it)
        /\ board (update_query cfg c it) = Some res /\ accepted res d).
Proof.
  intros Hdry s' board. subst s' board.
  destruct (decide (emailRaw c = "")) as [He|He].
  { rewrite (loopBody_no_email W cfg c s He). simpl. split; intros; lia. }
  rewrite loopBody_unfold, (tryBlock_search W cfg c s He), Hdry.
  destruct (search W cfg c s) as [[it|]|e].
  - destruct (updateExisting cfg).
    + pose proof (mondayUpdateItemColumns_state W (mondayToken cfg) (boardId cfg)
                    (id it) (columnValues cfg c) (log_event (find_call cfg c) s))
        as Hst.
      pose proof (mondayUpdateItemColumns_ok W (mondayToken cfg) (boardId cfg)
                    (id it) (columnValues cfg c) (log_event (find_call cfg c) s))
        as Hok.
      destruct (mondayUpdateItemColumns W _ _ _ _ _) as [[[]|e] s2];
        simpl in Hst, Hok; subst s2.
      * simpl. split; [intros; lia|]. intros _.
        destruct (Hok eq_refl) as (res & d & Hres & Hacc). by exists it, res, d.
      * destruct (catchBlock_counters c e
                    (log_event (EvMonday (mondayToken cfg)
                                  (change_multiple_column_values
                                     (String_of_num (boardId cfg)) (id it)
                                     (columnValues cfg c)))
                       (log_event (find_call cfg c) s)))
          as (Hc & Hu & _).
        rewrite Hc, Hu. simpl. split; intros; lia.
    + simpl. split; intros; lia.
  - pose proof (mondayCreateItem_state W (mondayToken cfg) (boardId cfg)
                  (groupId cfg) (itemName c) (columnValues cfg c)
                  (log_event (find_call cfg c) s)) as Hst.
    pose proof (mondayCreateItem_ok W (mondayToken cfg) (boardId cfg)
                  (groupId cfg) (itemName c) (columnValues cfg c)
                  (log_event (find_call cfg c) s)) as Hok.
    destruct (mondayCreateItem W _ _ _ _ _ _) as [[i|e] s2];
      simpl in Hst, Hok; subst s2.
    + simpl. split; [|intros; lia]. intros _. split; [done|].
      destruct (Hok i eq_refl) as (res & d & Hres & Hacc & Hi).
      exists res, d. by rewrite Hi.
    + destruct (catchBlock_counters c e
                  (log_event (EvMonday (mondayToken cfg)
                                (create_item (String_of_num (boardId cfg))
                                   (groupId cfg) (itemName c) (columnValues cfg c)))
                     (log_event (find_call cfg c) s)))
        as (Hc & Hu & _).
      rewrite Hc, Hu. simpl. split; intros; lia.
  - destruct (catchBlock_counters c e (log_event (find_call cfg c) s))
      as (Hc & Hu & _).
    rewrite Hc, Hu. simpl. split; intros; lia.
Qed.

(** Bob is created on an empty board: nothing was found, and the creation
    was accepted. *)
Lemma counted_writes_acknowledged_witness :
  let W := world t2359 env0 [] board_empty in
  search W settings0 bob start = Ok None
  /\ exists res d,
       monday_api W [find_call settings0 bob] "tok" (create_query settings0 bob)
       = Some res
       /\ accepted res d /\ is_Some (create_item_id d).
Proof.
  intros W.
  apply (proj1 (counted_writes_acknowledged W settings0 bob start eq_refl)).
  vm_compute. reflexivity.
Defined.

(** A creation answered without an id is counted as created; one answered
    without the [create_item] member is an error of the record. *)
Example creation_without_id :
  vars (loopBody (world t2359 env0 [] (board_creating (Some None)))
          settings0 bob start).2
  = {| created := 1; updated := 0; skippedExisting := 0; skippedNoEmail := 0;
       errors := [] |}
  /\ vars (loopBody (world t2359 env0 [] (board_creating None))
             settings0 bob start).2
     = {| created := 0; updated := 0; skippedExisting := 0; skippedNoEmail := 0;
          errors := [{| err_email := Some "bob@example.se";
                        err_error := "Cannot read properties of undefined (reading 'id')" |}] |}.
Proof. vm_compute. repeat split. Qed.



(** ** What is written to the board *)

Lemma itemName_cases `{Platform} c :
  let full := trim (trim (default "" (FirstName c)) ++ " "
                    ++ trim (default "" (LastName c))) in
  itemName c = if decide (full = "") then email c else full.
Proof.
  unfold itemName. cbv zeta.
  destruct (trim (_ ++ " " ++ _)) as [|ch full]; [done|].
  by destruct (decide (String ch full = "")).
Qed.

Lemma itemName_not_empty `{Platform} c : emailRaw c <> "" -> itemName c <> "".
Proof.
  intros He. unfold itemName.
  destruct (trim (_ ++ " " ++ _)) as [|ch full]; simpl; [|done].
  unfold email. intros Hl. by apply toLowerCase_empty in Hl.
Qed.

(** Every item that the loop creates has a name: the trimmed first and last
    name of its record joined by a space and trimmed again, or the normalised
    email when both names are missing or blank.  It is created on the
    configured board and group, with the column values of its record. *)
Theorem created_items_are_named `{Platform} (W : World) (cfg : Settings)
    (cs : list GoCreateCustomerInfo) (s : State)
    (token b g n : string) (cv : gmap string string) :
  EvMonday token (create_item b g n cv)
  ∈ drop (length (journal s)) (journal (forOf W cfg cs s).2) ->
  n <> "" /\ b = String_of_num (boardId cfg) /\ g = groupId cfg
  /\ exists c,
       c ∈ cs /\ emailRaw c <> "" /\ cv = columnValues cfg c
       /\ let full := trim (trim (default "" (FirstName c)) ++ " "
                            ++ trim (default "" (LastName c))) in
          n = if decide (full = "") then email c else full.
Proof.
  intros Hin.
  destruct (forOf_events W cfg
              (fun ev =>
                 match ev with
                 | EvMonday _ (create_item b g n cv) =>
                     n <> "" /\ b = String_of_num (boardId cfg) /\ g = groupId cfg
                     /\ exists c,
                          c ∈ cs /\ emailRaw c <> "" /\ cv = columnValues cfg c
                          /\ n = itemName c
                 | _ => True
                 end) cs s) as (evs & Hj & Hp).
  - intros c Hc He. split; [done|]. split; [|done]. simpl.
    split; [by apply itemName_not_empty|]. split; [done|]. split; [done|].
    by exists c.
  - done.
  - rewrite Hj, drop_app_length in Hin.
    rewrite Forall_forall in Hp. specialize (Hp _ Hin). simpl in Hp.
    destruct Hp as (Hn & Hb & Hg & c & Hc & He & Hcv & Hname).
    split; [done|]. split; [done|]. split; [done|].
    exists c. split; [done|]. split; [done|]. split; [done|].
    rewrite Hname. apply itemName_cases.
Qed.

(** Carol has no name: her item is named by her email. *)
Lemma created_items_are_named_witness :
  let W := world t2359 env0 [] board_empty in
  exists c, c ∈ [carol] /\ emailRaw c <> ""
            /\ "carol@example.se" = email c.
Proof.
  intros W.
  destruct (created_items_are_named W settings0 [carol] start
              "tok" "123" "topics" "carol@example.se"
              (columnValues settings0 carol))
    as (_ & _ & _ & c & Hin & He & _ & Hn).
  - vm_compute. repeat constructor.
  - exists c. split; [exact Hin|]. split; [exact He|].
    apply list_elem_of_singleton in Hin. subst c. vm_compute. reflexivity.
Defined.

(** The column values of a write hold the trimmed company under the company
    column, the normalised email under the email column and the trimmed
    mobile number under the phone column, and nothing else.  When two of the
    configured column ids coincide the later member of the object wins: the
    company over the email and the phone, the email over the phone. *)
Theorem column_values_written `{Platform} (cfg : Settings)
    (c : GoCreateCustomerInfo) :
  let cv := columnValues cfg c in
  let mobile := trim (default "" (MobileNumber c)) in
  let company := trim (default "" (CompanyName c)) in
  cv !! colForetag cfg = Some company
  /\ cv !! colEmail cfg
     = Some (if decide (colEmail cfg = colForetag cfg) then company else email c)
  /\ cv !! colTelefon cfg
     = Some (if decide (colTelefon cfg = colForetag cfg) then company
             else if decide (colTelefon cfg = colEmail cfg) then email c
                  else mobile)
  /\ forall k, is_Some (cv !! k) ->
               k = colTelefon cfg \/ k = colEmail cfg \/ k = colForetag cfg.
Proof.
  unfold columnValues. cbv zeta. split; [|split; [|split]].
  - apply lookup_insert_eq.
  - destruct (decide (colEmail cfg = colForetag cfg)) as [->|Hne].
    + apply lookup_insert_eq.
    + rewrite lookup_insert_ne by done. apply lookup_insert_eq.
  - destruct (decide (colTelefon cfg = colForetag cfg)) as [->|Hne1].
    + apply lookup_insert_eq.
    + rewrite lookup_insert_ne by done.
      destruct (decide (colTelefon cfg = colEmail cfg)) as [->|Hne2].
      * apply lookup_insert_eq.
      * rewrite lookup_insert_ne by done. apply lookup_insert_eq.
  - intros k Hk.
    destruct (decide (k = colForetag cfg)) as [|Hn1]; [tauto|].
    destruct (decide (k = colEmail cfg)) as [|Hn2]; [tauto|].
    destruct (decide (k = colTelefon cfg)) as [|Hn3]; [tauto|].
    rewrite !lookup_insert_ne, lookup_empty in Hk by done.
    by destruct Hk.
Qed.

(** ** Empty env vars *)

Section EmptyEnv.

Context `{Platform} (W : World) (name : string).

Lemma empty_or_unset k :
  (process_env (set_empty W name) !! k = Some "" /\ process_env (not_set W name) !! k = None)
  \/ process_env (set_empty W name) !! k = process_env (not_set W name) !! k.
Proof.
  simpl. destruct (decide (k = name)) as [->|Hk].
  - left. by rewrite lookup_insert_eq, lookup_delete_eq.
  - right. by rewrite lookup_insert_ne, lookup_delete_ne.
Qed.

Lemma mustGetEnv_empty k : mustGetEnv (set_empty W name) k = mustGetEnv (not_set W name) k.
Proof.
  unfold mustGetEnv. by destruct (empty_or_unset k) as [[-> ->]| ->].
Qed.

Lemma getEnv_empty k : getEnv (set_empty W name) k = getEnv (not_set W name) k.
Proof.
  unfold getEnv. by destruct (empty_or_unset k) as [[-> ->]| ->].
Qed.

Lemma getEnvBool_empty k fallback :
  getEnvBool (set_empty W name) k fallback = getEnvBool (not_set W name) k fallback.
Proof.
  unfold getEnvBool. by destruct (empty_or_unset k) as [[-> ->]| ->].
Qed.

Lemma getEnvInt_empty k fallback :
  getEnvInt (set_empty W name) k fallback = getEnvInt (not_set W name) k fallback.
Proof.
  unfold getEnvInt. by destruct (empty_or_unset k) as [[-> ->]| ->].
Qed.

Lemma runSync_empty force : runSync (set_empty W name) force = runSync (not_set W name) force.
Proof.
  unfold runSync.
  rewrite !mustGetEnv_empty, !getEnvBool_empty, !getEnvInt_empty.
  reflexivity.
Qed.

End EmptyEnv.

(** An env var set to the empty string is an env var that is not set: the
    four readers of the environment answer the same, and so do [runSync] and
    the two POST endpoints, whatever the variable. *)
Theorem empty_env_var_is_unset `{Platform} (W : World) (name : string) :
  let W1 := set_empty W name in
  let W2 := not_set W name in
  (forall k, mustGetEnv W1 k = mustGetEnv W2 k /\ getEnv W1 k = getEnv W2 k)
  /\ (forall k fallback, getEnvBool W1 k fallback = getEnvBool W2 k fallback)
  /\ (forall k fallback, getEnvInt W1 k fallback = getEnvInt W2 k fallback)
  /\ (forall force, runSync W1 force = runSync W2 force)
  /\ cronSyncCustomers W1 = cronSyncCustomers W2
  /\ (forall header, manualRun W1 header = manualRun W2 header).
Proof.
  intros W1 W2. split_and!.
  - intros k. split; [apply mustGetEnv_empty|apply getEnv_empty].
  - apply getEnvBool_empty.
  - apply getEnvInt_empty.
  - apply runSync_empty.
  - unfold cronSyncCustomers. subst W1 W2. by rewrite runSync_empty.
  - intros header. unfold manualRun. subst W1 W2.
    by rewrite runSync_empty, getEnv_empty.
Qed.

(** ** The parts of the Stockholm time *)

Section Parts.

Lemma collect_absent ps acc k :
  k ∉ partTypes ps -> k <> "literal" ->
  fold_left collect ps acc !! k = acc !! k.
Proof.
  revert acc. induction ps as [|[t v] ps IH]; intros acc Hk Hl; [done|].
  simpl. unfold partTypes in *. simpl in Hk. rewrite filter_cons in Hk.
  unfold collect at 2. simpl.
  destruct (String.eqb_spec t "literal") as [->|Ht].
  - destruct (decide ("literal" <> "literal")); [done|]. by apply IH.
  - destruct (decide (t <> "literal")); [|done].
    apply not_elem_of_cons in Hk as [Hkt Hk].
    rewrite IH by done. by rewrite lookup_insert_ne.
Qed.

Lemma collect_present ps acc k v :
  NoDup (partTypes ps) -> k <> "literal" -> (k, v) ∈ ps ->
  fold_left collect ps acc !! k = Some v.
Proof.
  revert acc. induction ps as [|[t v'] ps IH]; intros acc Hnd Hl Hin.
  { by apply elem_of_nil in Hin. }
  simpl. unfold partTypes in *. simpl in Hnd. rewrite filter_cons in Hnd.
  unfold collect at 2. simpl.
  destruct (String.eqb_spec t "literal") as [->|Ht].
  - destruct (decide ("literal" <> "literal")); [done|].
    apply elem_of_cons in Hin as [[= -> ->]|Hin]; [done|]. by apply IH.
  - destruct (decide (t <> "literal")); [|done].
    apply NoDup_cons in Hnd as [Hnot Hnd].
    apply elem_of_cons in Hin as [[= -> ->]|Hin].
    + rewrite collect_absent by done. apply lookup_insert_eq.
    + by apply IH.
Qed.

End Parts.

(** [stockholmParts] reads the date and the time from the parts by their
    types: when the formatter gives each type once, the date is the year,
    the month and the day joined by hyphens and the hour and the minute are
    the numbers of their parts, whatever the order of the parts and whatever
    literals stand between them. *)
Theorem stockholmParts_reads_parts `{Platform} (t : Z) (y m d h mi : string) :
  let ps := Intl_formatToParts t in
  NoDup (partTypes ps) ->
  ("year", y) ∈ ps -> ("month", m) ∈ ps -> ("day", d) ∈ ps ->
  ("hour", h) ∈ ps -> ("minute", mi) ∈ ps ->
  stockholmParts t
  = {| yyyyMMdd := y ++ "-" ++ m ++ "-" ++ d;
       hour := Number_ h; minute := Number_ mi |}.
Proof.
  intros ps Hnd Hy Hm Hd Hh Hmi. unfold stockholmParts.
  change (fun (acc : gmap string string) (p : string * string) =>
            if String.eqb (fst p) "literal" then acc
            else <[fst p := snd p]> acc) with collect.
  fold ps.
  rewrite (collect_present ps ∅ "year" y), (collect_present ps ∅ "month" m),
    (collect_present ps ∅ "day" d), (collect_present ps ∅ "hour" h),
    (collect_present ps ∅ "minute" mi) by done.
  reflexivity.
Qed.

(** The parts of 23:59 on 2 November 2024. *)
Lemma stockholmParts_reads_parts_witness :
  stockholmParts t2359
  = {| yyyyMMdd := "2024-11-02"; hour := Num 23; minute := Num 59 |}.
Proof.
  rewrite (stockholmParts_reads_parts t2359 "2024" "11" "02" "23" "59").
  - vm_compute. reflexivity.
  - apply (bool_decide_unpack _). vm_compute. exact I.
  - vm_compute. repeat constructor.
  - vm_compute. repeat constructor.
  - vm_compute. repeat constructor.
  - vm_compute. repeat constructor.
  - vm_compute. repeat constructor.
Defined.

(** ** A fetch without records *)

(** A run that fetches no record finishes with all its counters at zero,
    without a call to the board and without a delay; when it is a scheduled
    run and no dry run it advances the stored state all the same, so the
    next window starts at its finishing time. *)
Theorem empty_fetch_completes `{Platform} (W : World) (force : bool)
    (s s' : State) (result : SyncResult) :
  runSync W force s = (Ok (Finished result), s') ->
  fetched result = 0%nat ->
  let evs := drop (length (journal s)) (journal s') in
  counts result = zero
  /\ board_calls evs = [] /\ delays evs = []
  /\ storage s'
     = if negb force && negb (getEnvBool W "DRY_RUN" false)
       then <[ranKey := stockholmDate result]>
              (<[lastRunKey := finishedUtc result]> (storage s))
       else storage s.
Proof.
  intros Hrun Hzero evs. subst evs.
  pose proof (runSync_Run W force s) as R. rewrite Hrun in R. simpl in R.
  destruct (Run_effects W force s _ _ R) as (evs & _ & Heff). simpl in Heff.
  destruct Heff as (_ & _ & _ & _ & _ & Hadv).
  destruct (Run_fetch W force s _ _ R)
    as [(evs' & _ & _ & _ & _ & Hno)
       |(secrets & cfg & w & s1 & pre & url & post & Hc & Hw & Hj1 & Hf1 & Hb1
         & Hd1 & Hurl & Hj & Hr)]; [by destruct (Hno result)|].
  destruct ((fetchCustomers W secrets w s1).1) as [customers|e];
    [|by destruct Hr].
  inversion Hr as [| |loop cnt t3 nowISO Hloop Hfor Htot Ht3 Hiso Hres Hs'].
  subst. simpl in *.
  apply length_zero_iff_nil in Hzero. subst customers. simpl in Hfor.
  apply (f_equal snd) in Hfor. simpl in Hfor.
  assert (cnt = zero) as -> by (by apply (f_equal vars) in Hfor).
  assert (loop = []) as ->.
  { apply (f_equal journal) in Hfor. simpl in Hfor.
    rewrite <- (app_nil_r (journal s1 ++ _)) in Hfor at 1.
    by apply app_inv_head in Hfor. }
  split; [done|].
  match goal with |- _ /\ _ /\ ?G => assert (Hstore : G) end.
  { simpl in Hadv. rewrite andb_true_r in Hadv.
    by destruct (negb force && negb (getEnvBool W "DRY_RUN" false));
      destruct Hadv. }
  assert (Hpost : board_calls post = [] /\ delays post = []).
  { unfold advances in Hj. simpl in Hj.
    destruct (negb force && negb (dryRun cfg)); simpl in Hj;
      rewrite <- app_assoc in Hj; apply app_inv_head in Hj;
      simpl in Hj; by simplify_eq. }
  destruct Hpost as [Hbp Hdp].
  split_and!; [| |done].
  all: rewrite Hj, Hj1, <- app_assoc, drop_app_length.
  all: by rewrite ?board_calls_app, ?delays_app, ?Hb1, ?Hd1.
Qed.

(** A scheduled run that fetches nothing. *)
Lemma empty_fetch_completes_witness :
  let W := world t2359 env0 [] board_empty in
  match runSync W false start with
  | (Ok (Finished result), s') =>
      counts result = zero
      /\ storage s' !! ranKey = Some "2024-11-02"
  | _ => False
  end.
Proof.
  intros W.
  destruct (runSync W false start) as [[[| |result]|e] s'] eqn:E.
  1, 2, 4: vm_compute in E; discriminate E.
  destruct (empty_fetch_completes W false start s' result E)
    as (Hc & _ & _ & Hs).
  - vm_compute in E. injection E as <- _. reflexivity.
  - split; [exact Hc|].
    assert (Hb : negb false && negb (getEnvBool W "DRY_RUN" false) = true)
      by (vm_compute; reflexivity).
    rewrite Hb in Hs. rewrite Hs, lookup_insert_eq.
    vm_compute in E. injection E as <- _. reflexivity.
Defined.

(** ** The HTTP endpoints *)

Section Endpoints.

Context `{Platform} (W : World).

(** The [catch] block of a handler answers 500 and logs one entry. *)
Lemma syncFailed_run failed e s :
  syncFailed failed e s
  = (Ok {| code := 500; body := ErrorJson (exn_message e) |},
     log_event (EvLog (if String.eqb (exn_name e) "MondayAuthError"
                       then authHint else failed)) s).
Proof.
  unfold syncFailed, logger_error. munfold.
  by destruct (String.eqb (exn_name e) "MondayAuthError").
Qed.

Lemma cronSyncCustomers_unfold s :
  cronSyncCustomers W s
  = match runSync W false s with
    | (Ok out, s1) =>
        (Ok (if skipped out then {| code := 204; body := NoBody |}
             else {| code := 200; body := OutcomeJson out |}), s1)
    | (Throw e, s1) => syncFailed "sync failed" e s1
    end.
Proof.
  unfold cronSyncCustomers. munfold.
  destruct (runSync W false s) as [[out|e] s1]; [|done]. by destruct (skipped out).
Qed.

Lemma manualRun_unfold header s :
  manualRun W header s
  = match getEnv W "MANUAL_RUN_KEY" with
    | None => (Ok {| code := 404; body := NoBody |}, s)
    | Some key =>
        if negb (truthy key) then (Ok {| code := 404; body := NoBody |}, s)
        else if negb (String.eqb (default "" header) key)
        then (Ok {| code := 403; body := ErrorJson "Forbidden" |}, s)
        else match runSync W true s with
             | (Ok out, s1) => (Ok {| code := 200; body := OutcomeJson out |}, s1)
             | (Throw e, s1) => syncFailed "manual sync failed" e s1
             end
    end.
Proof.
  unfold manualRun. munfold.
  destruct (getEnv W "MANUAL_RUN_KEY") as [key|]; simpl; [|done].
  destruct (truthy key); simpl; [|done].
  destruct (String.eqb _ key); simpl; [|done].
  by destruct (runSync W true s) as [[out|e] s1].
Qed.

(** [getEnv] answers the trimmed value, unless the variable is unset or
    blank. *)
Lemma getEnv_trimmed name :
  getEnv W name
  = match process_env W !! name with
    | Some v => if decide (trim v = "") then None else Some (trim v)
    | None => None
    end.
Proof.
  unfold getEnv. destruct (process_env W !! name) as [v|]; [|done].
  destruct (decide (trim v = "")) as [Ht|Ht].
  - rewrite Ht. simpl. by rewrite andb_false_r.
  - assert (Hv : v <> "") by (intros ->; by rewrite trim_empty in Ht).
    apply truthy_true in Ht, Hv. by rewrite Ht, Hv.
Qed.

End Endpoints.

(** The cron endpoint always answers, with 204, 200 or 500.  It answers 204
    with an empty body when the run was skipped: the Stockholm time is not
    23:59 or today's date is stored; such a request makes no fetch, no call
    to the board and no write.  It answers 200 with the result when the run
    finished.  It answers 500 with the message of the exception when
    [runSync] threw; it then logs one entry (the hint to rotate the token for
    a [MondayAuthError], [sync failed] otherwise) and the storage is as it
    was. *)
Theorem cron_endpoint_replies `{Platform} (W : World) (s : State) :
  exists resp s' evs,
    cronSyncCustomers W s = (Ok resp, s')
    /\ journal s' = (journal s ++ evs)%list
    /\ ((resp = {| code := 204; body := NoBody |}
         /\ (gate_open W false s = false
             \/ storage s !! ranKey = Some (today W s))
         /\ s' = (runSync W false s).2
         /\ fetches evs = [] /\ board_calls evs = [] /\ storage_writes evs = []
         /\ storage s' = storage s)
        \/ (exists result,
              resp = {| code := 200; body := OutcomeJson (Finished result) |}
              /\ runSync W false s = (Ok (Finished result), s'))
        \/ (exists e s1,
              resp = {| code := 500; body := ErrorJson (exn_message e) |}
              /\ runSync W false s = (Throw e, s1)
              /\ s' = log_event
                        (EvLog (if String.eqb (exn_name e) "MondayAuthError"
                                then authHint else "sync failed")) s1
              /\ storage_writes evs = []
              /\ storage s' = storage s)).
Proof.
  rewrite cronSyncCustomers_unfold.
  destruct (Run_effects W false s _ _ (runSync_Run W false s)) as (evs & Hj & Hr).
  destruct (runSync W false s) as [[[| |result]|e] s1]; simpl in *.
  - destruct Hr as (Hg & -> & Hs).
    eexists _, _, _. split; [done|]. split; [done|]. left. by repeat split; auto.
  - destruct Hr as (_ & -> & Hst & -> & Hs).
    eexists _, _, _. split; [done|]. split; [done|]. left. by repeat split; auto.
  - eexists _, _, _. split; [done|]. split; [done|]. right; left. by exists result.
  - rewrite syncFailed_run. destruct Hr as [Hw Hs].
    eexists _, _, (evs ++ [EvLog _])%list. split; [done|].
    split; [simpl; by rewrite Hj, <- app_assoc|].
    right; right. exists e, s1. split; [done|]. split; [done|]. split; [done|].
    split; [|done]. by rewrite storage_writes_app, Hw.
Qed.

(** At noon the cron endpoint answers 204; at 23:59 it answers 200 with the
    result; when the board rejects the token it answers 500 and logs the
    hint to rotate the token. *)
Example cron_endpoint_cases :
  (cronSyncCustomers (world noon env0 [alice] board_empty) start).1
  = Ok {| code := 204; body := NoBody |}
  /\ code <$> (match (cronSyncCustomers (world t2359 env0 [alice] board_empty)
                        start).1 with Ok resp => Some resp | _ => None end)
     = Some 200
  /\ cronSyncCustomers (world t2359 env0 [alice] board_locked) start
     = (Ok {| code := 500;
              body := ErrorJson "monday auth failed HTTP 401: no" |},
        log_events
          [EvNow t2359; EvStorageGet ranKey; EvStorageGet lastRunKey;
           EvNow t2359; EvNow t2359; EvGoCreate request0;
           find_call settings0 alice; EvLog authHint] start).
Proof. vm_compute. repeat split. Qed.

(** The manual endpoint runs the sync only for a request that carries the
    configured key.  With [MANUAL_RUN_KEY] unset, empty or blank, so that
    [trim] leaves nothing of it, it answers 404; with a key configured, a
    request whose [x-manual-run-key] header is missing or differs from the
    trimmed key is answered 403.  In both cases nothing is read, called or
    written. *)
Theorem manual_endpoint_guarded `{Platform} (W : World) (header : option string)
    (s : State) :
  match process_env W !! "MANUAL_RUN_KEY" with
  | Some v =>
      if decide (trim v = "")
      then manualRun W header s = (Ok {| code := 404; body := NoBody |}, s)
      else if decide (header = Some (trim v))
           then exists resp s',
                  manualRun W header s = (Ok resp, s')
                  /\ (code resp = 200 \/ code resp = 500)
           else manualRun W header s
                = (Ok {| code := 403; body := ErrorJson "Forbidden" |}, s)
  | None => manualRun W header s = (Ok {| code := 404; body := NoBody |}, s)
  end.
Proof.
  rewrite manualRun_unfold, getEnv_trimmed.
  destruct (process_env W !! "MANUAL_RUN_KEY") as [v|]; [|done].
  destruct (decide (trim v = "")) as [Hws|Hws]; [done|].
  assert (Ht : truthy (trim v) = true) by (by apply truthy_true).
  rewrite Ht. simpl.
  destruct (decide (header = Some (trim v))) as [->|Hh].
  - simpl. rewrite String.eqb_refl. simpl.
    destruct (runSync W true s) as [[out|e] s1].
    + eexists _, _. split; [done|]. by left.
    + rewrite syncFailed_run. eexists _, _. split; [done|]. by right.
  - destruct (String.eqb_spec (default "" header) (trim v)) as [He|He]; [|done].
    destruct header as [h|]; simpl in He.
    + by subst.
    + apply truthy_true in Ht. congruence.
Qed.

(** No key configured: 404.  A key configured: 403 without the header, 403
    with the key as it stands in the environment, white space included, and
    a run with the trimmed key. *)
Example manual_endpoint_cases :
  manualRun (world noon env0 [alice] board_empty) (Some "s3cret") start
  = (Ok {| code := 404; body := NoBody |}, start)
  /\ manualRun (world noon env_manual [alice] board_empty) None start
     = (Ok {| code := 403; body := ErrorJson "Forbidden" |}, start)
  /\ manualRun (world noon env_manual [alice] board_empty) (Some " s3cret ") start
     = (Ok {| code := 403; body := ErrorJson "Forbidden" |}, start)
  /\ code <$> (match (manualRun (world noon env_manual [alice] board_empty)
                        (Some "s3cret") start).1
               with Ok resp => Some resp | _ => None end)
     = Some 200.
Proof. vm_compute. repeat split. Qed.

(** A request with the configured key starts a forced run, whatever the time
    and whatever the stored date.  The endpoint answers 200 with the result,
    or 500 with the message of the exception after logging one entry; it
    never answers that the run was skipped, and the stored state is as it
    was, so the scheduled run of the day is not affected. *)
Theorem manual_endpoint_forced `{Platform} (W : World) (header : option string)
    (key : string) (s : State) :
  getEnv W "MANUAL_RUN_KEY" = Some key ->
  header = Some key ->
  exists resp s' evs,
    manualRun W header s = (Ok resp, s')
    /\ journal s' = (journal s ++ evs)%list
    /\ storage_writes evs = [] /\ storage s' = storage s
    /\ ((exists result,
           resp = {| code := 200; body := OutcomeJson (Finished result) |}
           /\ forced result = true
           /\ runSync W true s = (Ok (Finished result), s'))
        \/ (exists e s1,
              resp = {| code := 500; body := ErrorJson (exn_message e) |}
              /\ runSync W true s = (Throw e, s1)
              /\ s' = log_event
                        (EvLog (if String.eqb (exn_name e) "MondayAuthError"
                                then authHint else "manual sync failed")) s1)).
Proof.
  intros Hkey ->. rewrite manualRun_unfold, Hkey.
  assert (Ht : truthy key = true).
  { rewrite getEnv_trimmed in Hkey.
    destruct (process_env W !! "MANUAL_RUN_KEY") as [v|]; [|done].
    destruct (decide (trim v = "")) as [Hws|Hws]; [done|]. injection Hkey as <-.
    by apply truthy_true. }
  rewrite Ht. simpl. rewrite String.eqb_refl. simpl.
  destruct (Run_effects W true s _ _ (runSync_Run W true s)) as (evs & Hj & Hr).
  destruct (runSync W true s) as [[[| |result]|e] s1]; simpl in *.
  - by destruct Hr as (Hg & _).
  - by destruct Hr as (Hf & _).
  - destruct Hr as (_ & _ & _ & Hf & _ & Hw & Hs).
    eexists _, _, evs. split; [done|]. split; [done|]. split; [done|].
    split; [done|]. left. by exists result.
  - rewrite syncFailed_run. destruct Hr as [Hw Hs].
    eexists _, _, (evs ++ [EvLog _])%list. split; [done|].
    split; [simpl; by rewrite Hj, <- app_assoc|].
    split; [by rewrite storage_writes_app, Hw|]. split; [done|].
    right. by exists e, s1.
Qed.

(** The key is compared as trimmed; at noon the forced run goes through. *)
Lemma manual_endpoint_forced_witness :
  let W := world noon env_manual [alice] board_empty in
  exists resp s',
    manualRun W (Some "s3cret") start = (Ok resp, s')
    /\ storage s' = storage start.
Proof.
  intros W.
  destruct (manual_endpoint_forced W (Some "s3cret") "s3cret" start)
    as (resp & s' & evs & Hrun & _ & _ & Hs & _);
    [vm_compute; reflexivity|reflexivity|].
  exists resp, s'. split; [exact Hrun|exact Hs].
Defined.

(** Once a scheduled run has finished without errors (and was no dry run),
    the cron endpoint answers 204 to every later request on the same
    Stockholm date, as long as the stored date stays: such a request makes
    no fetch and no call to the board and leaves the storage as it is. *)
Theorem cron_once_per_day `{Platform} (W : World) (s s1 s2 : State)
    (result : SyncResult) :
  runSync W false s = (Ok (Finished result), s1) ->
  getEnvBool W "DRY_RUN" false = false ->
  errors (counts result) = [] ->
  storage s2 !! ranKey = storage s1 !! ranKey ->
  today W s2 = stockholmDate result ->
  exists s' evs,
    cronSyncCustomers W s2 = (Ok {| code := 204; body := NoBody |}, s')
    /\ journal s' = (journal s2 ++ evs)%list
    /\ fetches evs = [] /\ board_calls evs = []
    /\ storage s' = storage s2.
Proof.
  intros Hrun Hdry Herr Hkey Hdate.
  pose proof (runSync_Run W false s) as R. rewrite Hrun in R. simpl in R.
  destruct (Run_effects W false s _ _ R) as (evs & _ & Hr). simpl in Hr.
  destruct Hr as (_ & _ & _ & _ & _ & Hadv).
  rewrite Hdry, Herr in Hadv. simpl in Hadv. destruct Hadv as [_ Hs1].
  assert (Hstored : storage s2 !! ranKey = Some (today W s2)).
  { rewrite Hkey, Hs1, Hdate. apply lookup_insert_eq. }
  assert (Hconf : exists conf, (configure W s2).1 = Ok conf).
  { destruct (Run_fetch W false s _ _ R)
      as [(evs' & _ & _ & _ & _ & Hno)
         |(secrets & cfg & w & s0 & pre & url & post & Hc & _)];
      [by destruct (Hno result)|].
    exists (secrets, cfg). by rewrite (configure_result W s2 s). }
  destruct Hconf as (conf & Hconf).
  rewrite cronSyncCustomers_unfold.
  pose proof (runSync_Run W false s2) as R2.
  destruct (runSync W false s2) as [r s'].
  assert (Hguard : negb false
                   && bool_decide (storage s2 !! ranKey = Some (today W s2))
                   = true) by (by rewrite bool_decide_eq_true_2).
  simpl in R2. inversion R2; subst; try congruence.
  - by eexists _, [EvNow _].
  - by eexists _, [EvNow _; EvStorageGet _].
Qed.

(** A scheduled run, and the request that follows it within the minute. *)
Lemma cron_once_per_day_witness :
  let W := world t2359 env0 [alice] board_empty in
  match runSync W false start with
  | (Ok (Finished result), s1) =>
      exists s' evs,
        cronSyncCustomers W s1 = (Ok {| code := 204; body := NoBody |}, s')
        /\ journal s' = (journal s1 ++ evs)%list
        /\ fetches evs = [] /\ board_calls evs = []
        /\ storage s' = storage s1
  | _ => False
  end.
Proof.
  intros W.
  destruct (runSync W false start) as [[[| |result]|e] s1] eqn:E.
  1, 2, 4: vm_compute in E; discriminate E.
  apply (cron_once_per_day W start s1 s1 result E).
  - vm_compute. reflexivity.
  - vm_compute in E. injection E as <- _. reflexivity.
  - reflexivity.
  - vm_compute in E. injection E as <- <-. vm_compute. reflexivity.
Defined.

(** ** A token that the board refuses *)

Section DeadToken.

Context `{Platform} (W : World) (cfg : Settings).

Lemma search_refused c s :
  refuses_token W ->
  exists msg, search W cfg c s = Throw (MondayAuthError msg).
Proof.
  intros Hdead.
  destruct (Hdead (journal s) (mondayToken cfg) (find_query cfg c))
    as (res & Hres & Hst).
  destruct (mondayGraphql_unauthorized W _ _ s res Hres Hst) as (msg & Hthrow).
  exists msg. by apply search_throws.
Qed.

(** With a token that the board refuses, the loop stops at the first record
    that has an email, after one call. *)
Lemma forOf_refused cs s :
  refuses_token W ->
  exists evs,
    journal (forOf W cfg cs s).2 = (journal s ++ evs)%list
    /\ match (forOf W cfg cs s).1 with
       | Ok _ => evs = []
       | Throw e => exn_name e = "MondayAuthError"
                    /\ exists c, evs = [find_call cfg c]
       end.
Proof.
  intros Hdead. revert s. induction cs as [|c cs IH]; intros s; simpl.
  - exists []. by rewrite app_nil_r.
  - unfold mbind, M_bind.
    destruct (decide (emailRaw c = "")) as [He|He].
    + rewrite (loopBody_no_email W cfg c s He).
      destruct (IH (set_vars (incr_skippedNoEmail (vars s)) s)) as (evs & Hj & Hr).
      by exists evs.
    + destruct (search_refused c s Hdead) as (msg & Hs).
      rewrite loopBody_unfold, (tryBlock_search W cfg c s He), Hs.
      rewrite catchBlock_auth by done. simpl.
      exists [find_call cfg c]. split; [done|]. split; [done|]. by exists c.
Qed.

End DeadToken.

(** When the board refuses the token (HTTP 401 or 403 to every call), a
    run that reaches a record with an email throws [MondayAuthError] at its
    first call to the board and leaves the stored state as it was; any other
    run makes no call to the board.  The cron endpoint then answers 500 and
    logs the hint to rotate the token. *)
Theorem refused_token_stops_run `{Platform} (W : World) (force : bool)
    (s : State) :
  refuses_token W ->
  let r := (runSync W force s).1 in
  let s' := (runSync W force s).2 in
  let evs := drop (length (journal s)) (journal s') in
  board_calls evs = []
  \/ (exists e c cfg,
         r = Throw e /\ exn_name e = "MondayAuthError"
         /\ board_calls evs = [find_call cfg c]
         /\ storage s' = storage s
         /\ (force = false ->
             cronSyncCustomers W s
             = (Ok {| code := 500; body := ErrorJson (exn_message e) |},
                log_event (EvLog authHint) s'))).
Proof.
  intros Hdead r s' evs. subst r s' evs.
  pose proof (runSync_Run W force s) as R.
  destruct (runSync W force s) as [r s'] eqn:Hrun. simpl in *.
  destruct (Run_effects W force s _ _ R) as (evs0 & _ & Heff).
  destruct (Run_fetch W force s _ _ R)
    as [(evs & Hj & _ & Hb & _ & Hno)
       |(secrets & cfg & w & s1 & pre & url & post & Hc & Hw & Hj1 & Hf1 & Hb1
         & Hd1 & Hurl & Hj & Hr)].
  - left. by rewrite Hj, drop_app_length.
  - rewrite Hj, Hj1, <- app_assoc, drop_app_length, board_calls_app, Hb1.
    simpl.
    destruct ((fetchCustomers W secrets w s1).1) as [customers|e].
    2:{ left. by destruct Hr as [_ ->]. }
    destruct (Pass_board W force _ _ _ _ _ _ _ Hr)
      as (loop & tail & r0 & cnt & Hloop & Hj3 & Ht).
    assert (post = (loop ++ tail)%list) as ->.
    { rewrite Hj in Hj3. simpl in Hj3. rewrite <- app_assoc in Hj3.
      apply app_inv_head in Hj3. simpl in Hj3. by simplify_eq. }
    rewrite board_calls_app, Ht, app_nil_r.
    destruct (forOf_refused W cfg customers
                (set_vars zero
                   (log_event (EvGoCreate (fetch_request secrets w url)) s1))
                Hdead) as (evs & Hje & Hres).
    rewrite Hloop in Hje, Hres. simpl in Hje, Hres.
    apply app_inv_head in Hje. subst evs.
    destruct r0 as [[]|e]; [left; by subst loop|].
    destruct Hres as (Hname & c & ->). right.
    assert (r = Throw e) as ->.
    { inversion Hr as [e' evs' cnt' Hb' Hfor|evs' cnt' t3 Hb' Hfor
                      |evs' cnt' t3 nowISO Hb' Hfor];
        rewrite Hfor in Hloop; congruence. }
    destruct Heff as [_ Hst].
    exists e, c, cfg. split; [done|]. split; [done|]. split; [done|].
    split; [done|]. intros ->.
    rewrite cronSyncCustomers_unfold, Hrun, syncFailed_run. by rewrite Hname.
Qed.

(** A scheduled run against a board that rejects the token. *)
Lemma refused_token_stops_run_witness :
  let W := world t2359 env0 [nobody; alice; bob] board_locked in
  exists e, (runSync W false start).1 = Throw e
            /\ exn_name e = "MondayAuthError"
            /\ storage (runSync W false start).2 = storage start.
Proof.
  intros W.
  destruct (refused_token_stops_run W false start)
    as [Hnone|(e & c & cfg & Hr & Hn & _ & Hs & _)].
  - intros j token q. eexists. split; [reflexivity|by left].
  - vm_compute in Hnone. discriminate Hnone.
  - exists e. split; [exact Hr|]. split; [exact Hn|exact Hs].
Defined.

(** ** The accounts of a run *)

Section Accounts.

Context `{Platform} (W : World) (cfg : Settings).

(** What one iteration adds to the counters. *)
Lemma loopBody_accounts c s :
  (loopBody W cfg c s).1 = Ok tt ->
  let v := vars s in
  let v' := vars (loopBody W cfg c s).2 in
  if decide (trim (default "" (Email c)) = "")
  then skippedNoEmail v' = S (skippedNoEmail v)
       /\ (upserted v' + length (errors v') = upserted v + length (errors v))%nat
  else skippedNoEmail v' = skippedNoEmail v
       /\ (upserted v' + length (errors v')
           = S (upserted v + length (errors v)))%nat.
Proof.
  intros Hok v v'. subst v v'.
  destruct (decide (trim (default "" (Email c)) = "")) as [Hb|He].
  - rewrite (loopBody_no_email W cfg c s Hb). by unfold upserted.
  - change (emailRaw c <> "") in He.
    revert Hok. rewrite loopBody_unfold.
    pose proof (tryBlock_Attempt W cfg c s) as A.
    destruct (tryBlock W cfg c s) as [[[]|e] s1]; simpl in A.
    + intros _. inversion A as [Hno|found _ Hs| |]; subst; [done|]. simpl.
      destruct (count_upsert_upserted cfg found (vars s)) as (-> & -> & ->).
      split; [done|lia].
    + assert (vars s1 = vars s) as Hv by (by inversion A; subst).
      destruct (decide (exn_name e = "MondayAuthError")) as [Hn|Hn].
      * by rewrite (catchBlock_auth _ _ _ Hn).
      * rewrite (catchBlock_other _ _ _ Hn). intros _. simpl. rewrite Hv.
        unfold upserted. simpl. rewrite length_app. simpl. split; [done|lia].
Qed.

Lemma forOf_accounts cs s :
  (forOf W cfg cs s).1 = Ok tt ->
  let v := vars s in
  let v' := vars (forOf W cfg cs s).2 in
  skippedNoEmail v'
  = (skippedNoEmail v
     + length (filter (fun c => trim (default "" (Email c)) = "") cs))%nat
  /\ (upserted v' + length (errors v')
      = upserted v + length (errors v)
        + length (filter (fun c => trim (default "" (Email c)) <> "") cs))%nat.
Proof.
  revert s. induction cs as [|c cs IH]; intros s; simpl.
  - intros _. split; lia.
  - unfold mbind, M_bind.
    pose proof (loopBody_accounts c s) as Hc.
    destruct (loopBody W cfg c s) as [[[]|e] s1]; [|done]. simpl in Hc.
    intros Hok. destruct (IH s1 Hok) as [IH1 IH2].
    specialize (Hc eq_refl). rewrite !filter_cons.
    destruct (decide (trim (default "" (Email c)) = "")) as [Hb|Hb].
    + destruct (decide (trim (default "" (Email c)) <> "")); [done|].
      destruct Hc as [Hc1 Hc2]. simpl. split; lia.
    + destruct (decide (trim (default "" (Email c)) <> "")); [|done].
      destruct Hc as [Hc1 Hc2]. simpl. split; lia.
Qed.

(** With [UPDATE_EXISTING] off the loop makes no update. *)
Lemma forOf_keep cs s :
  updateExisting cfg = false ->
  exists evs,
    journal (forOf W cfg cs s).2 = (journal s ++ evs)%list
    /\ Forall (fun ev => is_update ev = false) evs
    /\ updated (vars (forOf W cfg cs s).2) = updated (vars s).
Proof.
  intros Hkeep. revert s. induction cs as [|c cs IH]; intros s; simpl.
  - exists []. by rewrite app_nil_r.
  - unfold mbind, M_bind.
    assert (exists evs1,
               journal (loopBody W cfg c s).2 = (journal s ++ evs1)%list
               /\ Forall (fun ev => is_update ev = false) evs1
               /\ updated (vars (loopBody W cfg c s).2) = updated (vars s))
      as (evs1 & Hj1 & Hf1 & Hu1).
    { destruct (decide (emailRaw c = "")) as [He|He].
      - rewrite (loopBody_no_email W cfg c s He). exists []. simpl.
        by rewrite app_nil_r.
      - destruct (loopBody_email W cfg c s He)
          as (w & tail & cnt & Hs & Hw & Htail).
        exists (find_call cfg c :: w ++ tail)%list. rewrite Hs.
        split; [done|]. split.
        + constructor; [done|]. apply Forall_app. split.
          * rewrite Hw. destruct (search W cfg c s) as [found|]; [|constructor].
            unfold upsert_call. rewrite Hkeep.
            destruct (dryRun cfg), found; by repeat constructor.
          * destruct Htail as [[-> _]|[-> _]]; by repeat constructor.
        + simpl.
          destruct Htail as [(_ & _ & found & _ & ->)|(_ & e & _ & [-> | ->])];
            [|done|done].
          unfold count_upsert. rewrite Hkeep. by destruct found. }
    destruct (loopBody W cfg c s) as [[[]|e] s1]; simpl in Hj1, Hu1.
    + destruct (IH s1) as (evs2 & Hj2 & Hf2 & Hu2).
      exists (evs1 ++ evs2)%list. split; [by rewrite Hj2, Hj1, <- app_assoc|].
      split; [by apply Forall_app|congruence].
    + by exists evs1.
Qed.

End Accounts.

(** In the result of a finished run, [skippedNoEmail] is the number of
    fetched records of whose [Email] nothing is left by [trim] (it is
    missing, empty or white space only), and [created], [updated],
    [skippedExisting] and the entries of [errors] together are as many as
    the other fetched records. *)
Theorem counters_account_for_emails `{Platform} (W : World) (force : bool)
    (s s' : State) (result : SyncResult) :
  runSync W force s = (Ok (Finished result), s') ->
  exists pre req res j,
    journal s' !! (length (journal s) + length pre)%nat = Some (EvGoCreate req)
    /\ gocreate_api W (journal s ++ pre) req = Some res /\ json res = Some j
    /\ let records := default [] (CustomerInfo j) in
       skippedNoEmail (counts result)
       = length (filter (fun c => trim (default "" (Email c)) = "") records)
       /\ (created (counts result) + updated (counts result)
           + skippedExisting (counts result) + length (errors (counts result))
           = length (filter (fun c => trim (default "" (Email c)) <> "") records))%nat.
Proof.
  intros Hrun.
  pose proof (runSync_Run W force s) as R. rewrite Hrun in R. simpl in R.
  destruct (Run_fetch W force s _ _ R)
    as [(evs & _ & _ & _ & _ & Hno)
       |(secrets & cfg & w & s1 & pre & url & post & Hc & Hw & Hj1 & Hf1 & Hb1
         & Hd1 & Hurl & Hj & Hr)]; [by destruct (Hno result)|].
  rewrite (fetchCustomers_answer W secrets w s1 url Hurl), Hj1 in Hr.
  exists pre, (fetch_request secrets w url).
  destruct (gocreate_api W (journal s ++ pre) _) as [res|]; [|by destruct Hr].
  destruct (ok res) eqn:Hok; simpl in Hr; [|by destruct Hr].
  destruct (json res) as [j|] eqn:Hjson; [|by destruct Hr].
  destruct (bool_decide (IsValidResult j = Some false)); [by destruct Hr|].
  exists res, j. split.
  { rewrite Hj, Hj1, <- app_assoc, lookup_app_r by lia.
    replace (length (journal s) + length pre - length (journal s))%nat
      with (length pre + 0)%nat by lia.
    by rewrite lookup_app_r, Nat.add_0_r, Nat.sub_diag by lia. }
  split; [done|]. split; [done|].
  inversion Hr as [| |loop cnt t3 nowISO Hloop Hfor Htot Ht3 Hiso Hres Hs'].
  subst. simpl.
  pose proof (forOf_accounts W cfg (default [] (CustomerInfo j))
                (set_vars zero
                   (log_event (EvGoCreate (fetch_request secrets w url)) s1)))
    as Hacc.
  rewrite Hfor in Hacc. destruct (Hacc eq_refl) as [Ha1 Ha2].
  simpl in Ha1, Ha2. unfold upserted in Ha2. simpl in Ha2. split; [done|lia].
Qed.

(** Three records, one of them without an email. *)
Lemma counters_account_for_emails_witness :
  match runSync (world t2359 env0 [alice; nobody; bob] board_empty) true start with
  | (Ok (Finished result), _) =>
      skippedNoEmail (counts result) = 1%nat
      /\ (created (counts result) + updated (counts result)
          + skippedExisting (counts result) + length (errors (counts result))
          = 2)%nat
  | _ => False
  end.
Proof.
  destruct (runSync _ true start) as [[[| |result]|e] s'] eqn:E.
  1, 2, 4: vm_compute in E; discriminate E.
  destruct (counters_account_for_emails _ true start s' result E)
    as (pre & req & res & j & _ & Hres & Hj & Hskip & Hrest).
  simpl in Hres. injection Hres as <-. simpl in Hj. injection Hj as <-.
  rewrite Hskip, Hrest. split; vm_compute; reflexivity.
Defined.

(** With [UPDATE_EXISTING] off a run makes no update: none of its calls to
    the board is a [change_multiple_column_values], and a result reports
    [updated] as zero. *)
Theorem keep_existing_never_updates `{Platform} (W : World) (force : bool)
    (s : State) :
  getEnvBool W "UPDATE_EXISTING" true = false ->
  Forall (fun ev => is_update ev = false)
    (drop (length (journal s)) (journal (runSync W force s).2))
  /\ forall result, (runSync W force s).1 = Ok (Finished result) ->
                    updated (counts result) = 0%nat.
Proof.
  intros Hkeep.
  pose proof (runSync_Run W force s) as R.
  destruct (runSync W force s) as [r s'] eqn:Hrun. simpl in *.
  destruct (Run_fetch W force s _ _ R)
    as [(evs & Hj & _ & Hb & _ & Hno)
       |(secrets & cfg & w & s1 & pre & url & post & Hc & Hw & Hj1 & Hf1 & Hb1
         & Hd1 & Hurl & Hj & Hr)].
  - rewrite Hj, drop_app_length. split; [|by intros result ->; destruct (Hno result)].
    apply Forall_forall. intros ev Hin. destruct ev; try done.
    apply board_calls_elem in Hin. rewrite Hb in Hin. by apply elem_of_nil in Hin.
  - rewrite Hj, Hj1, <- app_assoc, drop_app_length.
    assert (Hpre : Forall (fun ev => is_update ev = false) pre).
    { apply Forall_forall. intros ev Hin. destruct ev; try done.
      apply board_calls_elem in Hin. rewrite Hb1 in Hin.
      by apply elem_of_nil in Hin. }
    destruct ((fetchCustomers W secrets w s1).1) as [customers|e].
    2:{ destruct Hr as [-> ->]. split; [|done].
        apply Forall_app. split; [done|by repeat constructor]. }
    apply configure_switches in Hc as [_ Hupd]. rewrite Hkeep in Hupd.
    destruct (forOf_keep W cfg customers
                (set_vars zero
                   (log_event (EvGoCreate (fetch_request secrets w url)) s1))
                Hupd) as (evs & Hje & Hfe & Hue).
    destruct (Pass_board W force _ _ _ _ _ _ _ Hr)
      as (loop & tail & r0 & cnt & Hloop & Hj3 & Ht).
    assert (post = (loop ++ tail)%list) as ->.
    { rewrite Hj in Hj3. simpl in Hj3. rewrite <- app_assoc in Hj3.
      apply app_inv_head in Hj3. simpl in Hj3. by simplify_eq. }
    rewrite Hloop in Hje, Hue. simpl in Hje, Hue.
    apply app_inv_head in Hje. subst evs. split.
    + apply Forall_app. split; [done|]. constructor; [done|].
      apply Forall_app. split; [done|].
      apply Forall_forall. intros ev Hin. destruct ev; try done.
      apply board_calls_elem in Hin. rewrite Ht in Hin.
      by apply elem_of_nil in Hin.
    + intros result ->.
      inversion Hr as [| |evs' cnt' t3 nowISO Hb' Hfor]; subst.
      rewrite Hfor in Hloop. apply (f_equal snd) in Hloop.
      apply (f_equal vars) in Hloop. simpl in Hloop. subst cnt'. exact Hue.
Qed.

(** Bob is known to the board and [UPDATE_EXISTING] is off. *)
Lemma keep_existing_never_updates_witness :
  let W := world t2359 env_keep [bob] board_full in
  Forall (fun ev => is_update ev = false)
    (drop (length (journal start)) (journal (runSync W true start).2)).
Proof.
  intros W. apply (keep_existing_never_updates W true start).
  vm_compute. reflexivity.
Defined.

(** The stored state is advanced at the very end of a run: when a run
    writes to the storage, the two writes are the last two entries of its
    journal, [sync:lastRunISO] before [sync:lastRunDateStockholm], after the
    last call to the board and after the log entry. *)
Theorem state_is_advanced_last `{Platform} (W : World) (force : bool)
    (s : State) :
  let evs := drop (length (journal s)) (journal (runSync W force s).2) in
  storage_writes evs <> [] ->
  exists pre result,
    (runSync W force s).1 = Ok (Finished result)
    /\ evs = (pre ++ [EvLog "sync finished";
                      EvStorageSet lastRunKey (finishedUtc result);
                      EvStorageSet ranKey (stockholmDate result)])%list
    /\ storage_writes pre = [].
Proof.
  intros evs Hw. subst evs.
  pose proof (runSync_Run W force s) as R.
  destruct (runSync W force s) as [r s'] eqn:Hrun. simpl in *.
  destruct (Run_effects W force s _ _ R) as (evs & Hje & Heff).
  rewrite Hje, drop_app_length in Hw |- *.
  destruct (Run_fetch W force s _ _ R)
    as [(evs' & Hj & _ & _ & _ & Hno)
       |(secrets & cfg & w & s1 & pre & url & post & Hc & Hw1 & Hj1 & Hf1 & Hb1
         & Hd1 & Hurl & Hj & Hr)].
  - exfalso. destruct r as [[| |result]|e].
    + by destruct Heff as (_ & -> & _).
    + by destruct Heff as (_ & _ & _ & -> & _).
    + by destruct (Hno result).
    + by destruct Heff.
  - destruct ((fetchCustomers W secrets w s1).1) as [customers|e].
    2:{ destruct Hr as [-> _]. by destruct Heff. }
    assert (Hpre : storage_writes pre = []).
    { destruct (Window_quiet W _ _ _ Hw1) as (evs1 & -> & Hq & _).
      destruct (guard_reads_quiet force (opening W s)) as [Hg _].
      simpl in Hj1. rewrite <- app_assoc in Hj1. apply app_inv_head in Hj1.
      subst pre. by rewrite storage_writes_app, Hg, Hq. }
    inversion Hr as [e evs' cnt Hb Hfor|evs' cnt t3 Hb Hfor
                    |loop cnt t3 nowISO Hb Hfor Htot Ht3 Hiso Hres Hs'];
      subst r.
    1, 2: by destruct Heff.
    destruct (board_or_sleep_quiet loop Hb) as [Hql _].
    assert (evs = (pre ++ EvGoCreate (fetch_request secrets w url) :: post)%list)
      as ->.
    { rewrite Hje, Hj1, <- app_assoc in Hj. by apply app_inv_head in Hj. }
    assert (Hpost : post = (loop ++ [EvNow t3; EvLog "sync finished"]
                            ++ (if advances force cfg cnt
                                then commit (today W s) nowISO else []))%list).
    { rewrite <- Hs' in Hj. destruct (advances force cfg cnt); simpl in Hj;
        rewrite <- app_assoc in Hj; apply app_inv_head in Hj; simpl in Hj;
        simplify_eq; [done|by rewrite app_nil_r]. }
    destruct (advances force cfg cnt).
    + eexists (pre ++ EvGoCreate (fetch_request secrets w url) :: loop
               ++ [EvNow t3])%list, _.
      split; [done|]. split.
      * rewrite Hpost. simpl. rewrite <- !app_assoc. simpl.
        by rewrite <- !app_assoc.
      * rewrite !storage_writes_app, Hpre. simpl.
        by rewrite storage_writes_app, Hql.
    + exfalso. apply Hw. rewrite Hpost, storage_writes_app, Hpre. simpl.
      by rewrite storage_writes_app, Hql.
Qed.

(** A scheduled run without errors. *)
Lemma state_is_advanced_last_witness :
  let W := world t2359 env0 [alice] board_empty in
  exists pre result,
    (runSync W false start).1 = Ok (Finished result)
    /\ drop (length (journal start)) (journal (runSync W false start).2)
       = (pre ++ [EvLog "sync finished";
                  EvStorageSet lastRunKey (finishedUtc result);
                  EvStorageSet ranKey (stockholmDate result)])%list
    /\ storage_writes pre = [].
Proof.
  intros W. apply (state_is_advanced_last W false start).
  vm_compute. discriminate.
Defined.
